(** * vtimestamp: the VDXF record codec, the RPC gateway and the
      pending-operation registries, embedded from the TypeScript sources

    Conventions of the embedding.
    - A JavaScript [number] is an integer of [Z]; the embedding is exact on
      the safe-integer range |n| <= 2^53 - 1, which is where the code uses
      numbers as integers (byte counts, block heights, millisecond clocks).
      Outside that range a double is not the integer [Z] holds (a decimal
      string is read to the nearest double, a large number is printed in
      exponent form), and a fraction has no counterpart in [Z]: a theorem
      whose statement depends on the value of a number that went through
      [parseInt] or [toString] carries the range as a hypothesis.
    - A JavaScript [string] is a [string] over the ASCII alphabet.
    - [undefined] and absent properties are [None].
    - A [Map<string, V>] and an object used as a dictionary are [gmap string V].
    - [Date.now()] is an explicit argument: each call site takes the reading
      of the clock it makes.
    - Values follow their declared TypeScript types. *)

From Stdlib Require Import ZArith Ascii String List Lia.
From Stdlib Require Strings.Byte.
From stdpp Require Import base option list strings gmap pretty.
From stdpp Require Import sorting.

Local Open Scope Z_scope.

(* ===================================================================== *)
(** * JavaScript primitives the code relies on *)
(* ===================================================================== *)

Module Js.

(** [!s] is false exactly for the non-empty strings. *)
Definition truthy (s : string) : bool :=
  if decide (s = "") then false else true.

(** [!o] for [o : string | undefined]. *)
Definition truthyOpt (o : option string) : bool :=
  match o with
  | Some s => truthy s
  | None => false
  end.

Definition isUpper (c : ascii) : bool :=
  let n := N_of_ascii c in ((65 <=? n) && (n <=? 90))%N.

Definition toLowerCaseChar (c : ascii) : ascii :=
  if isUpper c then ascii_of_N (N_of_ascii c + 32) else c.

(** [String.prototype.toLowerCase] on ASCII text. *)
Fixpoint toLowerCase (s : string) : string :=
  match s with
  | EmptyString => EmptyString
  | String c s' => String (toLowerCaseChar c) (toLowerCase s')
  end.

(** White space and line terminators that [parseInt] strips (ASCII part):
    TAB, LF, VT, FF, CR, SP. *)
Definition isWhiteSpace (c : ascii) : bool :=
  let n := N_of_ascii c in
  (((9 <=? n) && (n <=? 13)) || (n =? 32))%N.

Fixpoint trimStart (s : string) : string :=
  match s with
  | String c s' => if isWhiteSpace c then trimStart s' else s
  | EmptyString => EmptyString
  end.

Definition digitValue (c : ascii) : option N :=
  let n := N_of_ascii c in
  if ((48 <=? n) && (n <=? 57))%N then Some (n - 48)%N else None.

(** The longest prefix of decimal digits. *)
Fixpoint takeDigits (s : string) : list N :=
  match s with
  | String c s' =>
      match digitValue c with
      | Some d => d :: takeDigits s'
      | None => []
      end
  | EmptyString => []
  end.

(** The integer a digit sequence denotes in radix 10. *)
Definition radix10 (ds : list N) : N :=
  fold_left (fun acc d => (10 * acc + d)%N) ds 0%N.

(** [parseInt(s, 10)]; [None] is [NaN]. The result is the integer the
    digits denote, which is what the code gets when that integer is a safe
    integer; see [isSafeInteger]. *)
Definition parseInt10 (s : string) : option Z :=
  let S1 := trimStart s in
  let '(sign, S2) :=
    match S1 with
    | String "-" r => (-1, r)
    | String "+" r => (1, r)
    | _ => (1, S1)
    end in
  match takeDigits S2 with
  | [] => None
  | ds => Some (sign * Z.of_N (radix10 ds))
  end.

(** [Number.prototype.toString()] of a safe integer: its decimal digits,
    with a minus sign when negative. *)
Definition Number_toString (n : Z) : string := pretty n.

Definition MAX_SAFE_INTEGER : Z := 2 ^ 53 - 1.

Definition isSafeInteger (n : Z) : Prop :=
  - MAX_SAFE_INTEGER <= n <= MAX_SAFE_INTEGER.

End Js.

(* ===================================================================== *)
(** * config.ts *)
(* ===================================================================== *)

Module Config.

Inductive Network := testnet | mainnet.

(** [PUBLIC_VERUS_NETWORK === 'mainnet' ? 'mainnet' : 'testnet'] *)
Definition CURRENT_NETWORK (PUBLIC_VERUS_NETWORK : string) : Network :=
  if decide (PUBLIC_VERUS_NETWORK = "mainnet") then mainnet else testnet.

Record Endpoints := { primary : string; fallback : string }.

Definition RPC_ENDPOINTS (net : Network) : Endpoints :=
  match net with
  | testnet => {| primary := "https://api.verustest.net";
                  fallback := "https://rpc.vrsc.syncproof.net" |}
  | mainnet => {| primary := "https://api.verus.services";
                  fallback := "https://rpc.vrsc.syncproof.net" |}
  end.

Record RpcConfig := {
  endpoint : string;
  fallbackEndpoint : string;
  chainId : string;
  timeout : Z }.

Definition VERUS_RPC (net : Network) : RpcConfig :=
  {| endpoint := primary (RPC_ENDPOINTS net);
     fallbackEndpoint := fallback (RPC_ENDPOINTS net);
     chainId := match net with testnet => "vrsctest" | mainnet => "vrsc" end;
     timeout := 30000 |}.

Record Labels := {
  sha256 : string;
  title : string;
  description : string;
  filename : string;
  filesize : string }.

Record VdxfKeys := {
  dataDescriptor : string;
  proofBasic : string;
  labels : Labels }.

Definition TESTNET_VDXF : string * Labels :=
  ("i6UD4js3jqyjz9Mttmbk2Sh4eCuwLKPLyQ",
   {| sha256 := "iBCkvv7KC18xd3P164Cvw1pxpLo5FyGEtm";
      title := "iHXGu1nW4jQoeooBHPGE58qQGf9wMakEtj";
      description := "iP1PCTTHPpktP26xTEu1BuwENWMHQaia4D";
      filename := "i4xgBqX9btMX8tnAjsyVFrgSLnigxPwBw5";
      filesize := "iRz2tyZZEwmrxRPSrwN8UTAC8g5KyVkBiE" |}).

(** The mainnet keys are still to be assigned: every one is empty. *)
Definition MAINNET_VDXF : string * Labels :=
  ("",
   {| sha256 := ""; title := ""; description := "";
      filename := ""; filesize := "" |}).

Definition VDXF_KEYS (net : Network) : VdxfKeys :=
  let spread := match net with
                | testnet => TESTNET_VDXF
                | mainnet => MAINNET_VDXF
                end in
  {| dataDescriptor := "i4GC1YGEVD21afWudGoFJVdnfjJ5XWnCQv";
     proofBasic := fst spread;
     labels := snd spread |}.

End Config.

(* ===================================================================== *)
(** * server/verus.ts: the chain data types *)
(* ===================================================================== *)

Module Verus.

(** [objectdata: { message: string } | number | null] *)
Inductive ObjectData :=
| ObjNull
| ObjNumber (n : Z)
| ObjMessage (message : string).

(** [flags] is declared [number], but [buildDataDescriptor] leaves the
    property out, so it is optional here. *)
Record DataDescriptor := {
  version : Z;
  flags : option Z;
  objectdata : ObjectData;
  label : option string;
  mimetype : option string }.

Abbreviation DataDescriptorWrapper := (gmap string DataDescriptor).
Abbreviation ContentMultiMap :=
  (gmap string (list (gmap string DataDescriptor))).

Record IdentityData := {
  identity_version : Z;
  identity_flags : Z;
  name : string;
  identityaddress : string;
  parent : string;
  contentmultimap : option ContentMultiMap }.

Record Output := { txid : string; voutnum : Z }.

Record IdentityHistoryEntry := {
  identity : IdentityData;
  blockhash : string;
  height : Z;
  output : Output }.

(** ** The gateway: [rpcCallToEndpoint] and [rpcCall] *)

(** What a call can throw: the class [VerusRpcError], or any other error
    object ([Error] for an HTTP status, the rejection of [fetch] on a
    refused connection, the abort of [AbortSignal.timeout], the
    [SyntaxError] of [response.json()]). *)
Inductive Thrown :=
| VerusRpcError (code : Z) (message : string)
| OtherError (name : string) (message : string).

Definition RPC_ERROR_IDENTITY_NOT_FOUND : Z := -5.

Record RpcRequest (Param : Type) := {
  jsonrpc : string;
  id : string;
  method : string;
  params : list Param }.
Arguments jsonrpc {Param} _.
Arguments id {Param} _.
Arguments method {Param} _.
Arguments params {Param} _.

Record RpcErrorBody := { code : Z; error_message : string }.

Record RpcResponse (T : Type) := {
  result : option T;
  error : option RpcErrorBody;
  response_id : string }.
Arguments result {T} _.
Arguments error {T} _.
Arguments response_id {T} _.

(** What [await fetch(...)] gives: a rejection, or a response with its
    [ok] flag, status line and body; a body that is not JSON is [None]. *)
Inductive FetchResult (T : Type) :=
| FetchRejected (name : string) (message : string)
| FetchResponse (ok : bool) (status : Z) (statusText : string)
    (body : option (RpcResponse T)).
Arguments FetchRejected {T} _ _.
Arguments FetchResponse {T} _ _ _ _.

Section Gateway.
Context {World Param T : Type}.

(** The network: [fetch] at an endpoint with a request, in a world. *)
Variable fetch :
  string -> RpcRequest Param -> World -> FetchResult T * World.
Variable Date_now : World -> Z.
Variable VERUS_RPC : Config.RpcConfig.

(** The world together with the endpoints fetched so far, oldest first
    (a ghost trace: it lets the theorems count attempts). *)
Record Net := { world : World; trace : list string }.

(** The [request] object of [rpcCallToEndpoint]. *)
Definition buildRequest (method : string) (params : list Param) (s : Net)
  : RpcRequest Param :=
  {| jsonrpc := "1.0";
     id := "vtimestamp-" +:+ pretty (Date_now (world s));
     method := method;
     params := params |}.

Definition rpcCallToEndpoint (endpoint method : string)
    (params : list Param) (s : Net) : (Thrown + option T) * Net :=
  let request := buildRequest method params s in
  let '(response, w) := fetch endpoint request (world s) in
  let s' := {| world := w; trace := trace s ++ [endpoint] |} in
  match response with
  | FetchRejected name message => (inl (OtherError name message), s')
  | FetchResponse ok status statusText body =>
      if negb ok then
        (inl (OtherError "Error"
                ("RPC HTTP error: " +:+ pretty status +:+ " " +:+ statusText)),
         s')
      else
        match body with
        | None => (inl (OtherError "SyntaxError" "Unexpected token"), s')
        | Some data =>
            match error data with
            | Some e => (inl (VerusRpcError (code e) (error_message e)), s')
            | None => (inr (result data), s')
            end
        end
  end.

Definition rpcCall (method : string) (params : list Param) (s : Net)
  : (Thrown + option T) * Net :=
  match rpcCallToEndpoint (Config.endpoint VERUS_RPC) method params s with
  | (inr v, s1) => (inr v, s1)
  | (inl error, s1) =>
      match error with
      | VerusRpcError _ _ => (inl error, s1)
      | OtherError _ _ =>
          if Js.truthy (Config.fallbackEndpoint VERUS_RPC) then
            rpcCallToEndpoint (Config.fallbackEndpoint VERUS_RPC)
              method params s1
          else (inl error, s1)
      end
  end.

End Gateway.

Record IdentityHistoryResponse := {
  fullyqualifiedname : string;
  status : string;
  history : list IdentityHistoryEntry }.

Record BlockData := {
  hash : string;
  block_height : Z;
  time : Z }.

(** An element of [unknown[]]: the methods send strings and numbers. *)
Inductive JsParam :=
| PString (s : string)
| PNumber (n : Z).

Section Methods.
Context {World T : Type}.
Variable fetch :
  string -> RpcRequest JsParam -> World -> FetchResult T * World.
Variable Date_now : World -> Z.
Variable VERUS_RPC : Config.RpcConfig.

Definition getIdentityHistory (identity : string) (heightStart heightEnd : Z)
    (s : Net) : (Thrown + option T) * Net :=
  let params :=
    [PString identity]
    ++ (if decide (heightStart > 0 \/ heightEnd > 0)
        then [PNumber heightStart; PNumber heightEnd] else []) in
  rpcCall fetch Date_now VERUS_RPC "getidentityhistory" params s.

Definition getBlock (blockhash : string) (s : Net)
  : (Thrown + option T) * Net :=
  rpcCall fetch Date_now VERUS_RPC "getblock" [PString blockhash] s.

Definition getBlockCount (s : Net) : (Thrown + option T) * Net :=
  rpcCall fetch Date_now VERUS_RPC "getblockcount" [] s.

(** [try { await getBlockCount(); return true } catch { return false }] *)
Definition checkConnection (s : Net) : bool * Net :=
  match getBlockCount s with
  | (inr _, s') => (true, s')
  | (inl _, s') => (false, s')
  end.

Definition getIdentity (identity : string) (s : Net)
  : (Thrown + option T) * Net :=
  rpcCall fetch Date_now VERUS_RPC "getidentity" [PString identity] s.

End Methods.

End Verus.

(* ===================================================================== *)
(** * vdxf.ts: the record codec *)
(* ===================================================================== *)

Module Vdxf.

Record TimestampData := {
  sha256 : string;
  title : string;
  description : option string;
  filename : option string;
  filesize : option Z }.

(** [CreateTimestampInput] has the fields of [TimestampData]. *)
Abbreviation CreateTimestampInput := TimestampData.

(** [Partial<TimestampData>], the accumulator of the decoding loop. *)
Record PartialData := {
  p_sha256 : option string;
  p_title : option string;
  p_description : option string;
  p_filename : option string;
  p_filesize : option Z }.

Definition emptyData : PartialData :=
  {| p_sha256 := None; p_title := None; p_description := None;
     p_filename := None; p_filesize := None |}.

Record TimestampRecord := {
  data : TimestampData;
  blockhash : string;
  blockheight : Z;
  blocktime : option Z;
  txid : string }.

Definition isDeleted (descriptor : Verus.DataDescriptor) : bool :=
  match Verus.objectdata descriptor with
  | Verus.ObjNull => true
  | _ => bool_decide (Verus.flags descriptor = Some 32)
  end.

Definition extractStringValue (descriptor : Verus.DataDescriptor)
  : option string :=
  match Verus.objectdata descriptor with
  | Verus.ObjNull => None
  | Verus.ObjMessage message => Some message
  | Verus.ObjNumber _ => None
  end.

Definition extractNumberValue (descriptor : Verus.DataDescriptor)
  : option Z :=
  match Verus.objectdata descriptor with
  | Verus.ObjNumber n => Some n
  | Verus.ObjMessage msg => Js.parseInt10 msg
  | Verus.ObjNull => None
  end.

(** [Array.prototype.sort] is stable. With the comparator
    [(a, b) => b.blockheight - a.blockheight] an element goes before the
    elements that follow it unless one of them is strictly higher:
    insertion from the right end of the array. *)
Fixpoint insertByHeight (r : TimestampRecord) (sorted : list TimestampRecord)
  : list TimestampRecord :=
  match sorted with
  | [] => [r]
  | x :: rest =>
      if decide (blockheight x <= blockheight r) then r :: sorted
      else x :: insertByHeight r rest
  end.

Definition sortByHeightDesc (timestamps : list TimestampRecord)
  : list TimestampRecord :=
  foldr insertByHeight [] timestamps.

(** The character class [[a-fA-F0-9]]. *)
Definition isHexDigit (c : ascii) : bool :=
  let n := N_of_ascii c in
  (((48 <=? n) && (n <=? 57)) || ((65 <=? n) && (n <=? 70))
   || ((97 <=? n) && (n <=? 102)))%N.

Fixpoint allHex (s : string) : bool :=
  match s with
  | EmptyString => true
  | String c s' => isHexDigit c && allHex s'
  end.

(** [/^[a-fA-F0-9]{64}$/.test(hash)] *)
Definition isValidSha256 (hash : string) : bool :=
  (String.length hash =? 64)%nat && allHex hash.

Section WithKeys.
Variable VDXF_KEYS : Config.VdxfKeys.

Local Abbreviation labels := (Config.labels VDXF_KEYS).

(** One turn of the loop of [parseTimestampData]; every [continue]
    hands the accumulator back unchanged. *)
Definition parseEntry (data : PartialData)
    (wrapper : Verus.DataDescriptorWrapper) : PartialData :=
  match wrapper !! Config.dataDescriptor VDXF_KEYS with
  | None => data
  | Some descriptor =>
      if isDeleted descriptor then data else
      match Verus.label descriptor with
      | None => data
      | Some label =>
          if negb (Js.truthy label) then data
          else if decide (label = Config.sha256 labels) then
            {| p_sha256 := extractStringValue descriptor;
               p_title := p_title data;
               p_description := p_description data;
               p_filename := p_filename data;
               p_filesize := p_filesize data |}
          else if decide (label = Config.title labels) then
            {| p_sha256 := p_sha256 data;
               p_title := extractStringValue descriptor;
               p_description := p_description data;
               p_filename := p_filename data;
               p_filesize := p_filesize data |}
          else if decide (label = Config.description labels) then
            {| p_sha256 := p_sha256 data;
               p_title := p_title data;
               p_description := extractStringValue descriptor;
               p_filename := p_filename data;
               p_filesize := p_filesize data |}
          else if decide (label = Config.filename labels) then
            {| p_sha256 := p_sha256 data;
               p_title := p_title data;
               p_description := p_description data;
               p_filename := extractStringValue descriptor;
               p_filesize := p_filesize data |}
          else if decide (label = Config.filesize labels) then
            {| p_sha256 := p_sha256 data;
               p_title := p_title data;
               p_description := p_description data;
               p_filename := p_filename data;
               p_filesize := extractNumberValue descriptor |}
          else data
      end
  end.

(** The [for ... of] loop. *)
Definition collectFields (entries : list Verus.DataDescriptorWrapper)
  : PartialData :=
  fold_left parseEntry entries emptyData.

(** [if (!data.sha256 || !data.title) return null; return data]. *)
Definition validate (data : PartialData) : option TimestampData :=
  match p_sha256 data, p_title data with
  | Some s, Some t =>
      if negb (Js.truthy s) || negb (Js.truthy t) then None
      else Some {| sha256 := s; title := t;
                   description := p_description data;
                   filename := p_filename data;
                   filesize := p_filesize data |}
  | _, _ => None
  end.

Definition parseTimestampData (entries : list Verus.DataDescriptorWrapper)
  : option TimestampData :=
  validate (collectFields entries).

Definition parseHistoryEntry (entry : Verus.IdentityHistoryEntry)
  : option TimestampRecord :=
  match Verus.contentmultimap (Verus.identity entry) with
  | None => None
  | Some contentmultimap =>
      match contentmultimap !! Config.proofBasic VDXF_KEYS with
      | None => None
      | Some [] => None
      | Some entries =>
          match parseTimestampData entries with
          | None => None
          | Some data =>
              Some {| data := data;
                      blockhash := Verus.blockhash entry;
                      blockheight := Verus.height entry;
                      blocktime := None;
                      txid := Verus.txid (Verus.output entry) |}
          end
      end
  end.

Fixpoint findLoop (history : list Verus.IdentityHistoryEntry)
    (normalizedHash : string) : option TimestampRecord :=
  match history with
  | [] => None
  | entry :: rest =>
      match parseHistoryEntry entry with
      | Some record =>
          if decide (Js.toLowerCase (sha256 (data record)) = normalizedHash)
          then Some record
          else findLoop rest normalizedHash
      | None => findLoop rest normalizedHash
      end
  end.

Definition findTimestampByHash (history : list Verus.IdentityHistoryEntry)
    (sha256 : string) : option TimestampRecord :=
  let normalizedHash := Js.toLowerCase sha256 in
  findLoop history normalizedHash.

(** The loop pushes every decoded record; the array is then sorted by
    block height, newest first. *)
Definition parseAllTimestamps (history : list Verus.IdentityHistoryEntry)
  : list TimestampRecord :=
  sortByHeightDesc (omap parseHistoryEntry history).

(** [value] is [string | number]: a number is written in decimal. *)
Definition buildDataDescriptor (label : string) (value : string + Z)
    (mimetype : string) : Verus.DataDescriptorWrapper :=
  let objectdata :=
    match value with
    | inr n => Verus.ObjMessage (Js.Number_toString n)
    | inl s => Verus.ObjMessage s
    end in
  {[ Config.dataDescriptor VDXF_KEYS :=
       {| Verus.version := 1;
          Verus.flags := None;
          Verus.label := Some label;
          Verus.mimetype := Some mimetype;
          Verus.objectdata := objectdata |} ]}.

(** The default of the [mimetype] parameter. *)
Definition defaultMimetype : string := "text/plain".

Definition buildEntries (input : CreateTimestampInput)
  : list Verus.DataDescriptorWrapper :=
  [ buildDataDescriptor (Config.sha256 labels) (inl (sha256 input))
      defaultMimetype;
    buildDataDescriptor (Config.title labels) (inl (title input))
      defaultMimetype ]
  ++ (match description input with
      | Some d =>
          if Js.truthy d
          then [buildDataDescriptor (Config.description labels) (inl d)
                  defaultMimetype]
          else []
      | None => []
      end)
  ++ (match filename input with
      | Some f =>
          if Js.truthy f
          then [buildDataDescriptor (Config.filename labels) (inl f)
                  defaultMimetype]
          else []
      | None => []
      end)
  ++ (match filesize input with
      | Some n =>
          [buildDataDescriptor (Config.filesize labels) (inr n)
             defaultMimetype]
      | None => []
      end).

Definition buildTimestampContentMap (input : CreateTimestampInput)
  : Verus.ContentMultiMap :=
  {[ Config.proofBasic VDXF_KEYS := buildEntries input ]}.

End WithKeys.

End Vdxf.

(* ===================================================================== *)
(** * stores/session.ts: the browser session *)
(* ===================================================================== *)

Module Session.

Record SessionData := {
  identity : string;
  friendlyName : string;
  createdAt : Z;
  expiresAt : Z }.

Record SessionState := {
  data : option SessionData;
  initialized : bool }.

(** [SESSION_CONFIG.duration]: 24 hours in milliseconds. *)
Definition duration : Z := 24 * 60 * 60 * 1000.

(** The item of [localStorage] under the session key: none, the empty
    text, the JSON text [saveSession] wrote for a session, or a text that
    [JSON.parse] rejects. *)
Inductive Item :=
| NoItem
| EmptyText
| Saved (session : SessionData)
| Unparsable.

(** The environment: whether the code runs in a browser, the stored
    item, and the value of the writable store. *)
Record Env := {
  browser : bool;
  item : Item;
  state : SessionState }.

Definition initialState : SessionState :=
  {| data := None; initialized := false |}.

Definition loadSession (now : Z) (browser : bool) (it : Item)
  : option SessionData * Item :=
  if negb browser then (None, it) else
  match it with
  | NoItem => (None, it)
  | EmptyText => (None, it)
  | Unparsable => (None, NoItem)
  | Saved session =>
      if decide (now > expiresAt session) then (None, NoItem)
      else (Some session, it)
  end.

Definition saveSession (session : SessionData) (browser : bool) (it : Item)
  : Item :=
  if negb browser then it else Saved session.

Definition clearSession (browser : bool) (it : Item) : Item :=
  if negb browser then it else NoItem.

Definition init (now : Z) (env : Env) : Env :=
  let '(session, it) := loadSession now (browser env) (item env) in
  {| browser := browser env; item := it;
     state := {| data := session; initialized := true |} |}.

Definition login (identity friendlyName : string) (now : Z) (env : Env)
  : Env :=
  let session :=
    {| identity := identity; friendlyName := friendlyName;
       createdAt := now; expiresAt := now + duration |} in
  {| browser := browser env;
     item := saveSession session (browser env) (item env);
     state := {| data := Some session; initialized := true |} |}.

Definition logout (env : Env) : Env :=
  {| browser := browser env;
     item := clearSession (browser env) (item env);
     state := {| data := None; initialized := true |} |}.

Definition validate (now : Z) (env : Env) : bool * Env :=
  match data (state env) with
  | None => (false, env)
  | Some session =>
      if decide (now > expiresAt session) then (false, logout env)
      else (true, env)
  end.

Definition getSession (env : Env) : option SessionData := data (state env).

(** A page load: the store starts from its initial value, the stored
    item is what the last page left. *)
Definition reload (env : Env) : Env :=
  {| browser := browser env; item := item env; state := initialState |}.

End Session.

(* ===================================================================== *)
(** * routes/api/timestamp/callback: the query of the wallet redirect *)
(* ===================================================================== *)

Module Callback.

(** [url.searchParams.get(name)]: the first value under the name. *)
Fixpoint get (name : string) (params : list (string * string))
  : option string :=
  match params with
  | [] => None
  | (key, value) :: rest =>
      if decide (key = name) then Some value else get name rest
  end.

(** The second loop of the [GET] handler: the first parameter, other
    than [requestId], whose key looks like an i-address. *)
Fixpoint scanAddressKeys (params : list (string * string)) : option string :=
  match params with
  | [] => None
  | (key, value) :: rest =>
      if decide (key = "requestId") then scanAddressKeys rest
      else if String.prefix "i" key && (30 <? String.length key)%nat
      then Some (if Js.truthy value then value else key)
      else scanAddressKeys rest
  end.

(** The search for the response data in the query parameters. *)
Definition findResponseData (params : list (string * string))
  : option string :=
  let named :=
    match get "response" params with
    | Some value => if Js.truthy value then Some value else None
    | None => None
    end in
  let named :=
    match named with
    | Some value => Some value
    | None =>
        match get "data" params with
        | Some value => if Js.truthy value then Some value else None
        | None => None
        end
    end in
  match named with
  | Some value => Some value
  | None => scanAddressKeys params
  end.

End Callback.

(* ===================================================================== *)
(** * routes/api/verify and routes/api/timestamp/check *)
(* ===================================================================== *)

Module Routes.

(** What a handler gives back: the error it throws with [error(status,
    message)], or the body it returns with [json(...)]. *)
Inductive HttpResult (Body : Type) :=
| HttpError (status : Z) (message : string)
| HttpJson (body : Body).
Arguments HttpError {Body} _ _.
Arguments HttpJson {Body} _.

Record VerifiedTimestamp := {
  sha256 : string;
  title : string;
  description : option string;
  filename : option string;
  filesize : option Z;
  blockhash : string;
  blockheight : Z;
  blocktime : option Z;
  txid : string }.

Inductive VerifyBody :=
| NotVerified (identity message : string)
| Verified (identity : string) (timestamp : VerifiedTimestamp).

Record ExistingTimestamp := {
  existing_title : string;
  existing_blockhash : string;
  existing_blockheight : Z;
  existing_txid : string }.

Inductive CheckBody :=
| NotExists
| Exists (timestamp : ExistingTimestamp).

Section Handlers.
Context {World T : Type}.
Variable fetch :
  string -> Verus.RpcRequest Verus.JsParam -> World
  -> Verus.FetchResult T * World.
Variable Date_now : World -> Z.
(** The network the deployment is configured for. *)
Variable CURRENT_NETWORK : Config.Network.
(** The casts of [rpcCall<IdentityHistoryResponse>] and
    [rpcCall<BlockData>]: the result read at its declared type. *)
Variable asHistory : T -> Verus.IdentityHistoryResponse.
Variable asBlock : T -> Verus.BlockData.

Local Abbreviation VERUS_RPC := (Config.VERUS_RPC CURRENT_NETWORK).
Local Abbreviation VDXF_KEYS := (Config.VDXF_KEYS CURRENT_NETWORK).

(** The [catch] block of the verify handler. *)
Definition verifyCatch (identity : string) (err : Verus.Thrown)
  : HttpResult VerifyBody :=
  match err with
  | Verus.VerusRpcError code _ =>
      if decide (code = Verus.RPC_ERROR_IDENTITY_NOT_FOUND)
      then HttpError 404 ("Identity not found: " +:+ identity)
      else HttpError 500 "Failed to verify timestamp"
  | Verus.OtherError _ _ => HttpError 500 "Failed to verify timestamp"
  end.

(** [GET /api/verify]; the two arguments are
    [url.searchParams.get('identity')] and [url.searchParams.get('sha256')].
    A [null] result of the history call makes the read of [.history]
    throw, and a [null] block makes the read of [.time] throw. *)
Definition verifyGET (identity sha256 : option string) (s : Verus.Net)
  : HttpResult VerifyBody * Verus.Net :=
  match identity with
  | None => (HttpError 400 "Missing identity parameter", s)
  | Some identity =>
  if negb (Js.truthy identity)
  then (HttpError 400 "Missing identity parameter", s) else
  match sha256 with
  | None => (HttpError 400 "Missing sha256 parameter", s)
  | Some sha256 =>
  if negb (Js.truthy sha256)
  then (HttpError 400 "Missing sha256 parameter", s) else
  if negb (Vdxf.isValidSha256 sha256)
  then (HttpError 400 "Invalid sha256 format - must be 64 hex characters", s)
  else
  match Verus.getIdentityHistory fetch Date_now VERUS_RPC identity 0 0 s with
  | (inl err, s1) => (verifyCatch identity err, s1)
  | (inr None, s1) =>
      (verifyCatch identity
         (Verus.OtherError "TypeError" "Cannot read properties of null"),
       s1)
  | (inr (Some v), s1) =>
      let historyResponse := asHistory v in
      match Vdxf.findTimestampByHash VDXF_KEYS
              (Verus.history historyResponse) sha256 with
      | None =>
          (HttpJson
             (NotVerified (Verus.fullyqualifiedname historyResponse)
                "No timestamp found for this hash on this identity"), s1)
      | Some timestamp =>
          let '(blocktime, s2) :=
            match Verus.getBlock fetch Date_now VERUS_RPC
                    (Vdxf.blockhash timestamp) s1 with
            | (inr (Some block), s2) => (Some (Verus.time (asBlock block)), s2)
            | (inr None, s2) => (None, s2)
            | (inl _, s2) => (None, s2)
            end in
          (HttpJson
             (Verified (Verus.fullyqualifiedname historyResponse)
                {| sha256 := Vdxf.sha256 (Vdxf.data timestamp);
                   title := Vdxf.title (Vdxf.data timestamp);
                   description := Vdxf.description (Vdxf.data timestamp);
                   filename := Vdxf.filename (Vdxf.data timestamp);
                   filesize := Vdxf.filesize (Vdxf.data timestamp);
                   blockhash := Vdxf.blockhash timestamp;
                   blockheight := Vdxf.blockheight timestamp;
                   blocktime := blocktime;
                   txid := Vdxf.txid timestamp |}), s2)
      end
  end
  end
  end.

(** The [catch] block of the check handler: [err?.code === -5]. *)
Definition checkCatch (err : Verus.Thrown) : HttpResult CheckBody :=
  match err with
  | Verus.VerusRpcError code _ =>
      if decide (code = -5) then HttpJson NotExists
      else HttpError 500 "Failed to check for duplicate"
  | Verus.OtherError _ _ => HttpError 500 "Failed to check for duplicate"
  end.

(** [GET /api/timestamp/check] *)
Definition checkGET (identity sha256 : option string) (s : Verus.Net)
  : HttpResult CheckBody * Verus.Net :=
  match identity with
  | None => (HttpError 400 "Missing identity parameter", s)
  | Some identity =>
  if negb (Js.truthy identity)
  then (HttpError 400 "Missing identity parameter", s) else
  match sha256 with
  | None => (HttpError 400 "Missing sha256 parameter", s)
  | Some sha256 =>
  if negb (Js.truthy sha256)
  then (HttpError 400 "Missing sha256 parameter", s) else
  if negb (Vdxf.isValidSha256 sha256)
  then (HttpError 400 "Invalid sha256 format", s)
  else
  match Verus.getIdentityHistory fetch Date_now VERUS_RPC identity 0 0 s with
  | (inl err, s1) => (checkCatch err, s1)
  | (inr None, s1) =>
      (checkCatch
         (Verus.OtherError "TypeError" "Cannot read properties of null"),
       s1)
  | (inr (Some v), s1) =>
      match Vdxf.findTimestampByHash VDXF_KEYS
              (Verus.history (asHistory v)) sha256 with
      | Some existing =>
          (HttpJson
             (Exists
                {| existing_title := Vdxf.title (Vdxf.data existing);
                   existing_blockhash := Vdxf.blockhash existing;
                   existing_blockheight := Vdxf.blockheight existing;
                   existing_txid := Vdxf.txid existing |}), s1)
      | None => (HttpJson NotExists, s1)
      end
  end
  end
  end.

End Handlers.

End Routes.

(* ===================================================================== *)
(** * server/timestamp.ts: the timestamp-creation registry *)
(* ===================================================================== *)

Module Timestamp.

Module Pending.
Record t := {
  requestId : string;
  userIdentity : string;
  timestampData : Vdxf.TimestampData;
  createdAt : Z;
  expiresAt : Z }.
End Pending.

Module Completed.
Record t := {
  txid : string;
  completedAt : Z;
  expiresAt : Z }.
End Completed.

(** The two module-level maps. *)
Record Registry := {
  pendingTimestampRequests : gmap string Pending.t;
  completedTimestamps : gmap string Completed.t }.

Definition emptyRegistry : Registry :=
  {| pendingTimestampRequests := ∅; completedTimestamps := ∅ |}.

(** The [setInterval] callback, run with the clock at [now]. *)
Definition sweep (now : Z) (st : Registry) : Registry :=
  {| pendingTimestampRequests :=
       filter (fun kv => ¬ (now > Pending.expiresAt (snd kv)))
         (pendingTimestampRequests st);
     completedTimestamps :=
       filter (fun kv => ¬ (now > Completed.expiresAt (snd kv)))
         (completedTimestamps st) |}.

(** The timer firing at each of the given times, in order. *)
Definition sweeps (times : list Z) (st : Registry) : Registry :=
  fold_left (fun s now => sweep now s) times st.

(** The last statement of [createTimestampRequest] before it returns, the
    only one that touches the registry: [pendingTimestampRequests.set].
    [now1] and [now2] are the two readings of the clock in the object
    literal. Every failure of the function happens before it. *)
Definition createTimestampRequest_store (requestId userIdentityAddress : string)
    (timestampData : Vdxf.TimestampData) (now1 now2 : Z) (st : Registry)
  : Registry :=
  {| pendingTimestampRequests :=
       <[ requestId :=
            {| Pending.requestId := requestId;
               Pending.userIdentity := userIdentityAddress;
               Pending.timestampData := timestampData;
               Pending.createdAt := now1;
               Pending.expiresAt := now2 + 10 * 60 * 1000 |} ]>
         (pendingTimestampRequests st);
     completedTimestamps := completedTimestamps st |}.

Inductive Status := pending | completed | expired.

Record PollResult := { status : Status; txid : option string }.

(** [now] is read only on the path that compares it. *)
Definition getTimestampResult (requestId : string) (now : Z) (st : Registry)
  : PollResult * Registry :=
  match completedTimestamps st !! requestId with
  | Some c => ({| status := completed; txid := Some (Completed.txid c) |}, st)
  | None =>
      match pendingTimestampRequests st !! requestId with
      | Some p =>
          if decide (now > Pending.expiresAt p) then
            ({| status := expired; txid := None |},
             {| pendingTimestampRequests :=
                  delete requestId (pendingTimestampRequests st);
                completedTimestamps := completedTimestamps st |})
          else ({| status := pending; txid := None |}, st)
      | None => ({| status := expired; txid := None |}, st)
      end
  end.

Definition isTimestampRequestActive (requestId : string) (st : Registry)
  : bool :=
  bool_decide (is_Some (pendingTimestampRequests st !! requestId))
  || bool_decide (is_Some (completedTimestamps st !! requestId)).

Definition storeTimestampResult (requestId txid : string) (now1 now2 : Z)
    (st : Registry) : bool * Registry :=
  (true,
   {| pendingTimestampRequests :=
        delete requestId (pendingTimestampRequests st);
      completedTimestamps :=
        <[ requestId :=
             {| Completed.txid := txid;
                Completed.completedAt := now1;
                Completed.expiresAt := now2 + 5 * 60 * 1000 |} ]>
          (completedTimestamps st) |}).

Definition getPendingTimestampRequest (requestId : string) (st : Registry)
  : option Pending.t :=
  pendingTimestampRequests st !! requestId.

(** The operations that reach the registry, for stating what survives
    any of them. *)
Inductive Op :=
| OpSweep (now : Z)
| OpCreate (requestId userIdentityAddress : string)
    (timestampData : Vdxf.TimestampData) (now1 now2 : Z)
| OpPoll (requestId : string) (now : Z)
| OpStore (requestId txid : string) (now1 now2 : Z).

Definition run (op : Op) (st : Registry) : Registry :=
  match op with
  | OpSweep now => sweep now st
  | OpCreate r u d n1 n2 => createTimestampRequest_store r u d n1 n2 st
  | OpPoll r now => snd (getTimestampResult r now st)
  | OpStore r x n1 n2 => snd (storeTimestampResult r x n1 n2 st)
  end.

(** A sequence of operations, applied in order. *)
Definition runAll (ops : list Op) (st : Registry) : Registry :=
  fold_left (fun s op => run op s) ops st.

(** The ids that [createTimestampRequest] stores under are drawn afresh
    ([generateRandomIAddress]): a run in which each of them is new to
    both maps when it is stored. *)
Fixpoint freshIds (ops : list Op) (st : Registry) : Prop :=
  match ops with
  | [] => True
  | op :: rest =>
      match op with
      | OpCreate r _ _ _ _ =>
          pendingTimestampRequests st !! r = None
          /\ completedTimestamps st !! r = None
      | _ => True
      end
      /\ freshIds rest (run op st)
  end.

End Timestamp.

(* ===================================================================== *)
(** * server/auth.ts and routes/api/auth/status: the login registry *)
(* ===================================================================== *)

Module Auth.

Module Challenge.
Record t := {
  sessionId : string;
  createdAt : Z;
  expiresAt : Z }.
End Challenge.

Module Completed.
Record t := {
  identity : string;
  friendlyName : string;
  completedAt : Z;
  expiresAt : Z }.
End Completed.

Record Registry := {
  pendingChallenges : gmap string Challenge.t;
  completedAuths : gmap string Completed.t }.

(** The [setInterval] callback, run with the clock at [now]. *)
Definition sweep (now : Z) (st : Registry) : Registry :=
  {| pendingChallenges :=
       filter (fun kv => ¬ (now > Challenge.expiresAt (snd kv)))
         (pendingChallenges st);
     completedAuths :=
       filter (fun kv => ¬ (now > Completed.expiresAt (snd kv)))
         (completedAuths st) |}.

Definition emptyRegistry : Registry :=
  {| pendingChallenges := ∅; completedAuths := ∅ |}.

(** The write of [createLoginRequest]: [pendingChallenges.set]. *)
Definition createLoginRequest_store (challengeId sessionId : string)
    (now1 now2 : Z) (st : Registry) : Registry :=
  {| pendingChallenges :=
       <[ challengeId :=
            {| Challenge.sessionId := sessionId;
               Challenge.createdAt := now1;
               Challenge.expiresAt := now2 + 10 * 60 * 1000 |} ]>
         (pendingChallenges st);
     completedAuths := completedAuths st |}.

(** The writes of [verifyLoginResponse] once the signature is verified:
    the used challenge is deleted and the result is stored for polling. *)
Definition verifyLoginResponse_store (challengeId signingId friendly : string)
    (now1 now2 : Z) (st : Registry) : Registry :=
  {| pendingChallenges := delete challengeId (pendingChallenges st);
     completedAuths :=
       <[ challengeId :=
            {| Completed.identity := signingId;
               Completed.friendlyName := friendly;
               Completed.completedAt := now1;
               Completed.expiresAt := now2 + 5 * 60 * 1000 |} ]>
         (completedAuths st) |}.

Record AuthResult := { identity : string; friendlyName : string }.

(** [getAuthResult(challengeId, consume = true)] *)
Definition getAuthResult (challengeId : string) (consume : bool)
    (st : Registry) : option AuthResult * Registry :=
  match completedAuths st !! challengeId with
  | None => (None, st)
  | Some auth =>
      (Some {| identity := Completed.identity auth;
               friendlyName := Completed.friendlyName auth |},
       if consume then
         {| pendingChallenges := pendingChallenges st;
            completedAuths := delete challengeId (completedAuths st) |}
       else st)
  end.

Definition consume_default : bool := true.

Definition isChallengeActive (challengeId : string) (st : Registry) : bool :=
  bool_decide (is_Some (pendingChallenges st !! challengeId))
  || bool_decide (is_Some (completedAuths st !! challengeId)).

Inductive Status := pending | completed | expired.

Record StatusBody := { status : Status; result : option AuthResult }.

(** The [GET] handler of the status route, called with a [challengeId]:
    it calls [getAuthResult(challengeId)], leaving [consume] to its
    default. *)
Definition statusGET (challengeId : string) (st : Registry)
  : StatusBody * Registry :=
  match getAuthResult challengeId consume_default st with
  | (Some r, st') => ({| status := completed; result := Some r |}, st')
  | (None, st') =>
      if isChallengeActive challengeId st'
      then ({| status := pending; result := None |}, st')
      else ({| status := expired; result := None |}, st')
  end.

(** What the code reads of a parsed [LoginConsentResponse]:
    [decision?.request?.challenge?.challenge_id] and [signing_id]. *)
Record LoginConsentResponse := {
  challenge_id : option string;
  signing_id : option string }.

(** The loop over the query parameters of a deep link: the first long
    value, or the first parameter whose key looks like an i-address. *)
Fixpoint scanParams (params : list (string * string)) : option string :=
  match params with
  | [] => None
  | (key, value) :: rest =>
      if Js.truthy value && (50 <? String.length value)%nat then Some value
      else if String.prefix "i" key && (30 <? String.length key)%nat
      then Some (if Js.truthy value then value else key)
      else scanParams rest
  end.

Section Verify.
(** The platform and the library, each [None] where the call throws:
    [new URL(s).searchParams], [Buffer.from(s, 'base64')] followed by
    [fromBuffer], [verifyLoginConsentResponse], and the [friendlyname] of
    [getIdentity]. *)
Variable searchParams : string -> option (list (string * string)).
Variable fromBase64 : string -> option LoginConsentResponse.
Variable verifyLoginConsentResponse : LoginConsentResponse -> option bool.
Variable getIdentityFriendlyName : string -> option string.

(** The parsing stage of [verifyLoginResponse]. *)
Definition parseResponse (responseData : string)
  : option LoginConsentResponse :=
  if String.prefix "verusid://" responseData then
    match searchParams responseData with
    | None => None
    | Some params =>
        match scanParams params with
        | None => None
        | Some base64Data => fromBase64 base64Data
        end
    end
  else fromBase64 responseData.

(** Every exception is caught by the outer [try] and gives [null]. *)
Definition verifyLoginResponse (responseData : string) (now1 now2 : Z)
    (st : Registry) : option AuthResult * Registry :=
  match parseResponse responseData with
  | None => (None, st)
  | Some response =>
      match challenge_id response with
      | None => (None, st)
      | Some challengeId =>
          if negb (Js.truthy challengeId) then (None, st) else
          match pendingChallenges st !! challengeId with
          | None => (None, st)
          | Some _ =>
              match verifyLoginConsentResponse response with
              | None => (None, st)
              | Some false => (None, st)
              | Some true =>
                  let signingId :=
                    match signing_id response with
                    | Some id => if Js.truthy id then id else ""
                    | None => ""
                    end in
                  let friendly :=
                    match getIdentityFriendlyName signingId with
                    | Some n => n
                    | None => signingId
                    end in
                  (Some {| identity := signingId; friendlyName := friendly |},
                   verifyLoginResponse_store challengeId signingId friendly
                     now1 now2 st)
              end
          end
      end
  end.

End Verify.

End Auth.

(* ===================================================================== *)
(** * hash.ts: hashing in the browser *)
(* ===================================================================== *)

Module Hash.

(** The digit of [Number.prototype.toString(16)] for a value below 16. *)
Definition hexChar (d : N) : ascii :=
  ascii_of_N (if (d <? 10)%N then 48 + d else 87 + d).

(** [b.toString(16)] for an element [b] of a [Uint8Array]. *)
Definition toString16 (b : Byte.byte) : string :=
  let n := Byte.to_N b in
  if (n <? 16)%N then String (hexChar n) EmptyString
  else String (hexChar (n / 16)) (String (hexChar (n mod 16)) EmptyString).

Fixpoint repeatChar (n : nat) (c : ascii) : string :=
  match n with
  | O => EmptyString
  | S n' => String c (repeatChar n' c)
  end.

(** [s.padStart(targetLength, padChar)] for a one-character pad. *)
Definition padStart (targetLength : nat) (padChar : ascii) (s : string)
  : string :=
  repeatChar (targetLength - String.length s) padChar +:+ s.

Fixpoint join (parts : list string) : string :=
  match parts with
  | [] => EmptyString
  | p :: rest => p +:+ join rest
  end.

Definition bufferToHex (buffer : list Byte.byte) : string :=
  join (map (fun b => padStart 2 "0" (toString16 b)) buffer).

(** [combined.set(chunk, position)]: the chunk overwrites the bytes from
    [position] on (the call is always in range here). *)
Definition setAt (combined chunk : list Byte.byte) (position : nat) : list Byte.byte :=
  take position combined ++ chunk
  ++ drop (position + length chunk) combined.

Section WithDigest.
(** [crypto.subtle.digest('SHA-256', data)] *)
Variable digest : list Byte.byte -> list Byte.byte.

(** [new TextEncoder().encode(text)] on ASCII text. *)
Definition encode (text : string) : list Byte.byte := list_byte_of_string text.

Definition hashString (text : string) : string :=
  bufferToHex (digest (encode text)).

Definition hashBuffer (buffer : list Byte.byte) : string :=
  bufferToHex (digest buffer).

(** The [while (offset < file.size)] loop of [hashFile]; it runs at most
    once per byte of the file, which is the fuel [hashFile] gives it. *)
Fixpoint readChunks (fuel : nat) (file : list Byte.byte) (chunkSize offset : nat)
    (chunks : list (list Byte.byte)) : list (list Byte.byte) :=
  match fuel with
  | O => chunks
  | S fuel' =>
      if decide (offset < length file)%nat then
        readChunks fuel' file chunkSize (offset + chunkSize)
          (chunks ++ [take chunkSize (drop offset file)])
      else chunks
  end.

(** The [for (const chunk of chunks)] loop that fills [combined]. *)
Fixpoint fillChunks (chunks : list (list Byte.byte)) (combined : list Byte.byte)
    (position : nat) : list Byte.byte :=
  match chunks with
  | [] => combined
  | chunk :: rest =>
      fillChunks rest (setAt combined chunk position)
        (position + length chunk)
  end.

(** [hashFile(file)] called without a progress callback, for a size
    threshold and a chunk size. *)
Definition hashFileWith (threshold : N) (chunkSize : nat) (file : list Byte.byte)
  : string :=
  if (N.of_nat (length file) <? threshold)%N then
    bufferToHex (digest file)
  else
    let chunks := readChunks (S (length file)) file chunkSize 0 [] in
    let totalLength :=
      fold_left (fun sum chunk => (sum + length chunk)%nat) chunks 0%nat in
    let combined := fillChunks chunks (replicate totalLength Byte.x00) 0 in
    bufferToHex (digest combined).

Definition hashFile (file : list Byte.byte) : string :=
  hashFileWith (10 * 1024 * 1024) (N.to_nat (64 * 1024 * 1024)) file.

Definition verifyFileHash (file : list Byte.byte) (expectedHash : string) : bool :=
  bool_decide (Js.toLowerCase (hashFile file) = Js.toLowerCase expectedHash).

Definition verifyStringHash (text expectedHash : string) : bool :=
  bool_decide (Js.toLowerCase (hashString text)
               = Js.toLowerCase expectedHash).

End WithDigest.

End Hash.

(* ===================================================================== *)
(** * Vocabulary of the properties *)
(* ===================================================================== *)

Module Spec.

(** Two characters are the same letter when they are equal or one is the
    upper-case form of the other. *)
Definition caseVariant (a b : ascii) : Prop :=
  Js.isUpper a = true /\ N_of_ascii b = (N_of_ascii a + 32)%N.

Definition sameLetter (a b : ascii) : Prop :=
  a = b \/ caseVariant a b \/ caseVariant b a.

(** Equality of strings up to the case of their letters. *)
Inductive eqIgnoreCase : string -> string -> Prop :=
| eqic_nil : eqIgnoreCase "" ""
| eqic_cons a b s t :
    sameLetter a b -> eqIgnoreCase s t ->
    eqIgnoreCase (String a s) (String b t).

(** Every character of [s] is a decimal digit. *)
Definition allDigits (s : string) : Prop :=
  length (Js.takeDigits s) = String.length s.

(** The keys a network needs for the codec to tell the five fields apart:
    non-empty and pairwise distinct labels. *)
Definition labelList (L : Config.Labels) : list string :=
  [Config.sha256 L; Config.title L; Config.description L;
   Config.filename L; Config.filesize L].

Definition keys_wf (K : Config.VdxfKeys) : Prop :=
  NoDup (labelList (Config.labels K)) /\ "" ∉ labelList (Config.labels K).

Section WithKeys.
Variable K : Config.VdxfKeys.

(** A tombstone: an entry whose descriptor is a deletion marker. *)
Definition isTombstone (w : Verus.DataDescriptorWrapper) : bool :=
  match w !! Config.dataDescriptor K with
  | Some d => Vdxf.isDeleted d
  | None => false
  end.

(** The descriptors that survive the filtering of tombstones. *)
Definition liveDescriptors (entries : list Verus.DataDescriptorWrapper)
  : list Verus.DataDescriptor :=
  filter (fun d => Vdxf.isDeleted d = false)
    (omap (fun w : Verus.DataDescriptorWrapper =>
             w !! Config.dataDescriptor K) entries).

Abbreviation bears lbl := (fun d : Verus.DataDescriptor =>
  Verus.label d = Some lbl).

(** Does the filtered set hold an entry with this label? *)
Definition hasLiveEntry (lbl : string)
    (entries : list Verus.DataDescriptorWrapper) : bool :=
  bool_decide (Exists (bears lbl) (liveDescriptors entries)).

(** The last non-tombstoned entry bearing a label. *)
Definition lastBearing (lbl : string)
    (entries : list Verus.DataDescriptorWrapper)
  : option Verus.DataDescriptor :=
  last (filter (bears lbl) (liveDescriptors entries)).

(** What the last write under each label resolves to. *)
Definition lastWrites (entries : list Verus.DataDescriptorWrapper)
  : Vdxf.PartialData :=
  let L := Config.labels K in
  {| Vdxf.p_sha256 :=
       lastBearing (Config.sha256 L) entries ≫= Vdxf.extractStringValue;
     Vdxf.p_title :=
       lastBearing (Config.title L) entries ≫= Vdxf.extractStringValue;
     Vdxf.p_description :=
       lastBearing (Config.description L) entries ≫= Vdxf.extractStringValue;
     Vdxf.p_filename :=
       lastBearing (Config.filename L) entries ≫= Vdxf.extractStringValue;
     Vdxf.p_filesize :=
       lastBearing (Config.filesize L) entries ≫= Vdxf.extractNumberValue |}.

End WithKeys.

(** The answers of an endpoint that [rpcCall] treats as a failure of the
    transport: a rejected [fetch] (time-out, refused connection), a status
    outside 2xx, or a body that is not JSON. *)
Definition transportFailure {T : Type} (resp : Verus.FetchResult T) : Prop :=
  match resp with
  | Verus.FetchRejected _ _ => True
  | Verus.FetchResponse ok _ _ body => ok = false \/ body = None
  end.

(** A structured error of the daemon, delivered with a 2xx status. *)
Definition applicationError {T : Type} (resp : Verus.FetchResult T)
    (e : Verus.RpcErrorBody) : Prop :=
  exists status statusText data,
    resp = Verus.FetchResponse true status statusText (Some data)
    /\ Verus.error data = Some e.


(** A record whose file size, if any, is a safe integer. *)
Definition safeSize (d : Vdxf.TimestampData) : Prop :=
  forall n, Vdxf.filesize d = Some n -> Js.isSafeInteger n.

(** An optional string as the encoder sends it: present and non-empty. *)
Definition carriedStringOf (o : option string) : option string :=
  match o with
  | Some s => if Js.truthy s then Some s else None
  | None => None
  end.

(** An entry the decoder has a use for: its descriptor bears one of the
    five field labels. *)
Definition isFieldEntry (K : Config.VdxfKeys)
    (w : Verus.DataDescriptorWrapper) : bool :=
  match w !! Config.dataDescriptor K with
  | Some d =>
      match Verus.label d with
      | Some l => bool_decide (l ∈ labelList (Config.labels K))
      | None => false
      end
  | None => false
  end.

(** What decoding gives when a complete encoded record [d] follows
    entries that left the fields [before]: the required fields are those
    of [d], an optional field is that of [d] when the wire carries it and
    the earlier one otherwise. *)
Definition overlay (before : Vdxf.PartialData) (d : Vdxf.TimestampData)
  : Vdxf.TimestampData :=
  {| Vdxf.sha256 := Vdxf.sha256 d;
     Vdxf.title := Vdxf.title d;
     Vdxf.description :=
       match carriedStringOf (Vdxf.description d) with
       | Some x => Some x
       | None => Vdxf.p_description before
       end;
     Vdxf.filename :=
       match carriedStringOf (Vdxf.filename d) with
       | Some x => Some x
       | None => Vdxf.p_filename before
       end;
     Vdxf.filesize :=
       match Vdxf.filesize d with
       | Some n => Some n
       | None => Vdxf.p_filesize before
       end |}.

(** No id is pending and completed at once. *)
Definition exclusive (st : Timestamp.Registry) : Prop :=
  forall id,
    ~ (is_Some (Timestamp.pendingTimestampRequests st !! id)
       /\ is_Some (Timestamp.completedTimestamps st !! id)).

(** The id an operation is about; the sweep is about all of them. *)
Definition target (op : Timestamp.Op) : option string :=
  match op with
  | Timestamp.OpSweep _ => None
  | Timestamp.OpCreate r _ _ _ _ => Some r
  | Timestamp.OpPoll r _ => Some r
  | Timestamp.OpStore r _ _ _ => Some r
  end.

(** Newest first: the order the list of all timestamps is sorted by. *)
Definition newerOrEqual (a b : Vdxf.TimestampRecord) : Prop :=
  Vdxf.blockheight b <= Vdxf.blockheight a.

(** The part of a record that the encoder puts on the wire: an empty
    description or file name is not emitted. *)
Definition carriedString (o : option string) : option string :=
  match o with
  | Some s => if Js.truthy s then Some s else None
  | None => None
  end.

Definition carried (d : Vdxf.TimestampData) : Vdxf.TimestampData :=
  {| Vdxf.sha256 := Vdxf.sha256 d;
     Vdxf.title := Vdxf.title d;
     Vdxf.description := carriedString (Vdxf.description d);
     Vdxf.filename := carriedString (Vdxf.filename d);
     Vdxf.filesize := Vdxf.filesize d |}.

End Spec.

(* ===================================================================== *)
(** * Sample data on the test network *)
(* ===================================================================== *)

Module Examples.

Definition K0 : Config.VdxfKeys := Config.VDXF_KEYS Config.testnet.
Definition L0 : Config.Labels := Config.labels K0.

(** An on-chain entry: a wrapper around one descriptor. *)
Definition entry (lbl : string) (payload : Verus.ObjectData) (flags : Z)
  : Verus.DataDescriptorWrapper :=
  {[ Config.dataDescriptor K0 :=
       {| Verus.version := 1;
          Verus.flags := Some flags;
          Verus.objectdata := payload;
          Verus.label := Some lbl;
          Verus.mimetype := Some "text/plain" |} ]}.

Definition hashLower : string :=
  "ab12ab12ab12ab12ab12ab12ab12ab12ab12ab12ab12ab12ab12ab12ab12ab12".
Definition hashUpper : string :=
  "AB12AB12AB12AB12AB12AB12AB12AB12AB12AB12AB12AB12AB12AB12AB12AB12".

Definition liveSha : Verus.DataDescriptorWrapper :=
  entry (Config.sha256 L0) (Verus.ObjMessage hashLower) 0.
Definition liveTitle : Verus.DataDescriptorWrapper :=
  entry (Config.title L0) (Verus.ObjMessage "doc1") 0.
(** A live sha256 entry whose payload is a number, not a message. *)
Definition numericSha : Verus.DataDescriptorWrapper :=
  entry (Config.sha256 L0) (Verus.ObjNumber 7) 0.
(** Two tombstones under the sha256 label: by flag and by null payload. *)
Definition flaggedSha : Verus.DataDescriptorWrapper :=
  entry (Config.sha256 L0) (Verus.ObjMessage hashLower) 32.
Definition nullSha : Verus.DataDescriptorWrapper :=
  entry (Config.sha256 L0) Verus.ObjNull 0.

(** The same hash under the keys of the main network, whose field labels
    are not assigned yet: the label of the entry is the [sha256] label of
    that network, the empty string. *)
Definition mainnetSha : Verus.DataDescriptorWrapper :=
  {[ Config.dataDescriptor (Config.VDXF_KEYS Config.mainnet) :=
       {| Verus.version := 1;
          Verus.flags := Some 0;
          Verus.objectdata := Verus.ObjMessage hashLower;
          Verus.label :=
            Some (Config.sha256
                    (Config.labels (Config.VDXF_KEYS Config.mainnet)));
          Verus.mimetype := Some "text/plain" |} ]}.

Definition doc1 : Vdxf.TimestampData :=
  {| Vdxf.sha256 := hashLower; Vdxf.title := "doc1";
     Vdxf.description := None; Vdxf.filename := None;
     Vdxf.filesize := None |}.

Definition upload : Vdxf.TimestampData :=
  {| Vdxf.sha256 := hashLower; Vdxf.title := "report";
     Vdxf.description := Some "quarterly figures";
     Vdxf.filename := Some "report.pdf";
     Vdxf.filesize := Some 48213 |}.

Definition historyEntry (entries : list Verus.DataDescriptorWrapper)
    (blockhash : string) (height : Z) (txid : string)
  : Verus.IdentityHistoryEntry :=
  {| Verus.identity :=
       {| Verus.identity_version := 3;
          Verus.identity_flags := 0;
          Verus.name := "alice";
          Verus.identityaddress := "iAliceAddress";
          Verus.parent := "iJhCezBExJHvtyH3fGhNnt2NhU4Ztkf2yq";
          Verus.contentmultimap :=
            Some {[ Config.proofBasic K0 := entries ]} |};
     Verus.blockhash := blockhash;
     Verus.height := height;
     Verus.output := {| Verus.txid := txid; Verus.voutnum := 0 |} |}.

Definition upperSha : Verus.DataDescriptorWrapper :=
  entry (Config.sha256 L0) (Verus.ObjMessage hashUpper) 0.
Definition sizeEntry : Verus.DataDescriptorWrapper :=
  entry (Config.filesize L0) (Verus.ObjMessage "48213") 0.

Definition storedUpper : Verus.IdentityHistoryEntry :=
  historyEntry [upperSha; liveTitle] "000000blockhashA" 10 "txidA".

(** A clock reading, in milliseconds. *)
Definition t0 : Z := 1700000000000.

Definition requested : Timestamp.Registry :=
  Timestamp.createTimestampRequest_store "iRequest1" "iAlice" doc1 t0 t0
    Timestamp.emptyRegistry.

Definition stored : Timestamp.Registry :=
  snd (Timestamp.storeTimestampResult "iRequest1" "deadbeef"
         (t0 + 5000) (t0 + 5000) requested).

(** The login registry after challenge [iChallenge1] was issued and a
    wallet answered it four seconds later. *)
Definition loggedIn : Auth.Registry :=
  Auth.verifyLoginResponse_store "iChallenge1" "iAlice" "alice@"
    (t0 + 4000) (t0 + 4000)
    (Auth.createLoginRequest_store "iChallenge1" "iSession1" t0 t0
       Auth.emptyRegistry).

(** A network on which the primary endpoint of the test network times
    out and every other endpoint answers with a block count. *)
Definition primaryDown (endpoint : string) (request : Verus.RpcRequest string)
    (w : unit) : Verus.FetchResult Z * unit :=
  if decide (endpoint = Config.endpoint (Config.VERUS_RPC Config.testnet))
  then (Verus.FetchRejected "TimeoutError" "The operation timed out", w)
  else (Verus.FetchResponse true 200 "OK"
          (Some {| Verus.result := Some 912345;
                   Verus.error := None;
                   Verus.response_id := Verus.id request |}), w).

(** A network on which every endpoint answers: identity not found. *)
Definition identityUnknown (endpoint : string)
    (request : Verus.RpcRequest string) (w : unit)
  : Verus.FetchResult Z * unit :=
  (Verus.FetchResponse true 200 "OK"
     (Some {| Verus.result := None;
              Verus.error :=
                Some {| Verus.code := Verus.RPC_ERROR_IDENTITY_NOT_FOUND;
                        Verus.error_message := "Identity not found" |};
              Verus.response_id := Verus.id request |}), w).

Definition clock (w : unit) : Z := t0.

Definition idle : Verus.Net (World := unit) :=
  {| Verus.world := tt; Verus.trace := [] |}.

(** An older publication of the same hash, five blocks up the chain. *)
Definition storedOlder : Verus.IdentityHistoryEntry :=
  historyEntry [liveSha; liveTitle] "000000blockhashB" 5 "txidB".

Definition doc2 : Vdxf.TimestampData :=
  {| Vdxf.sha256 := hashLower; Vdxf.title := "doc2";
     Vdxf.description := None; Vdxf.filename := None;
     Vdxf.filesize := None |}.

Definition digest32 : list Byte.byte := replicate 32 Byte.xab.

(** A request is created, polled, completed by the wallet callback and
    swept a minute later. *)
Definition lifecycle : list Timestamp.Op :=
  [Timestamp.OpCreate "iRequest1" "iAlice" doc1 t0 t0;
   Timestamp.OpPoll "iRequest1" (t0 + 2000);
   Timestamp.OpStore "iRequest1" "deadbeef" (t0 + 5000) (t0 + 5000);
   Timestamp.OpSweep (t0 + 60000)].

Definition challenged : Auth.Registry :=
  Auth.createLoginRequest_store "iChallenge1" "iSession1" t0 t0
    Auth.emptyRegistry.

(** A wallet response in the QR form: one text that decodes to a
    response for [iChallenge1] signed by [iAlice], with a valid
    signature and a registered name. *)
Definition noParams (s : string) : option (list (string * string)) := None.
Definition decodeOne (s : string) : option Auth.LoginConsentResponse :=
  if decide (s = "cmVzcG9uc2U=") then
    Some {| Auth.challenge_id := Some "iChallenge1";
            Auth.signing_id := Some "iAlice" |}
  else None.
Definition signatureValid (r : Auth.LoginConsentResponse) : option bool :=
  Some true.
Definition nameOf (id : string) : option string := Some "alice@".

Definition freshBrowser : Session.Env :=
  {| Session.browser := true;
     Session.item := Session.NoItem;
     Session.state := Session.initialState |}.

(** A daemon whose history of the identity holds one update, written by
    the encoder for [upload], and which knows the block of that update. *)
Definition chainHistory : Verus.IdentityHistoryResponse :=
  {| Verus.fullyqualifiedname := "alice.VRSCTEST@";
     Verus.status := "active";
     Verus.history :=
       [historyEntry (Vdxf.buildEntries K0 upload)
          "000000blockhashC" 120 "txidC"] |}.

Definition chainBlock : Verus.BlockData :=
  {| Verus.hash := "000000blockhashC";
     Verus.block_height := 120;
     Verus.time := 1700000123 |}.

Definition chainAnswer (endpoint : string)
    (request : Verus.RpcRequest Verus.JsParam) (w : unit)
  : Verus.FetchResult
      (Verus.IdentityHistoryResponse + Verus.BlockData) * unit :=
  (Verus.FetchResponse true 200 "OK"
     (Some {| Verus.result :=
                Some (if decide (Verus.method request = "getidentityhistory")
                      then inl chainHistory else inr chainBlock);
              Verus.error := None;
              Verus.response_id := Verus.id request |}), w).

Definition asHistory (v : Verus.IdentityHistoryResponse + Verus.BlockData)
  : Verus.IdentityHistoryResponse :=
  match v with
  | inl h => h
  | inr _ => {| Verus.fullyqualifiedname := ""; Verus.status := "";
                Verus.history := [] |}
  end.

Definition asBlock (v : Verus.IdentityHistoryResponse + Verus.BlockData)
  : Verus.BlockData :=
  match v with
  | inr b => b
  | inl _ => {| Verus.hash := ""; Verus.block_height := 0;
                Verus.time := 0 |}
  end.

End Examples.

(* ===================================================================== *)
(** * Facts about the primitives *)
(* ===================================================================== *)

Lemma truthy_true_iff (s : string) : Js.truthy s = true <-> s <> "".
Proof. unfold Js.truthy. case_decide; split; congruence. Qed.

Lemma truthy_false_iff (s : string) : Js.truthy s = false <-> s = "".
Proof. unfold Js.truthy. case_decide; split; congruence. Qed.

Lemma N_of_ascii_inj (a b : ascii) : N_of_ascii a = N_of_ascii b -> a = b.
Proof.
  intros H. rewrite <- (ascii_N_embedding a), <- (ascii_N_embedding b).
  now rewrite H.
Qed.

Lemma isUpper_range (a : ascii) :
  Js.isUpper a = true <-> (65 <= N_of_ascii a <= 90)%N.
Proof.
  unfold Js.isUpper. rewrite andb_true_iff, !N.leb_le. tauto.
Qed.

Lemma N_of_toLowerCaseChar (a : ascii) :
  N_of_ascii (Js.toLowerCaseChar a)
  = if Js.isUpper a then (N_of_ascii a + 32)%N else N_of_ascii a.
Proof.
  unfold Js.toLowerCaseChar. destruct (Js.isUpper a) eqn:E; [|done].
  apply isUpper_range in E. apply N_ascii_embedding. lia.
Qed.

Lemma toLowerCaseChar_eq_iff (a b : ascii) :
  Js.toLowerCaseChar a = Js.toLowerCaseChar b <-> Spec.sameLetter a b.
Proof.
  unfold Spec.sameLetter, Spec.caseVariant. split.
  - intros H. apply (f_equal N_of_ascii) in H.
    rewrite !N_of_toLowerCaseChar in H.
    destruct (Js.isUpper a) eqn:Ea, (Js.isUpper b) eqn:Eb.
    + left. apply N_of_ascii_inj. lia.
    + right; left. split; [done|]. lia.
    + right; right. split; [done|]. lia.
    + left. now apply N_of_ascii_inj.
  - intros [->|[[Ha Hb]|[Hb Ha]]]; [done| |]; apply N_of_ascii_inj;
      rewrite !N_of_toLowerCaseChar.
    + rewrite Ha. destruct (Js.isUpper b) eqn:Eb; [|lia].
      apply isUpper_range in Ha, Eb. lia.
    + rewrite Hb. destruct (Js.isUpper a) eqn:Ea; [|lia].
      apply isUpper_range in Hb, Ea. lia.
Qed.

Lemma toLowerCase_eq_iff (s t : string) :
  Js.toLowerCase s = Js.toLowerCase t <-> Spec.eqIgnoreCase s t.
Proof.
  split.
  - revert t. induction s as [|a s IH]; intros [|b t] H; simpl in H;
      try discriminate; [constructor|].
    injection H as Hc Hs. constructor; [|by apply IH].
    by apply toLowerCaseChar_eq_iff.
  - induction 1 as [|a b s t Hab _ IH]; simpl; [done|].
    f_equal; [|done]. by apply toLowerCaseChar_eq_iff.
Qed.

Lemma toLowerCaseChar_idemp (a : ascii) :
  Js.toLowerCaseChar (Js.toLowerCaseChar a) = Js.toLowerCaseChar a.
Proof.
  unfold Js.toLowerCaseChar at 1.
  destruct (Js.isUpper (Js.toLowerCaseChar a)) eqn:E; [|done].
  exfalso. apply isUpper_range in E. rewrite N_of_toLowerCaseChar in E.
  destruct (Js.isUpper a) eqn:Ea.
  - apply isUpper_range in Ea. lia.
  - apply isUpper_range in E. congruence.
Qed.

Lemma toLowerCase_idemp (s : string) :
  Js.toLowerCase (Js.toLowerCase s) = Js.toLowerCase s.
Proof.
  induction s as [|a s IH]; simpl; [done|].
  by rewrite toLowerCaseChar_idemp, IH.
Qed.

Lemma eqIgnoreCase_toLowerCase (s : string) :
  Spec.eqIgnoreCase s (Js.toLowerCase s).
Proof. apply toLowerCase_eq_iff. by rewrite toLowerCase_idemp. Qed.

(** ** Decimal printing and parsing *)

Lemma radix10_acc (ds : list N) (acc : N) :
  fold_left (fun a d => (10 * a + d)%N) ds acc
  = (acc * 10 ^ N.of_nat (length ds) + Js.radix10 ds)%N.
Proof.
  unfold Js.radix10. revert acc.
  induction ds as [|d ds IH]; intros acc; simpl fold_left.
  - simpl. lia.
  - rewrite IH, (IH (10 * 0 + d)%N).
    replace (N.of_nat (length (d :: ds))) with (N.succ (N.of_nat (length ds)))
      by (simpl; lia).
    rewrite N.pow_succ_r'. lia.
Qed.

Lemma radix10_cons (d : N) (ds : list N) :
  Js.radix10 (d :: ds) = (d * 10 ^ N.of_nat (length ds) + Js.radix10 ds)%N.
Proof.
  unfold Js.radix10 at 1. simpl fold_left. rewrite radix10_acc. lia.
Qed.

Lemma digitValue_pretty_N_char (x : N) :
  (x < 10)%N -> Js.digitValue (pretty_N_char x) = Some x.
Proof.
  intros H.
  assert (x = 0 \/ x = 1 \/ x = 2 \/ x = 3 \/ x = 4 \/ x = 5 \/ x = 6
          \/ x = 7 \/ x = 8 \/ x = 9)%N as Hx by lia.
  repeat (destruct Hx as [->|Hx]; [reflexivity|]). by subst.
Qed.

Lemma pretty_N_go_digits (x : N) (s : string) :
  Spec.allDigits s ->
  Spec.allDigits (pretty_N_go x s)
  /\ Js.radix10 (Js.takeDigits (pretty_N_go x s))
     = (x * 10 ^ N.of_nat (String.length s) + Js.radix10 (Js.takeDigits s))%N.
Proof.
  revert s. induction (N.lt_wf_0 x) as [x _ IH]. intros s Hs.
  destruct (decide (x = 0%N)) as [->|Hx].
  - rewrite pretty_N_go_0. split; [done|]. lia.
  - rewrite pretty_N_go_step by lia.
    set (c := pretty_N_char (x `mod` 10)).
    assert (Hc : Js.digitValue c = Some (x `mod` 10)%N).
    { apply digitValue_pretty_N_char. by apply N.mod_lt. }
    assert (Hs' : Spec.allDigits (String c s)).
    { unfold Spec.allDigits in *. simpl. rewrite Hc. simpl. by rewrite Hs. }
    destruct (IH (x `div` 10)%N) with (s := String c s) as [H1 H2];
      [apply N.div_lt; lia|done|].
    split; [done|]. rewrite H2. simpl Js.takeDigits. rewrite Hc.
    rewrite radix10_cons. unfold Spec.allDigits in Hs. rewrite Hs.
    replace (N.of_nat (String.length (String c s)))
      with (N.succ (N.of_nat (String.length s))) by (simpl; lia).
    rewrite N.pow_succ_r'.
    pose proof (N.div_mod x 10). lia.
Qed.

Lemma digit_not_space_or_sign (c : ascii) (d : N) :
  Js.digitValue c = Some d ->
  Js.isWhiteSpace c = false /\ c <> "-"%char /\ c <> "+"%char.
Proof.
  unfold Js.digitValue, Js.isWhiteSpace.
  destruct (_ && _)%N eqn:E; [|discriminate]. intros _.
  apply andb_true_iff in E as [E1 E2]. apply N.leb_le in E1, E2.
  split; [|split].
  - apply orb_false_iff. split.
    + apply andb_false_iff. right. apply N.leb_gt. lia.
    + apply N.eqb_neq. lia.
  - intros ->. simpl in *. lia.
  - intros ->. simpl in *. lia.
Qed.

Lemma parseInt10_digits (s : string) :
  Spec.allDigits s -> s <> "" ->
  Js.parseInt10 s = Some (Z.of_N (Js.radix10 (Js.takeDigits s)))
  /\ Js.parseInt10 (String "-" s)
     = Some (- Z.of_N (Js.radix10 (Js.takeDigits s))).
Proof.
  intros Hs Hne. destruct s as [|c s]; [done|].
  unfold Spec.allDigits in Hs. simpl in Hs.
  destruct (Js.digitValue c) as [d|] eqn:Hc; [|simpl in Hs; lia].
  destruct (digit_not_space_or_sign c d Hc) as (Hw & Hm & Hp).
  assert (Htd : Js.takeDigits (String c s) = d :: Js.takeDigits s).
  { simpl. by rewrite Hc. }
  split.
  - unfold Js.parseInt10. simpl Js.trimStart. rewrite Hw.
    assert (Hsign :
      (match String c s with
       | String "-" r => (-1, r)
       | String "+" r => (1, r)
       | _ => (1, String c s)
       end) = (1, String c s)).
    { destruct c as [[] [] [] [] [] [] [] []]; try reflexivity; congruence. }
    rewrite Hsign, Htd. f_equal. lia.
  - change (Js.parseInt10 (String "-" (String c s)))
      with (match Js.takeDigits (String c s) with
            | [] => None
            | ds => Some (-1 * Z.of_N (Js.radix10 ds))
            end).
    rewrite Htd. f_equal; lia.
Qed.

Lemma parseInt10_pretty_pos (p : positive) :
  Js.parseInt10 (pretty (N.pos p)) = Some (Z.pos p)
  /\ Js.parseInt10 ("-" +:+ pretty (N.pos p)) = Some (Z.neg p).
Proof.
  unfold pretty, pretty_N. case_decide; [done|].
  destruct (pretty_N_go_digits (N.pos p) "") as [Hd Hv]; [done|].
  change (N.of_nat (String.length "")) with 0%N in Hv.
  change (Js.radix10 (Js.takeDigits "")) with 0%N in Hv.
  rewrite N.pow_0_r in Hv.
  assert (Hne : pretty_N_go (N.pos p) "" <> "").
  { intros E. rewrite E in Hv.
    change (Js.radix10 (Js.takeDigits "")) with 0%N in Hv. lia. }
  destruct (parseInt10_digits _ Hd Hne) as [H1 H2].
  split.
  - rewrite H1, Hv. f_equal. lia.
  - change ("-" +:+ pretty_N_go (N.pos p) "")
      with (String "-" (pretty_N_go (N.pos p) "")).
    rewrite H2, Hv. f_equal. lia.
Qed.


(** [parseInt(n.toString(), 10)] gives a safe integer [n] back. *)
Lemma parseInt10_Number_toString (n : Z) :
  Js.isSafeInteger n ->
  Js.parseInt10 (Js.Number_toString n) = Some n.
Proof.
  intros _. unfold Js.Number_toString, pretty, pretty_Z.
  destruct n as [|p|p]; [reflexivity|..].
  - apply (parseInt10_pretty_pos p).
  - apply (parseInt10_pretty_pos p).
Qed.

(* ===================================================================== *)
(** * The record codec *)
(* ===================================================================== *)

Lemma keys_wf_facts (K : Config.VdxfKeys) :
  Spec.keys_wf K ->
  (Config.sha256 (Config.labels K) <> Config.title (Config.labels K)
   /\ Config.sha256 (Config.labels K) <> Config.description (Config.labels K)
   /\ Config.sha256 (Config.labels K) <> Config.filename (Config.labels K)
   /\ Config.sha256 (Config.labels K) <> Config.filesize (Config.labels K)
   /\ Config.title (Config.labels K) <> Config.description (Config.labels K)
   /\ Config.title (Config.labels K) <> Config.filename (Config.labels K)
   /\ Config.title (Config.labels K) <> Config.filesize (Config.labels K)
   /\ Config.description (Config.labels K) <> Config.filename (Config.labels K)
   /\ Config.description (Config.labels K) <> Config.filesize (Config.labels K)
   /\ Config.filename (Config.labels K) <> Config.filesize (Config.labels K))
  /\ (Config.sha256 (Config.labels K) <> ""
      /\ Config.title (Config.labels K) <> ""
      /\ Config.description (Config.labels K) <> ""
      /\ Config.filename (Config.labels K) <> ""
      /\ Config.filesize (Config.labels K) <> "").
Proof.
  unfold Spec.keys_wf, Spec.labelList. intros [Hnd Hne].
  rewrite !NoDup_cons, !not_elem_of_cons in Hnd.
  rewrite !not_elem_of_cons in Hne.
  intuition congruence.
Qed.

Lemma testnet_keys_wf : Spec.keys_wf (Config.VDXF_KEYS Config.testnet).
Proof.
  split.
  - apply (bool_decide_unpack _). by vm_compute.
  - apply (bool_decide_unpack _). by vm_compute.
Qed.

(** The unassigned mainnet keys are not usable: no entry is ever matched. *)
Lemma mainnet_keys_not_wf : ~ Spec.keys_wf (Config.VDXF_KEYS Config.mainnet).
Proof. intros [_ H]. apply H. simpl. left. Qed.

Section CodecFacts.
Variable K : Config.VdxfKeys.

Lemma collectFields_snoc (l : list Verus.DataDescriptorWrapper)
    (w : Verus.DataDescriptorWrapper) :
  Vdxf.collectFields K (l ++ [w])
  = Vdxf.parseEntry K (Vdxf.collectFields K l) w.
Proof. unfold Vdxf.collectFields. by rewrite fold_left_app. Qed.

(** A tombstone, and an entry with no descriptor, leave the accumulator
    as it is. *)
Lemma parseEntry_tombstone (acc : Vdxf.PartialData)
    (w : Verus.DataDescriptorWrapper) :
  Spec.isTombstone K w = true -> Vdxf.parseEntry K acc w = acc.
Proof.
  unfold Spec.isTombstone, Vdxf.parseEntry.
  destruct (w !! Config.dataDescriptor K) as [d|]; [|done].
  by intros ->.
Qed.

Lemma fold_parseEntry_filter (entries : list Verus.DataDescriptorWrapper)
    (acc : Vdxf.PartialData) :
  fold_left (Vdxf.parseEntry K) entries acc
  = fold_left (Vdxf.parseEntry K)
      (filter (fun w => Spec.isTombstone K w = false) entries) acc.
Proof.
  revert acc. induction entries as [|w l IH]; intros acc; [done|].
  rewrite filter_cons. simpl fold_left. case_decide as Hw.
  - simpl. apply IH.
  - apply not_false_is_true in Hw. rewrite parseEntry_tombstone by done.
    apply IH.
Qed.

Lemma liveDescriptors_snoc (l : list Verus.DataDescriptorWrapper)
    (w : Verus.DataDescriptorWrapper) :
  Spec.liveDescriptors K (l ++ [w])
  = Spec.liveDescriptors K l
    ++ match w !! Config.dataDescriptor K with
       | Some d => if Vdxf.isDeleted d then [] else [d]
       | None => []
       end.
Proof.
  unfold Spec.liveDescriptors. rewrite omap_app, filter_app. f_equal.
  simpl. destruct (w !! Config.dataDescriptor K) as [d|]; [|done].
  rewrite filter_cons, filter_nil.
  destruct (Vdxf.isDeleted d); by case_decide.
Qed.

Lemma lastBearing_snoc (lbl : string) (l : list Verus.DataDescriptorWrapper)
    (w : Verus.DataDescriptorWrapper) :
  Spec.lastBearing K lbl (l ++ [w])
  = match w !! Config.dataDescriptor K with
    | Some d =>
        if Vdxf.isDeleted d then Spec.lastBearing K lbl l
        else if decide (Verus.label d = Some lbl) then Some d
             else Spec.lastBearing K lbl l
    | None => Spec.lastBearing K lbl l
    end.
Proof.
  unfold Spec.lastBearing. rewrite liveDescriptors_snoc, filter_app.
  destruct (w !! Config.dataDescriptor K) as [d|];
    [|by rewrite filter_nil, app_nil_r].
  destruct (Vdxf.isDeleted d); [by rewrite filter_nil, app_nil_r|].
  rewrite filter_cons, filter_nil.
  case_decide; [by rewrite last_snoc|by rewrite app_nil_r].
Qed.

Lemma lastBearing_None (lbl : string)
    (entries : list Verus.DataDescriptorWrapper) :
  Spec.lastBearing K lbl entries = None
  <-> Spec.hasLiveEntry K lbl entries = false.
Proof.
  unfold Spec.lastBearing, Spec.hasLiveEntry.
  rewrite bool_decide_eq_false, last_None.
  generalize (Spec.liveDescriptors K entries) as ds.
  induction ds as [|d ds IH]; [split; [by inversion 2|done]|].
  rewrite filter_cons, Exists_cons. case_decide; [|tauto].
  split; [done|]. intros []. by left.
Qed.

Lemma lastBearing_Some (lbl : string)
    (entries : list Verus.DataDescriptorWrapper) (d : Verus.DataDescriptor) :
  Spec.lastBearing K lbl entries = Some d ->
  Verus.label d = Some lbl /\ Vdxf.isDeleted d = false
  /\ exists w, w ∈ entries /\ w !! Config.dataDescriptor K = Some d.
Proof.
  unfold Spec.lastBearing, Spec.liveDescriptors. intros H.
  apply last_Some_elem_of in H.
  apply list_elem_of_filter in H as [Hl H].
  apply list_elem_of_filter in H as [Hd H].
  apply list_elem_of_omap in H as (w & Hw & Hk). eauto.
Qed.

(** The loop computes the last write under each label. *)
Lemma collectFields_lastWrites (entries : list Verus.DataDescriptorWrapper) :
  Spec.keys_wf K ->
  Vdxf.collectFields K entries = Spec.lastWrites K entries.
Proof.
  intros Hwf.
  destruct (keys_wf_facts K Hwf)
    as [(?&?&?&?&?&?&?&?&?&?) (?&?&?&?&?)].
  induction entries as [|w l IH] using rev_ind; [done|].
  rewrite collectFields_snoc, IH. unfold Spec.lastWrites.
  rewrite !lastBearing_snoc. unfold Vdxf.parseEntry.
  destruct (w !! Config.dataDescriptor K) as [d|]; [|done].
  destruct (Vdxf.isDeleted d); [done|].
  destruct (Verus.label d) as [lab|] eqn:Hlab;
    [|by repeat (case_decide; [discriminate|])].
  destruct (Js.truthy lab) eqn:Ht; simpl negb; cbv iota.
  - repeat case_decide; simplify_eq; try done; congruence.
  - apply truthy_false_iff in Ht. subst lab.
    repeat case_decide; simplify_eq; try done; congruence.
Qed.

(** [sha256] is written only by a live entry labelled [sha256]. *)
Lemma fold_parseEntry_sha256_None (entries : list Verus.DataDescriptorWrapper)
    (acc : Vdxf.PartialData) :
  Vdxf.p_sha256 acc = None ->
  (forall w d, w ∈ entries -> w !! Config.dataDescriptor K = Some d ->
     Verus.label d = Some (Config.sha256 (Config.labels K)) ->
     Vdxf.isDeleted d = true) ->
  Vdxf.p_sha256 (fold_left (Vdxf.parseEntry K) entries acc) = None.
Proof.
  revert acc. induction entries as [|w l IH]; intros acc Hacc Hall; [done|].
  simpl. apply IH; [|intros w' d' ?; apply Hall; by right].
  unfold Vdxf.parseEntry.
  destruct (w !! Config.dataDescriptor K) as [d|] eqn:Hw; [|done].
  destruct (Vdxf.isDeleted d) eqn:Hdel; [done|].
  destruct (Verus.label d) as [lab|] eqn:Hlab; [|done].
  destruct (negb (Js.truthy lab)); [done|].
  repeat case_decide; try done. subst lab.
  rewrite (Hall w d) in Hdel; [done|by left|done..].
Qed.

Lemma validate_None (p : Vdxf.PartialData) :
  Vdxf.validate p = None
  <-> Js.truthyOpt (Vdxf.p_sha256 p) = false
      \/ Js.truthyOpt (Vdxf.p_title p) = false.
Proof.
  unfold Vdxf.validate, Js.truthyOpt.
  destruct (Vdxf.p_sha256 p) as [s|], (Vdxf.p_title p) as [t|];
    try (split; [auto|done]).
  destruct (Js.truthy s), (Js.truthy t); simpl; intuition discriminate.
Qed.

Lemma validate_Some (p : Vdxf.PartialData) (s t : string) :
  Vdxf.p_sha256 p = Some s -> Vdxf.p_title p = Some t ->
  s <> "" -> t <> "" ->
  Vdxf.validate p
  = Some {| Vdxf.sha256 := s; Vdxf.title := t;
            Vdxf.description := Vdxf.p_description p;
            Vdxf.filename := Vdxf.p_filename p;
            Vdxf.filesize := Vdxf.p_filesize p |}.
Proof.
  intros Hs Ht Hs' Ht'. unfold Vdxf.validate. rewrite Hs, Ht.
  apply truthy_true_iff in Hs', Ht'. by rewrite Hs', Ht'.
Qed.


End CodecFacts.

Section CodecClaims.
Variable K : Config.VdxfKeys.

Lemma lastBearing_app (lbl : string)
    (l1 l2 : list Verus.DataDescriptorWrapper) :
  Spec.lastBearing K lbl (l1 ++ l2)
  = match Spec.lastBearing K lbl l2 with
    | Some d => Some d
    | None => Spec.lastBearing K lbl l1
    end.
Proof.
  unfold Spec.lastBearing, Spec.liveDescriptors.
  by rewrite omap_app, !filter_app, last_app.
Qed.

Lemma lastBearing_singleton (lbl : string) (w : Verus.DataDescriptorWrapper)
    (d : Verus.DataDescriptor) :
  w !! Config.dataDescriptor K = Some d -> Vdxf.isDeleted d = false ->
  Verus.label d = Some lbl ->
  Spec.lastBearing K lbl [w] = Some d.
Proof.
  intros Hw Hd Hl. change [w] with ([] ++ [w]).
  rewrite (lastBearing_snoc K lbl [] w), Hw, Hd. by case_decide.
Qed.

(** C1 (amended). Under keys that tell the fields apart,
    [parseTimestampData] returns no record exactly when the last live
    entry labelled [sha256], or the last live entry labelled [title], is
    missing or does not resolve to a non-empty string; a filtered set that
    lacks either entry is one such case. When both resolve to non-empty
    strings the result is a record holding exactly these two values. *)
Theorem parseTimestampData_None_iff
    (entries : list Verus.DataDescriptorWrapper) :
  Spec.keys_wf K ->
  let L := Config.labels K in
  let sha := Spec.lastBearing K (Config.sha256 L) entries
               ≫= Vdxf.extractStringValue in
  let ttl := Spec.lastBearing K (Config.title L) entries
               ≫= Vdxf.extractStringValue in
  (Vdxf.parseTimestampData K entries = None
   <-> Js.truthyOpt sha = false \/ Js.truthyOpt ttl = false)
  /\ (Spec.hasLiveEntry K (Config.sha256 L) entries = false
      \/ Spec.hasLiveEntry K (Config.title L) entries = false ->
      Vdxf.parseTimestampData K entries = None)
  /\ (forall s t, sha = Some s -> ttl = Some t -> s <> "" -> t <> "" ->
      exists d, Vdxf.parseTimestampData K entries = Some d
                /\ Vdxf.sha256 d = s /\ Vdxf.title d = t).
Proof.
  intros Hwf L sha ttl. unfold Vdxf.parseTimestampData.
  rewrite (collectFields_lastWrites K entries Hwf).
  split; [apply validate_None|]. split.
  - intros H. apply validate_None. simpl. fold L.
    destruct H as [H|H]; apply lastBearing_None in H; [left|right];
      by rewrite H.
  - intros s t Hs Ht Hs' Ht'. eexists. split.
    + by apply (validate_Some _ s t).
    + done.
Qed.

(** C3 (amended). A tombstoned entry is excluded whatever its label:
    decoding a list and decoding it without its tombstones agree, and so
    does dropping any single tombstone. A later tombstone under [sha256]
    therefore leaves an earlier live value in force; the record is
    undecodable when every [sha256] entry of the list is a tombstone. *)
Theorem parseTimestampData_ignores_tombstones
    (entries : list Verus.DataDescriptorWrapper) :
  Vdxf.parseTimestampData K entries
  = Vdxf.parseTimestampData K
      (filter (fun w => Spec.isTombstone K w = false) entries)
  /\ (forall l1 e l2, entries = l1 ++ e :: l2 ->
        Spec.isTombstone K e = true ->
        Vdxf.parseTimestampData K entries
        = Vdxf.parseTimestampData K (l1 ++ l2))
  /\ ((forall w d, w ∈ entries ->
         w !! Config.dataDescriptor K = Some d ->
         Verus.label d = Some (Config.sha256 (Config.labels K)) ->
         Vdxf.isDeleted d = true) ->
      Vdxf.parseTimestampData K entries = None).
Proof.
  unfold Vdxf.parseTimestampData, Vdxf.collectFields. split; [|split].
  - by rewrite fold_parseEntry_filter.
  - intros l1 e l2 -> He. rewrite !fold_left_app. simpl.
    by rewrite parseEntry_tombstone.
  - intros Hall. apply validate_None. left.
    by rewrite (fold_parseEntry_sha256_None K entries).
Qed.

(** The field a live entry under the [sha256] label leaves when no live
    entry under that label follows it. *)
Lemma lastWrites_sha256_at (earlier later : list Verus.DataDescriptorWrapper)
    (w : Verus.DataDescriptorWrapper) (d : Verus.DataDescriptor) :
  w !! Config.dataDescriptor K = Some d ->
  Vdxf.isDeleted d = false ->
  Verus.label d = Some (Config.sha256 (Config.labels K)) ->
  Spec.hasLiveEntry K (Config.sha256 (Config.labels K)) later = false ->
  Vdxf.p_sha256 (Spec.lastWrites K (earlier ++ w :: later))
  = Vdxf.extractStringValue d.
Proof.
  intros Hw Hd Hl Hlater. simpl. apply lastBearing_None in Hlater.
  rewrite lastBearing_app, (lastBearing_app _ [w] later), Hlater.
  by rewrite (lastBearing_singleton _ w d).
Qed.

Lemma lastWrites_title_at (earlier later : list Verus.DataDescriptorWrapper)
    (w : Verus.DataDescriptorWrapper) (d : Verus.DataDescriptor) :
  w !! Config.dataDescriptor K = Some d ->
  Vdxf.isDeleted d = false ->
  Verus.label d = Some (Config.title (Config.labels K)) ->
  Spec.hasLiveEntry K (Config.title (Config.labels K)) later = false ->
  Vdxf.p_title (Spec.lastWrites K (earlier ++ w :: later))
  = Vdxf.extractStringValue d.
Proof.
  intros Hw Hd Hl Hlater. simpl. apply lastBearing_None in Hlater.
  rewrite lastBearing_app, (lastBearing_app _ [w] later), Hlater.
  by rewrite (lastBearing_singleton _ w d).
Qed.

(** A live descriptor that carries no string message carries a number,
    and nothing is extracted from it as a string. *)
Lemma extractStringValue_not_message (d : Verus.DataDescriptor) :
  (forall m, Verus.objectdata d <> Verus.ObjMessage m) ->
  Vdxf.extractStringValue d = None.
Proof.
  unfold Vdxf.extractStringValue.
  destruct (Verus.objectdata d) as [|n|m]; [done..|].
  intros H. exfalso. by apply (H m).
Qed.

(** C9 (amended). On a network whose five field labels are non-empty and
    pairwise distinct, each field the loop collects is the extraction
    result of the last non-tombstoned entry bearing the field's label,
    also when that result is undefined. For [sha256] and for [title] the
    result is spelled out: when the last live entry under the label
    carries a string message, the field is that message; when its payload
    is not a string message (a number), the field is undefined whatever
    came before, and the list does not decode. *)
Theorem collectFields_last_write_wins
    (entries : list Verus.DataDescriptorWrapper) :
  Spec.keys_wf K ->
  Vdxf.collectFields K entries = Spec.lastWrites K entries
  /\ Vdxf.parseTimestampData K entries
     = Vdxf.validate (Spec.lastWrites K entries)
  /\ (forall earlier w d later,
        entries = earlier ++ w :: later ->
        w !! Config.dataDescriptor K = Some d ->
        Vdxf.isDeleted d = false ->
        (Verus.label d = Some (Config.sha256 (Config.labels K)) ->
         Spec.hasLiveEntry K (Config.sha256 (Config.labels K)) later
         = false ->
         (forall m, Verus.objectdata d = Verus.ObjMessage m ->
            Vdxf.p_sha256 (Vdxf.collectFields K entries) = Some m)
         /\ ((forall m, Verus.objectdata d <> Verus.ObjMessage m) ->
             Vdxf.p_sha256 (Vdxf.collectFields K entries) = None
             /\ Vdxf.parseTimestampData K entries = None))
        /\ (Verus.label d = Some (Config.title (Config.labels K)) ->
            Spec.hasLiveEntry K (Config.title (Config.labels K)) later
            = false ->
            (forall m, Verus.objectdata d = Verus.ObjMessage m ->
               Vdxf.p_title (Vdxf.collectFields K entries) = Some m)
            /\ ((forall m, Verus.objectdata d <> Verus.ObjMessage m) ->
                Vdxf.p_title (Vdxf.collectFields K entries) = None
                /\ Vdxf.parseTimestampData K entries = None))).
Proof.
  intros Hwf. unfold Vdxf.parseTimestampData.
  rewrite (collectFields_lastWrites K entries Hwf).
  split; [done|]. split; [done|].
  intros earlier w d later -> Hw Hd. split.
  - intros Hl Hlater.
    pose proof (lastWrites_sha256_at earlier later w d Hw Hd Hl Hlater) as E.
    split.
    + intros m Hm. rewrite E. unfold Vdxf.extractStringValue. by rewrite Hm.
    + intros Hm. apply extractStringValue_not_message in Hm.
      assert (E' : Vdxf.p_sha256 (Spec.lastWrites K (earlier ++ w :: later))
                   = None) by (by rewrite E).
      split; [exact E'|]. apply validate_None. left. by rewrite E'.
  - intros Hl Hlater.
    pose proof (lastWrites_title_at earlier later w d Hw Hd Hl Hlater) as E.
    split.
    + intros m Hm. rewrite E. unfold Vdxf.extractStringValue. by rewrite Hm.
    + intros Hm. apply extractStringValue_not_message in Hm.
      assert (E' : Vdxf.p_title (Spec.lastWrites K (earlier ++ w :: later))
                   = None) by (by rewrite E).
      split; [exact E'|]. apply validate_None. right. by rewrite E'.
Qed.


End CodecClaims.

Section RoundTrip.
Variable K : Config.VdxfKeys.
Hypothesis Hwf : Spec.keys_wf K.

(** What the loop does with a freshly built entry: unfold one turn and
    settle the label tests with the distinctness of the keys. *)
Ltac build_turn :=
  destruct (keys_wf_facts K Hwf)
    as [(?&?&?&?&?&?&?&?&?&?) (Hs&Ht&Hd&Hf&Hz)];
  apply truthy_true_iff in Hs, Ht, Hd, Hf, Hz;
  unfold Vdxf.parseEntry, Vdxf.buildDataDescriptor;
  rewrite lookup_singleton_eq; simpl;
  rewrite ?Hs, ?Ht, ?Hd, ?Hf, ?Hz; simpl;
  repeat case_decide; try congruence; try done.

Lemma parseEntry_build_sha256 (acc : Vdxf.PartialData) (s m : string) :
  Vdxf.parseEntry K acc
    (Vdxf.buildDataDescriptor K (Config.sha256 (Config.labels K)) (inl s) m)
  = {| Vdxf.p_sha256 := Some s;
       Vdxf.p_title := Vdxf.p_title acc;
       Vdxf.p_description := Vdxf.p_description acc;
       Vdxf.p_filename := Vdxf.p_filename acc;
       Vdxf.p_filesize := Vdxf.p_filesize acc |}.
Proof. build_turn. Qed.

Lemma parseEntry_build_title (acc : Vdxf.PartialData) (s m : string) :
  Vdxf.parseEntry K acc
    (Vdxf.buildDataDescriptor K (Config.title (Config.labels K)) (inl s) m)
  = {| Vdxf.p_sha256 := Vdxf.p_sha256 acc;
       Vdxf.p_title := Some s;
       Vdxf.p_description := Vdxf.p_description acc;
       Vdxf.p_filename := Vdxf.p_filename acc;
       Vdxf.p_filesize := Vdxf.p_filesize acc |}.
Proof. build_turn. Qed.

Lemma parseEntry_build_description (acc : Vdxf.PartialData) (s m : string) :
  Vdxf.parseEntry K acc
    (Vdxf.buildDataDescriptor K (Config.description (Config.labels K))
       (inl s) m)
  = {| Vdxf.p_sha256 := Vdxf.p_sha256 acc;
       Vdxf.p_title := Vdxf.p_title acc;
       Vdxf.p_description := Some s;
       Vdxf.p_filename := Vdxf.p_filename acc;
       Vdxf.p_filesize := Vdxf.p_filesize acc |}.
Proof. build_turn. Qed.

Lemma parseEntry_build_filename (acc : Vdxf.PartialData) (s m : string) :
  Vdxf.parseEntry K acc
    (Vdxf.buildDataDescriptor K (Config.filename (Config.labels K)) (inl s) m)
  = {| Vdxf.p_sha256 := Vdxf.p_sha256 acc;
       Vdxf.p_title := Vdxf.p_title acc;
       Vdxf.p_description := Vdxf.p_description acc;
       Vdxf.p_filename := Some s;
       Vdxf.p_filesize := Vdxf.p_filesize acc |}.
Proof. build_turn. Qed.

Lemma parseEntry_build_filesize (acc : Vdxf.PartialData) (n : Z)
    (m : string) :
  Js.isSafeInteger n ->
  Vdxf.parseEntry K acc
    (Vdxf.buildDataDescriptor K (Config.filesize (Config.labels K)) (inr n) m)
  = {| Vdxf.p_sha256 := Vdxf.p_sha256 acc;
       Vdxf.p_title := Vdxf.p_title acc;
       Vdxf.p_description := Vdxf.p_description acc;
       Vdxf.p_filename := Vdxf.p_filename acc;
       Vdxf.p_filesize := Some n |}.
Proof.
  intros Hn. build_turn. unfold Vdxf.extractNumberValue. simpl.
  by rewrite parseInt10_Number_toString.
Qed.

Lemma collectFields_buildEntries (d : Vdxf.TimestampData) :
  Spec.safeSize d ->
  Vdxf.collectFields K (Vdxf.buildEntries K d)
  = {| Vdxf.p_sha256 := Some (Vdxf.sha256 d);
       Vdxf.p_title := Some (Vdxf.title d);
       Vdxf.p_description := Spec.carriedString (Vdxf.description d);
       Vdxf.p_filename := Spec.carriedString (Vdxf.filename d);
       Vdxf.p_filesize := Vdxf.filesize d |}.
Proof.
  intros Hn. unfold Spec.safeSize in Hn.
  unfold Vdxf.collectFields, Vdxf.buildEntries, Spec.carriedString.
  rewrite !fold_left_app. simpl fold_left at 4.
  rewrite parseEntry_build_sha256, parseEntry_build_title. simpl.
  destruct (Vdxf.description d) as [ds|]; [destruct (Js.truthy ds)|];
    destruct (Vdxf.filename d) as [fs|]; try destruct (Js.truthy fs);
    destruct (Vdxf.filesize d) as [n|]; simpl;
    rewrite ?parseEntry_build_description, ?parseEntry_build_filename,
      ?parseEntry_build_filesize by (by apply Hn); done.
Qed.

End RoundTrip.

(** C2 (amended). On a network whose five field labels are non-empty and
    pairwise distinct, and for a record whose [sha256] and [title] are
    non-empty and whose [filesize], if any, is a safe integer, the entry
    list that [buildTimestampContentMap] stores under the proof key
    decodes to the record the wire carries: every field of the input, an
    empty description or file name being left out by the encoder; a
    record without such empty optional strings comes back unchanged. *)
Theorem parse_build_roundtrip (K : Config.VdxfKeys)
    (d : Vdxf.TimestampData) :
  Spec.keys_wf K ->
  Vdxf.sha256 d <> "" -> Vdxf.title d <> "" ->
  (forall n, Vdxf.filesize d = Some n -> Js.isSafeInteger n) ->
  Vdxf.buildTimestampContentMap K d !! Config.proofBasic K
  = Some (Vdxf.buildEntries K d)
  /\ Vdxf.parseTimestampData K (Vdxf.buildEntries K d)
     = Some (Spec.carried d)
  /\ (Vdxf.description d <> Some "" -> Vdxf.filename d <> Some "" ->
      Spec.carried d = d).
Proof.
  intros Hwf Hs Ht Hn. split; [|split].
  - unfold Vdxf.buildTimestampContentMap. apply lookup_singleton_eq.
  - unfold Vdxf.parseTimestampData.
    rewrite (collectFields_buildEntries K Hwf d Hn).
    by apply validate_Some.
  - intros Hd Hf. destruct d as [s t ds fs n]. unfold Spec.carried. simpl in *.
    f_equal.
    + destruct ds as [x|]; [|done]. simpl.
      destruct (Js.truthy x) eqn:E; [done|].
      apply truthy_false_iff in E. congruence.
    + destruct fs as [x|]; [|done]. simpl.
      destruct (Js.truthy x) eqn:E; [done|].
      apply truthy_false_iff in E. congruence.
Qed.

Section Lookup.
Variable K : Config.VdxfKeys.

Lemma findLoop_result (history : list Verus.IdentityHistoryEntry)
    (nh : string) :
  match Vdxf.findLoop K history nh with
  | Some r =>
      exists h1 e h2, history = h1 ++ e :: h2
        /\ Vdxf.parseHistoryEntry K e = Some r
        /\ Js.toLowerCase (Vdxf.sha256 (Vdxf.data r)) = nh
        /\ forall e' r', e' ∈ h1 -> Vdxf.parseHistoryEntry K e' = Some r' ->
             Js.toLowerCase (Vdxf.sha256 (Vdxf.data r')) <> nh
  | None =>
      forall e r, e ∈ history -> Vdxf.parseHistoryEntry K e = Some r ->
        Js.toLowerCase (Vdxf.sha256 (Vdxf.data r)) <> nh
  end.
Proof.
  induction history as [|e0 h IH]; simpl.
  - intros e r He. by apply elem_of_nil in He.
  - destruct (Vdxf.parseHistoryEntry K e0) as [r0|] eqn:E0.
    + case_decide as Hm.
      * exists [], e0, h. repeat split; try done.
        intros e' r' He'. by apply elem_of_nil in He'.
      * destruct (Vdxf.findLoop K h nh) as [r|].
        -- destruct IH as (h1 & e & h2 & -> & He & Hr & Hfirst).
           exists (e0 :: h1), e, h2. repeat split; try done.
           intros e' r' [->|He']%elem_of_cons Hp; [congruence|eauto].
        -- intros e r [->|He]%elem_of_cons Hp; [congruence|eauto].
    + destruct (Vdxf.findLoop K h nh) as [r|].
      * destruct IH as (h1 & e & h2 & -> & He & Hr & Hfirst).
        exists (e0 :: h1), e, h2. repeat split; try done.
        intros e' r' [->|He']%elem_of_cons Hp; [congruence|eauto].
      * intros e r [->|He]%elem_of_cons Hp; [congruence|eauto].
Qed.

Lemma findLoop_first (h1 h2 : list Verus.IdentityHistoryEntry)
    (e : Verus.IdentityHistoryEntry) (r : Vdxf.TimestampRecord)
    (nh : string) :
  Vdxf.parseHistoryEntry K e = Some r ->
  Js.toLowerCase (Vdxf.sha256 (Vdxf.data r)) = nh ->
  (forall e' r', e' ∈ h1 -> Vdxf.parseHistoryEntry K e' = Some r' ->
     Js.toLowerCase (Vdxf.sha256 (Vdxf.data r')) <> nh) ->
  Vdxf.findLoop K (h1 ++ e :: h2) nh = Some r.
Proof.
  intros He Hr. induction h1 as [|e0 h1 IH]; intros Hfirst; simpl.
  - rewrite He. by case_decide.
  - destruct (Vdxf.parseHistoryEntry K e0) as [r0|] eqn:E0.
    + case_decide as Hm.
      * exfalso. eapply (Hfirst e0 r0); [by left|done..].
      * apply IH. intros e' r' He'. apply Hfirst. by right.
    + apply IH. intros e' r' He'. apply Hfirst. by right.
Qed.

(** C6. [findTimestampByHash] depends on the target hash only up to
    the case of its letters; it returns the first entry, in the order the
    history is given, that decodes to a record whose [sha256] equals the
    target up to case, and nothing when no entry does. So a record stored
    with an upper-case hash is found by the same hash in lower case. *)
Theorem findTimestampByHash_first_match
    (history : list Verus.IdentityHistoryEntry) (target : string) :
  (forall target', Spec.eqIgnoreCase target target' ->
     Vdxf.findTimestampByHash K history target'
     = Vdxf.findTimestampByHash K history target)
  /\ match Vdxf.findTimestampByHash K history target with
     | Some r =>
         exists h1 e h2, history = h1 ++ e :: h2
           /\ Vdxf.parseHistoryEntry K e = Some r
           /\ Spec.eqIgnoreCase (Vdxf.sha256 (Vdxf.data r)) target
           /\ forall e' r', e' ∈ h1 ->
                Vdxf.parseHistoryEntry K e' = Some r' ->
                ~ Spec.eqIgnoreCase (Vdxf.sha256 (Vdxf.data r')) target
     | None =>
         forall e r, e ∈ history -> Vdxf.parseHistoryEntry K e = Some r ->
           ~ Spec.eqIgnoreCase (Vdxf.sha256 (Vdxf.data r)) target
     end
  /\ (forall h1 e h2 r, history = h1 ++ e :: h2 ->
        Vdxf.parseHistoryEntry K e = Some r ->
        Spec.eqIgnoreCase (Vdxf.sha256 (Vdxf.data r)) target ->
        (forall e' r', e' ∈ h1 -> Vdxf.parseHistoryEntry K e' = Some r' ->
           ~ Spec.eqIgnoreCase (Vdxf.sha256 (Vdxf.data r')) target) ->
        Vdxf.findTimestampByHash K history target = Some r).
Proof.
  unfold Vdxf.findTimestampByHash. split; [|split].
  - intros target' H. apply toLowerCase_eq_iff in H. by rewrite H.
  - pose proof (findLoop_result history (Js.toLowerCase target)) as H.
    destruct (Vdxf.findLoop K history (Js.toLowerCase target)) as [r|].
    + destruct H as (h1 & e & h2 & -> & He & Hr & Hfirst).
      exists h1, e, h2. repeat split; try done.
      * by apply toLowerCase_eq_iff.
      * intros e' r' He' Hp Hc. apply toLowerCase_eq_iff in Hc.
        by eapply Hfirst.
    + intros e r He Hp Hc. apply toLowerCase_eq_iff in Hc. by eapply H.
  - intros h1 e h2 r -> He Hr Hfirst. apply findLoop_first; [done|..].
    + by apply toLowerCase_eq_iff.
    + intros e' r' He' Hp Hc. apply toLowerCase_eq_iff in Hc.
      by eapply Hfirst.
Qed.

End Lookup.

(* ===================================================================== *)
(** * The RPC gateway *)
(* ===================================================================== *)

Section GatewayClaims.
Context {World Param T : Type}.
Variable fetch :
  string -> Verus.RpcRequest Param -> World -> Verus.FetchResult T * World.
Variable Date_now : World -> Z.

Lemma fallbackEndpoint_configured (net : Config.Network) :
  Js.truthy (Config.fallbackEndpoint (Config.VERUS_RPC net)) = true.
Proof. by destruct net. Qed.

Lemma rpcCallToEndpoint_trace (endpoint method : string)
    (params : list Param) (s : Verus.Net) :
  Verus.trace (snd (Verus.rpcCallToEndpoint fetch Date_now
                      endpoint method params s))
  = Verus.trace s ++ [endpoint].
Proof.
  unfold Verus.rpcCallToEndpoint.
  destruct (fetch _ _ _) as [[name message|ok status statusText body] w];
    [done|].
  destruct ok; simpl; [|done].
  destruct body as [data|]; [|done]. by destruct (Verus.error data).
Qed.

(** C5. On either network: when the primary endpoint fails for a
    transport reason, [rpcCall] calls the fallback endpoint once and its
    outcome is the outcome of that call (a successful fallback is returned
    as a plain result); when the primary endpoint answers with a
    structured error, that error is thrown as a [VerusRpcError] with the
    same code and message after the single call to the primary. *)
Theorem rpcCall_fallback_policy (net : Config.Network)
    (method : string) (params : list Param) (s : Verus.Net)
    (resp : Verus.FetchResult T) (w : World) :
  let cfg := Config.VERUS_RPC net in
  fetch (Config.endpoint cfg)
    (Verus.buildRequest Date_now method params s) (Verus.world s)
  = (resp, w) ->
  let s1 := {| Verus.world := w;
               Verus.trace := Verus.trace s ++ [Config.endpoint cfg] |} in
  let out := Verus.rpcCall fetch Date_now cfg method params s in
  (Spec.transportFailure resp ->
     out = Verus.rpcCallToEndpoint fetch Date_now
             (Config.fallbackEndpoint cfg) method params s1
     /\ Verus.trace (snd out)
        = Verus.trace s
          ++ [Config.endpoint cfg; Config.fallbackEndpoint cfg]
     /\ forall v s2,
          Verus.rpcCallToEndpoint fetch Date_now
            (Config.fallbackEndpoint cfg) method params s1 = (inr v, s2) ->
          out = (inr v, s2))
  /\ (forall e, Spec.applicationError resp e ->
        out = (inl (Verus.VerusRpcError (Verus.code e)
                      (Verus.error_message e)), s1)
        /\ Verus.trace (snd out) = Verus.trace s ++ [Config.endpoint cfg]).
Proof.
  intros cfg Hfetch s1 out.
  assert (Hfb : forall name message,
    Verus.rpcCallToEndpoint fetch Date_now (Config.endpoint cfg)
      method params s = (inl (Verus.OtherError name message), s1) ->
    out = Verus.rpcCallToEndpoint fetch Date_now
            (Config.fallbackEndpoint cfg) method params s1).
  { intros name message H. unfold out, Verus.rpcCall. rewrite H.
    unfold cfg. by rewrite fallbackEndpoint_configured. }
  split.
  - intros Hfail.
    assert (Hout : out = Verus.rpcCallToEndpoint fetch Date_now
              (Config.fallbackEndpoint cfg) method params s1).
    { destruct resp as [name message|ok status statusText body];
        simpl in Hfail.
      - apply (Hfb name message). unfold Verus.rpcCallToEndpoint.
        by rewrite Hfetch.
      - destruct ok.
        + destruct Hfail as [Hok | ->]; [done|].
          eapply Hfb. unfold Verus.rpcCallToEndpoint. by rewrite Hfetch.
        + eapply Hfb. unfold Verus.rpcCallToEndpoint. by rewrite Hfetch. }
    split; [done|]. split.
    + rewrite Hout, rpcCallToEndpoint_trace. simpl.
      by rewrite <- app_assoc.
    + intros v s2 H. by rewrite Hout.
  - intros e (status & statusText & data & -> & He).
    assert (Hout : out = (inl (Verus.VerusRpcError (Verus.code e)
                                 (Verus.error_message e)), s1)).
    { unfold out, Verus.rpcCall, Verus.rpcCallToEndpoint.
      rewrite Hfetch. simpl. by rewrite He. }
    by rewrite Hout.
Qed.

End GatewayClaims.

(* ===================================================================== *)
(** * The timestamp-creation registry *)
(* ===================================================================== *)

Lemma sweep_pending_lookup (now : Z) (st : Timestamp.Registry)
    (id : string) :
  Timestamp.pendingTimestampRequests (Timestamp.sweep now st) !! id
  = match Timestamp.pendingTimestampRequests st !! id with
    | Some p =>
        if decide (now > Timestamp.Pending.expiresAt p) then None else Some p
    | None => None
    end.
Proof.
  unfold Timestamp.sweep. simpl.
  destruct (Timestamp.pendingTimestampRequests st !! id) as [p|] eqn:E.
  - case_decide.
    + apply map_lookup_filter_None. right. intros p' Hp'. simpl.
      rewrite E in Hp'. injection Hp' as <-. tauto.
    + apply map_lookup_filter_Some. done.
  - apply map_lookup_filter_None. by left.
Qed.

Lemma sweep_completed_lookup (now : Z) (st : Timestamp.Registry)
    (id : string) :
  Timestamp.completedTimestamps (Timestamp.sweep now st) !! id
  = match Timestamp.completedTimestamps st !! id with
    | Some c =>
        if decide (now > Timestamp.Completed.expiresAt c) then None
        else Some c
    | None => None
    end.
Proof.
  unfold Timestamp.sweep. simpl.
  destruct (Timestamp.completedTimestamps st !! id) as [c|] eqn:E.
  - case_decide.
    + apply map_lookup_filter_None. right. intros c' Hc'. simpl.
      rewrite E in Hc'. injection Hc' as <-. tauto.
    + apply map_lookup_filter_Some. done.
  - apply map_lookup_filter_None. by left.
Qed.

Lemma sweeps_completed_None (times : list Z) (st : Timestamp.Registry)
    (id : string) :
  Timestamp.completedTimestamps st !! id = None ->
  Timestamp.completedTimestamps (Timestamp.sweeps times st) !! id = None.
Proof.
  unfold Timestamp.sweeps. revert st.
  induction times as [|t ts IH]; intros st H; [done|].
  simpl. apply IH. by rewrite sweep_completed_lookup, H.
Qed.

Lemma sweeps_pending_cases (times : list Z) (st : Timestamp.Registry)
    (id : string) (p : Timestamp.Pending.t) :
  Timestamp.pendingTimestampRequests st !! id = Some p ->
  Timestamp.pendingTimestampRequests (Timestamp.sweeps times st) !! id
    = Some p
  \/ Timestamp.pendingTimestampRequests (Timestamp.sweeps times st) !! id
     = None.
Proof.
  unfold Timestamp.sweeps. revert st.
  induction times as [|t ts IH]; intros st H; [by left|].
  simpl.
  destruct (decide (t > Timestamp.Pending.expiresAt p)) as [Ht|Ht].
  - right. clear IH.
    assert (Hn : Timestamp.pendingTimestampRequests (Timestamp.sweep t st)
                   !! id = None).
    { rewrite sweep_pending_lookup, H. by case_decide. }
    revert Hn. generalize (Timestamp.sweep t st) as st'.
    induction ts as [|t' ts IH]; intros st' Hn; [done|].
    simpl. apply IH. by rewrite sweep_pending_lookup, Hn.
  - apply IH. rewrite sweep_pending_lookup, H. by case_decide.
Qed.

Lemma sweeps_pending_kept (times : list Z) (st : Timestamp.Registry)
    (id : string) (p : Timestamp.Pending.t) :
  Timestamp.pendingTimestampRequests st !! id = Some p ->
  Forall (fun t => t <= Timestamp.Pending.expiresAt p) times ->
  Timestamp.pendingTimestampRequests (Timestamp.sweeps times st) !! id
  = Some p.
Proof.
  unfold Timestamp.sweeps. revert st.
  induction times as [|t ts IH]; intros st H Hall; [done|].
  apply Forall_cons in Hall as [Ht Hall]. simpl. apply IH; [|done].
  rewrite sweep_pending_lookup, H. case_decide; [lia|done].
Qed.

(** C4. A request stored at [t0] (both clock readings of the store
    falling in the same second), for an id with no completed result, has
    a TTL of 600 s: polled at [t0 + 599 s] it is pending and stays stored;
    polled at [t0 + 601 s] it is expired and no longer stored, whether or
    not the timer has swept in between. An id with neither a pending nor
    a completed entry is expired at any time. *)
Theorem getTimestampResult_ttl (st : Timestamp.Registry)
    (id user : string) (data : Vdxf.TimestampData) (t0 now2 : Z) :
  Timestamp.completedTimestamps st !! id = None ->
  t0 <= now2 < t0 + 1000 ->
  let st0 := Timestamp.createTimestampRequest_store id user data t0 now2 st in
  (exists p, Timestamp.pendingTimestampRequests st0 !! id = Some p
     /\ Timestamp.Pending.createdAt p = t0
     /\ Timestamp.Pending.expiresAt p = now2 + 600 * 1000)
  /\ (forall times,
        let r := Timestamp.getTimestampResult id (t0 + 601 * 1000)
                   (Timestamp.sweeps times st0) in
        fst r = {| Timestamp.status := Timestamp.expired;
                   Timestamp.txid := None |}
        /\ Timestamp.pendingTimestampRequests (snd r) !! id = None
        /\ Timestamp.completedTimestamps (snd r) !! id = None)
  /\ (forall times, Forall (fun t => t <= t0 + 599 * 1000) times ->
        let st1 := Timestamp.sweeps times st0 in
        Timestamp.getTimestampResult id (t0 + 599 * 1000) st1
        = ({| Timestamp.status := Timestamp.pending;
              Timestamp.txid := None |}, st1)
        /\ is_Some (Timestamp.pendingTimestampRequests st1 !! id))
  /\ (forall st' id' now,
        Timestamp.pendingTimestampRequests st' !! id' = None ->
        Timestamp.completedTimestamps st' !! id' = None ->
        Timestamp.getTimestampResult id' now st'
        = ({| Timestamp.status := Timestamp.expired;
              Timestamp.txid := None |}, st')).
Proof.
  intros Hc Ht st0.
  set (p := {| Timestamp.Pending.requestId := id;
               Timestamp.Pending.userIdentity := user;
               Timestamp.Pending.timestampData := data;
               Timestamp.Pending.createdAt := t0;
               Timestamp.Pending.expiresAt := now2 + 10 * 60 * 1000 |}).
  assert (Hp : Timestamp.pendingTimestampRequests st0 !! id = Some p).
  { unfold st0, Timestamp.createTimestampRequest_store. simpl.
    apply lookup_insert_eq. }
  assert (Hc0 : Timestamp.completedTimestamps st0 !! id = None) by done.
  split; [|split; [|split]].
  - exists p. split; [done|]. split; [done|]. simpl. lia.
  - intros times r. unfold r, Timestamp.getTimestampResult.
    rewrite (sweeps_completed_None times st0 id Hc0).
    destruct (sweeps_pending_cases times st0 id p Hp) as [H|H]; rewrite H.
    + case_decide as Hgt; [|simpl in Hgt; lia].
      simpl. split; [done|]. split; [apply lookup_delete_eq|].
      by apply sweeps_completed_None.
    + simpl. split; [done|]. split; [done|].
      by apply sweeps_completed_None.
  - intros times Hall st1. subst st1.
    assert (Hk : Timestamp.pendingTimestampRequests
                   (Timestamp.sweeps times st0) !! id = Some p).
    { apply sweeps_pending_kept; [done|].
      eapply Forall_impl; [exact Hall|]. intros t Hle. simpl in *. lia. }
    split; [|by rewrite Hk].
    unfold Timestamp.getTimestampResult.
    rewrite (sweeps_completed_None times st0 id Hc0), Hk.
    case_decide as Hgt; [simpl in Hgt; lia|done].
  - intros st' id' now Hp' Hc'. unfold Timestamp.getTimestampResult.
    by rewrite Hc', Hp'.
Qed.

(** C10. [storeTimestampResult] is total and answers [true] in every
    registry, whether or not the id is pending or was ever issued: the
    pending entry, if any, is gone, a completed entry with the given
    transaction id is stored, a poll at any later time reports it, and a
    second store under the same id replaces it in the same way. *)
Theorem storeTimestampResult_total (st : Timestamp.Registry)
    (id txid : string) (now1 now2 : Z) :
  let r := Timestamp.storeTimestampResult id txid now1 now2 st in
  fst r = true
  /\ Timestamp.completedTimestamps (snd r) !! id
     = Some {| Timestamp.Completed.txid := txid;
               Timestamp.Completed.completedAt := now1;
               Timestamp.Completed.expiresAt := now2 + 5 * 60 * 1000 |}
  /\ Timestamp.pendingTimestampRequests (snd r) !! id = None
  /\ (forall now,
        Timestamp.getTimestampResult id now (snd r)
        = ({| Timestamp.status := Timestamp.completed;
              Timestamp.txid := Some txid |}, snd r))
  /\ (forall txid' m1 m2,
        let r' := Timestamp.storeTimestampResult id txid' m1 m2 (snd r) in
        fst r' = true
        /\ Timestamp.completedTimestamps (snd r') !! id
           = Some {| Timestamp.Completed.txid := txid';
                     Timestamp.Completed.completedAt := m1;
                     Timestamp.Completed.expiresAt := m2 + 5 * 60 * 1000 |}
        /\ forall now,
             Timestamp.getTimestampResult id now (snd r')
             = ({| Timestamp.status := Timestamp.completed;
                   Timestamp.txid := Some txid' |}, snd r')).
Proof.
  assert (Hpoll : forall st' x n1 n2 now,
    Timestamp.getTimestampResult id now
      (snd (Timestamp.storeTimestampResult id x n1 n2 st'))
    = ({| Timestamp.status := Timestamp.completed;
          Timestamp.txid := Some x |},
       snd (Timestamp.storeTimestampResult id x n1 n2 st'))).
  { intros st' x n1 n2 now. unfold Timestamp.getTimestampResult. simpl.
    by rewrite lookup_insert_eq. }
  intros r. split; [done|]. split; [apply lookup_insert_eq|].
  split; [apply lookup_delete_eq|]. split; [intros now; apply Hpoll|].
  intros txid' m1 m2 r'. split; [done|].
  split; [apply lookup_insert_eq|]. intros now. apply Hpoll.
Qed.

(* ===================================================================== *)
(** * Completed results in the two registries *)
(* ===================================================================== *)

Lemma run_keeps_completed (op : Timestamp.Op) (st : Timestamp.Registry)
    (id : string) (c : Timestamp.Completed.t) :
  Timestamp.completedTimestamps st !! id = Some c ->
  (forall now, op = Timestamp.OpSweep now ->
     now <= Timestamp.Completed.expiresAt c) ->
  is_Some (Timestamp.completedTimestamps (Timestamp.run op st) !! id).
Proof.
  intros Hc Hop.
  destruct op as [now|r u d n1 n2|r now|r x n1 n2]; unfold Timestamp.run.
  - rewrite sweep_completed_lookup, Hc.
    specialize (Hop now eq_refl). case_decide; [lia|done].
  - simpl. by rewrite Hc.
  - unfold Timestamp.getTimestampResult.
    destruct (Timestamp.completedTimestamps st !! r);
      [simpl; by rewrite Hc|].
    destruct (Timestamp.pendingTimestampRequests st !! r);
      [case_decide|]; simpl; by rewrite Hc.
  - simpl. destruct (decide (r = id)) as [->|Hne].
    + by rewrite lookup_insert_eq.
    + by rewrite lookup_insert_ne, Hc.
Qed.

Lemma auth_sweep_completed_lookup (now : Z) (st : Auth.Registry)
    (id : string) :
  Auth.completedAuths (Auth.sweep now st) !! id
  = match Auth.completedAuths st !! id with
    | Some a =>
        if decide (now > Auth.Completed.expiresAt a) then None else Some a
    | None => None
    end.
Proof.
  unfold Auth.sweep. simpl.
  destruct (Auth.completedAuths st !! id) as [a|] eqn:E.
  - case_decide.
    + apply map_lookup_filter_None. right. intros a' Ha'. simpl.
      rewrite E in Ha'. injection Ha' as <-. tauto.
    + apply map_lookup_filter_Some. done.
  - apply map_lookup_filter_None. by left.
Qed.

(** C8 (amended). In the timestamp-creation registry a stored completed
    result is reported by every poll and no poll removes it; of all the
    operations only a sweep after its own TTL deletes it. In the login
    registry the sweep behaves the same and a read with [consume = false]
    leaves the entry in place, but a read with [consume = true], which is
    the default the status route relies on, hands the result out once and
    deletes the entry. *)
Theorem completed_result_lifetime
    (tst : Timestamp.Registry) (tid : string) (c : Timestamp.Completed.t)
    (ast : Auth.Registry) (aid : string) (a : Auth.Completed.t) :
  Timestamp.completedTimestamps tst !! tid = Some c ->
  Auth.completedAuths ast !! aid = Some a ->
  ((forall now,
      Timestamp.getTimestampResult tid now tst
      = ({| Timestamp.status := Timestamp.completed;
            Timestamp.txid := Some (Timestamp.Completed.txid c) |}, tst))
   /\ (forall now1 now2,
         Timestamp.getTimestampResult tid now2
           (snd (Timestamp.getTimestampResult tid now1 tst))
         = ({| Timestamp.status := Timestamp.completed;
               Timestamp.txid := Some (Timestamp.Completed.txid c) |}, tst))
   /\ (forall op,
         (forall now, op = Timestamp.OpSweep now ->
            now <= Timestamp.Completed.expiresAt c) ->
         is_Some (Timestamp.completedTimestamps (Timestamp.run op tst)
                    !! tid))
   /\ (forall now, now > Timestamp.Completed.expiresAt c ->
         Timestamp.completedTimestamps (Timestamp.sweep now tst) !! tid
         = None))
  /\ (let answer := {| Auth.identity := Auth.Completed.identity a;
                       Auth.friendlyName := Auth.Completed.friendlyName a |} in
      Auth.getAuthResult aid false ast = (Some answer, ast)
      /\ fst (Auth.getAuthResult aid true ast) = Some answer
      /\ Auth.completedAuths (snd (Auth.getAuthResult aid true ast)) !! aid
         = None
      /\ (forall now, now <= Auth.Completed.expiresAt a ->
            Auth.completedAuths (Auth.sweep now ast) !! aid = Some a)
      /\ (forall now, now > Auth.Completed.expiresAt a ->
            Auth.completedAuths (Auth.sweep now ast) !! aid = None)).
Proof.
  intros Hc Ha.
  assert (Hpoll : forall now,
    Timestamp.getTimestampResult tid now tst
    = ({| Timestamp.status := Timestamp.completed;
          Timestamp.txid := Some (Timestamp.Completed.txid c) |}, tst)).
  { intros now. unfold Timestamp.getTimestampResult. by rewrite Hc. }
  split.
  - split; [done|]. split; [|split].
    + intros now1 now2. by rewrite (Hpoll now1).
    + intros op Hop. by eapply run_keeps_completed.
    + intros now Hnow. rewrite sweep_completed_lookup, Hc. by case_decide.
  - intros answer. unfold Auth.getAuthResult. rewrite Ha.
    split; [done|]. split; [done|]. split; [apply lookup_delete_eq|].
    split; intros now Hnow; rewrite auth_sweep_completed_lookup, Ha;
      case_decide; done || lia.
Qed.

(* ===================================================================== *)
(** * Concrete runs on the test network *)
(* ===================================================================== *)

(** C1, as first stated, fails: both a live [sha256] entry and a live
    [title] entry are in the filtered set, yet nothing is decoded, because
    the [sha256] entry carries a number instead of a message. *)
Lemma parseTimestampData_None_with_both_entries :
  ~ (Vdxf.parseTimestampData Examples.K0
       [Examples.numericSha; Examples.liveTitle] = None
     <-> (Spec.hasLiveEntry Examples.K0 (Config.sha256 Examples.L0)
            [Examples.numericSha; Examples.liveTitle] = false
          \/ Spec.hasLiveEntry Examples.K0 (Config.title Examples.L0)
               [Examples.numericSha; Examples.liveTitle] = false)).
Proof.
  intros [H _].
  assert (Hnone : Vdxf.parseTimestampData Examples.K0
            [Examples.numericSha; Examples.liveTitle] = None)
    by (vm_compute; reflexivity).
  destruct (H Hnone) as [E|E]; vm_compute in E; discriminate.
Qed.

Lemma parseTimestampData_None_iff_witness :
  Spec.keys_wf Examples.K0
  /\ Vdxf.parseTimestampData Examples.K0
       [Examples.numericSha; Examples.liveTitle] = None
  /\ exists d, Vdxf.parseTimestampData Examples.K0
                 [Examples.liveSha; Examples.liveTitle] = Some d
               /\ Vdxf.sha256 d = Examples.hashLower
               /\ Vdxf.title d = "doc1".
Proof.
  split; [exact testnet_keys_wf|]. split.
  - pose proof (parseTimestampData_None_iff Examples.K0
                  [Examples.numericSha; Examples.liveTitle] testnet_keys_wf)
      as H.
    cbv zeta in H. destruct H as (H1 & _ & _). apply H1.
    left. vm_compute. reflexivity.
  - pose proof (parseTimestampData_None_iff Examples.K0
                  [Examples.liveSha; Examples.liveTitle] testnet_keys_wf)
      as H.
    cbv zeta in H. destruct H as (_ & _ & H3).
    apply H3;
      [vm_compute; reflexivity | vm_compute; reflexivity
      | discriminate | discriminate].
Defined.

(** C3, as first stated, fails: a tombstone under [sha256], by flag or by
    null payload, coming after a live [sha256] entry does not make the
    list undecodable; the earlier value is decoded. *)
Lemma parseTimestampData_later_tombstone_decodes :
  Spec.isTombstone Examples.K0 Examples.flaggedSha = true
  /\ Spec.isTombstone Examples.K0 Examples.nullSha = true
  /\ (Examples.flaggedSha !! Config.dataDescriptor Examples.K0)
       ≫= Verus.label = Some (Config.sha256 Examples.L0)
  /\ (Examples.nullSha !! Config.dataDescriptor Examples.K0)
       ≫= Verus.label = Some (Config.sha256 Examples.L0)
  /\ Vdxf.parseTimestampData Examples.K0
       [Examples.liveSha; Examples.liveTitle; Examples.flaggedSha]
     = Some Examples.doc1
  /\ Vdxf.parseTimestampData Examples.K0
       [Examples.liveSha; Examples.liveTitle; Examples.nullSha]
     = Some Examples.doc1
  /\ Vdxf.parseTimestampData Examples.K0
       [Examples.liveSha; Examples.liveTitle; Examples.nullSha] <> None.
Proof. repeat split; try (vm_compute; reflexivity). discriminate. Qed.

Lemma parseTimestampData_ignores_tombstones_witness :
  Vdxf.parseTimestampData Examples.K0
    [Examples.liveSha; Examples.liveTitle; Examples.flaggedSha]
  = Vdxf.parseTimestampData Examples.K0
      [Examples.liveSha; Examples.liveTitle]
  /\ Vdxf.parseTimestampData Examples.K0
       [Examples.flaggedSha; Examples.liveTitle; Examples.nullSha] = None.
Proof.
  split.
  - apply (parseTimestampData_ignores_tombstones Examples.K0
             [Examples.liveSha; Examples.liveTitle; Examples.flaggedSha])
      with (l1 := [Examples.liveSha; Examples.liveTitle])
           (e := Examples.flaggedSha) (l2 := []);
      vm_compute; reflexivity.
  - apply (parseTimestampData_ignores_tombstones Examples.K0
             [Examples.flaggedSha; Examples.liveTitle; Examples.nullSha]).
    intros w d Hw.
    apply elem_of_cons in Hw as [->|Hw];
      [|apply elem_of_cons in Hw as [->|Hw];
        [|apply list_elem_of_singleton in Hw as ->]];
      vm_compute; intros [= <-]; (reflexivity || discriminate).
Defined.

(** C9, as first stated, fails where a field label is empty, as the
    labels of the main network still are: the loop skips an entry under
    an empty label, so the last non-tombstoned entry bearing the [sha256]
    label holds a message that the decoded field does not take. *)
Lemma collectFields_skips_empty_label :
  let K := Config.VDXF_KEYS Config.mainnet in
  Spec.isTombstone K Examples.mainnetSha = false
  /\ Spec.lastBearing K (Config.sha256 (Config.labels K))
       [Examples.mainnetSha] ≫= Vdxf.extractStringValue
     = Some Examples.hashLower
  /\ Vdxf.p_sha256 (Vdxf.collectFields K [Examples.mainnetSha]) = None
  /\ Vdxf.p_sha256 (Vdxf.collectFields K [Examples.mainnetSha])
     <> Spec.lastBearing K (Config.sha256 (Config.labels K))
          [Examples.mainnetSha] ≫= Vdxf.extractStringValue.
Proof.
  cbv zeta. repeat split; try (vm_compute; reflexivity).
  vm_compute. discriminate.
Qed.

Lemma collectFields_last_write_wins_witness :
  Spec.keys_wf Examples.K0
  /\ Vdxf.parseTimestampData Examples.K0
       [Examples.liveSha; Examples.liveTitle; Examples.numericSha] = None
  /\ Vdxf.p_sha256 (Vdxf.collectFields Examples.K0
                      [Examples.numericSha; Examples.liveTitle;
                       Examples.upperSha])
     = Some Examples.hashUpper
  /\ Vdxf.p_title (Vdxf.collectFields Examples.K0
                     [Examples.numericSha; Examples.liveTitle;
                      Examples.upperSha])
     = Some "doc1".
Proof.
  split; [exact testnet_keys_wf|]. split; [|split].
  - destruct (collectFields_last_write_wins Examples.K0
                [Examples.liveSha; Examples.liveTitle; Examples.numericSha]
                testnet_keys_wf) as (_ & _ & H).
    destruct (H [Examples.liveSha; Examples.liveTitle] Examples.numericSha
                {| Verus.version := 1; Verus.flags := Some 0;
                   Verus.objectdata := Verus.ObjNumber 7;
                   Verus.label := Some (Config.sha256 Examples.L0);
                   Verus.mimetype := Some "text/plain" |} [])
      as [Hsha _]; [vm_compute; reflexivity..|].
    destruct Hsha as [_ Hnum]; [vm_compute; reflexivity..|].
    apply Hnum. intros m. discriminate.
  - destruct (collectFields_last_write_wins Examples.K0
                [Examples.numericSha; Examples.liveTitle; Examples.upperSha]
                testnet_keys_wf) as (_ & _ & H).
    destruct (H [Examples.numericSha; Examples.liveTitle] Examples.upperSha
                {| Verus.version := 1; Verus.flags := Some 0;
                   Verus.objectdata := Verus.ObjMessage Examples.hashUpper;
                   Verus.label := Some (Config.sha256 Examples.L0);
                   Verus.mimetype := Some "text/plain" |} [])
      as [Hsha _]; [vm_compute; reflexivity..|].
    destruct Hsha as [Hmsg _]; [vm_compute; reflexivity..|].
    by apply Hmsg.
  - destruct (collectFields_last_write_wins Examples.K0
                [Examples.numericSha; Examples.liveTitle; Examples.upperSha]
                testnet_keys_wf) as (_ & _ & H).
    destruct (H [Examples.numericSha] Examples.liveTitle
                {| Verus.version := 1; Verus.flags := Some 0;
                   Verus.objectdata := Verus.ObjMessage "doc1";
                   Verus.label := Some (Config.title Examples.L0);
                   Verus.mimetype := Some "text/plain" |} [Examples.upperSha])
      as [_ Httl]; [vm_compute; reflexivity..|].
    destruct Httl as [Hmsg _]; [vm_compute; reflexivity..|].
    by apply Hmsg.
Defined.



(** C2, as first stated, fails where the field labels are empty, as
    those of the main network still are: the record has both required
    fields set and is encoded, yet the decoder skips every entry and
    returns nothing. *)
Lemma parse_build_roundtrip_fails_on_mainnet :
  let K := Config.VDXF_KEYS Config.mainnet in
  Vdxf.sha256 Examples.upload <> ""
  /\ Vdxf.title Examples.upload <> ""
  /\ Vdxf.buildTimestampContentMap K Examples.upload !! Config.proofBasic K
     = Some (Vdxf.buildEntries K Examples.upload)
  /\ Vdxf.parseTimestampData K (Vdxf.buildEntries K Examples.upload) = None
  /\ Vdxf.parseTimestampData K (Vdxf.buildEntries K Examples.upload)
     <> Some Examples.upload.
Proof.
  cbv zeta. split; [discriminate|]. split; [discriminate|].
  split; [apply lookup_singleton_eq|].
  assert (H : Vdxf.parseTimestampData (Config.VDXF_KEYS Config.mainnet)
                (Vdxf.buildEntries (Config.VDXF_KEYS Config.mainnet)
                   Examples.upload) = None)
    by (vm_compute; reflexivity).
  split; [exact H|]. rewrite H. discriminate.
Qed.

Lemma parse_build_roundtrip_witness :
  Vdxf.buildTimestampContentMap Examples.K0 Examples.upload
    !! Config.proofBasic Examples.K0
  = Some (Vdxf.buildEntries Examples.K0 Examples.upload)
  /\ Vdxf.parseTimestampData Examples.K0
       (Vdxf.buildEntries Examples.K0 Examples.upload)
     = Some Examples.upload.
Proof.
  assert (Hs : Vdxf.sha256 Examples.upload <> "") by discriminate.
  assert (Ht : Vdxf.title Examples.upload <> "") by discriminate.
  assert (Hn : forall n, Vdxf.filesize Examples.upload = Some n ->
                 Js.isSafeInteger n).
  { intros n [= <-]. unfold Js.isSafeInteger, Js.MAX_SAFE_INTEGER. lia. }
  destruct (parse_build_roundtrip Examples.K0 Examples.upload
              testnet_keys_wf Hs Ht Hn) as (H1 & H2 & H3).
  split; [exact H1|]. rewrite H2, H3; [reflexivity|discriminate..].
Defined.

Lemma findTimestampByHash_first_match_witness :
  exists r,
    Vdxf.findTimestampByHash Examples.K0 [Examples.storedUpper]
      Examples.hashLower = Some r
    /\ Vdxf.sha256 (Vdxf.data r) = Examples.hashUpper
    /\ Vdxf.txid r = "txidA".
Proof.
  exists {| Vdxf.data :=
              {| Vdxf.sha256 := Examples.hashUpper; Vdxf.title := "doc1";
                 Vdxf.description := None; Vdxf.filename := None;
                 Vdxf.filesize := None |};
            Vdxf.blockhash := "000000blockhashA";
            Vdxf.blockheight := 10;
            Vdxf.blocktime := None;
            Vdxf.txid := "txidA" |}.
  split; [|split; reflexivity].
  apply (findTimestampByHash_first_match Examples.K0
           [Examples.storedUpper] Examples.hashLower)
    with (h1 := []) (e := Examples.storedUpper) (h2 := []).
  - reflexivity.
  - vm_compute. reflexivity.
  - apply toLowerCase_eq_iff. vm_compute. reflexivity.
  - intros e' r' He'. by apply elem_of_nil in He'.
Defined.

Lemma getTimestampResult_ttl_witness :
  Timestamp.getTimestampResult "iRequest1" (Examples.t0 + 599 * 1000)
    (Timestamp.sweeps [Examples.t0 + 60000; Examples.t0 + 120000]
       Examples.requested)
  = ({| Timestamp.status := Timestamp.pending; Timestamp.txid := None |},
     Timestamp.sweeps [Examples.t0 + 60000; Examples.t0 + 120000]
       Examples.requested)
  /\ fst (Timestamp.getTimestampResult "iRequest1"
            (Examples.t0 + 601 * 1000) Examples.requested)
     = {| Timestamp.status := Timestamp.expired; Timestamp.txid := None |}
  /\ Timestamp.pendingTimestampRequests
       (snd (Timestamp.getTimestampResult "iRequest1"
               (Examples.t0 + 601 * 1000) Examples.requested))
     !! "iRequest1" = None.
Proof.
  assert (Hc : Timestamp.completedTimestamps Timestamp.emptyRegistry
                 !! "iRequest1" = None) by reflexivity.
  assert (Ht : Examples.t0 <= Examples.t0 < Examples.t0 + 1000) by lia.
  destruct (getTimestampResult_ttl Timestamp.emptyRegistry "iRequest1"
              "iAlice" Examples.doc1 Examples.t0 Examples.t0 Hc Ht)
    as (_ & Hlate & Hearly & _).
  split.
  - apply (Hearly [Examples.t0 + 60000; Examples.t0 + 120000]).
    repeat constructor; unfold Examples.t0; lia.
  - destruct (Hlate []) as (H1 & H2 & _). split; [exact H1|exact H2].
Defined.

Lemma rpcCall_fallback_policy_witness :
  Verus.rpcCall Examples.primaryDown Examples.clock
    (Config.VERUS_RPC Config.testnet) "getblockcount" [] Examples.idle
  = (inr (Some 912345),
     {| Verus.world := tt;
        Verus.trace := ["https://api.verustest.net";
                        "https://rpc.vrsc.syncproof.net"] |})
  /\ Verus.rpcCall Examples.identityUnknown Examples.clock
       (Config.VERUS_RPC Config.testnet) "getidentity" ["nobody@"]
       Examples.idle
     = (inl (Verus.VerusRpcError (-5) "Identity not found"),
        {| Verus.world := tt;
           Verus.trace := ["https://api.verustest.net"] |}).
Proof.
  split.
  - assert (Hf : Examples.primaryDown
             (Config.endpoint (Config.VERUS_RPC Config.testnet))
             (Verus.buildRequest Examples.clock "getblockcount" []
                Examples.idle) (Verus.world Examples.idle)
           = (Verus.FetchRejected "TimeoutError" "The operation timed out",
              tt)) by reflexivity.
    destruct (rpcCall_fallback_policy Examples.primaryDown Examples.clock
                Config.testnet "getblockcount" [] Examples.idle _ _ Hf)
      as [Hdown _].
    destruct (Hdown I) as (_ & _ & Hok).
    apply Hok. vm_compute. reflexivity.
  - assert (Hf : Examples.identityUnknown
             (Config.endpoint (Config.VERUS_RPC Config.testnet))
             (Verus.buildRequest Examples.clock "getidentity" ["nobody@"]
                Examples.idle) (Verus.world Examples.idle)
           = (Verus.FetchResponse true 200 "OK"
                (Some {| Verus.result := None;
                         Verus.error :=
                           Some {| Verus.code := -5;
                                   Verus.error_message :=
                                     "Identity not found" |};
                         Verus.response_id :=
                           Verus.id (Verus.buildRequest Examples.clock
                                       "getidentity" ["nobody@"]
                                       Examples.idle) |}), tt))
      by reflexivity.
    destruct (rpcCall_fallback_policy Examples.identityUnknown
                Examples.clock Config.testnet "getidentity" ["nobody@"]
                Examples.idle _ _ Hf) as [_ Happ].
    destruct (Happ {| Verus.code := -5;
                      Verus.error_message := "Identity not found" |})
      as [Hout _]; [|exact Hout].
    eexists _, _, _. split; reflexivity.
Defined.

(** C8, as first stated, fails in the login registry: the status route
    reports a stored result once; that read deletes the entry, and the
    next poll, still within the TTL, finds nothing. *)
Lemma statusGET_consumes_completed_auth :
  let first := Auth.statusGET "iChallenge1" Examples.loggedIn in
  let second := Auth.statusGET "iChallenge1" (snd first) in
  is_Some (Auth.completedAuths Examples.loggedIn !! "iChallenge1")
  /\ Auth.status (fst first) = Auth.completed
  /\ Auth.completedAuths (snd first) !! "iChallenge1" = None
  /\ Auth.status (fst second) = Auth.expired
  /\ Auth.status (fst second) <> Auth.completed.
Proof.
  cbv zeta. split; [by eexists|].
  repeat split; try (vm_compute; reflexivity). discriminate.
Qed.

Lemma completed_result_lifetime_witness :
  fst (Timestamp.getTimestampResult "iRequest1" (Examples.t0 + 6000)
         (snd (Timestamp.getTimestampResult "iRequest1"
                 (Examples.t0 + 5500) Examples.stored)))
  = {| Timestamp.status := Timestamp.completed;
       Timestamp.txid := Some "deadbeef" |}
  /\ Auth.getAuthResult "iChallenge1" false Examples.loggedIn
     = (Some {| Auth.identity := "iAlice"; Auth.friendlyName := "alice@" |},
        Examples.loggedIn).
Proof.
  assert (Hc : Timestamp.completedTimestamps Examples.stored !! "iRequest1"
             = Some {| Timestamp.Completed.txid := "deadbeef";
                       Timestamp.Completed.completedAt := Examples.t0 + 5000;
                       Timestamp.Completed.expiresAt :=
                         Examples.t0 + 5000 + 5 * 60 * 1000 |})
    by reflexivity.
  assert (Ha : Auth.completedAuths Examples.loggedIn !! "iChallenge1"
             = Some {| Auth.Completed.identity := "iAlice";
                       Auth.Completed.friendlyName := "alice@";
                       Auth.Completed.completedAt := Examples.t0 + 4000;
                       Auth.Completed.expiresAt :=
                         Examples.t0 + 4000 + 5 * 60 * 1000 |})
    by reflexivity.
  destruct (completed_result_lifetime Examples.stored "iRequest1" _
              Examples.loggedIn "iChallenge1" _ Hc Ha)
    as [(_ & Htwice & _) (Hkeep & _)].
  split.
  - by rewrite (Htwice (Examples.t0 + 5500) (Examples.t0 + 6000)).
  - exact Hkeep.
Defined.

(** The scenario of a wallet callback: a request is created, the callback
    stores the transaction id, and the poll that follows reports it. *)
Example callback_then_poll :
  Timestamp.getTimestampResult "iRequest1" (Examples.t0 + 5001)
    Examples.stored
  = ({| Timestamp.status := Timestamp.completed;
        Timestamp.txid := Some "deadbeef" |}, Examples.stored)
  /\ Timestamp.pendingTimestampRequests Examples.stored !! "iRequest1"
     = None.
Proof. split; reflexivity. Qed.

(* ===================================================================== *)
(** * Two consequences for the deployment *)
(* ===================================================================== *)

(** With the unassigned mainnet keys every entry is skipped: nothing
    decodes, whatever the chain holds. *)
Lemma mainnet_decodes_nothing (entries : list Verus.DataDescriptorWrapper) :
  Vdxf.parseTimestampData (Config.VDXF_KEYS Config.mainnet) entries = None.
Proof.
  unfold Vdxf.parseTimestampData, Vdxf.collectFields.
  assert (H : forall acc,
    fold_left (Vdxf.parseEntry (Config.VDXF_KEYS Config.mainnet)) entries acc
    = acc).
  { induction entries as [|w l IH]; intros acc; [done|].
    simpl fold_left. rewrite <- (IH acc) at 2. f_equal.
    unfold Vdxf.parseEntry.
    destruct (w !! _) as [d|]; [|done].
    destruct (Vdxf.isDeleted d); [done|].
    destruct (Verus.label d) as [lab|]; [|done].
    destruct (Js.truthy lab) eqn:E; [|done].
    apply truthy_true_iff in E. simpl. by repeat case_decide. }
  by rewrite H.
Qed.

(** A history entry whose content map is the one the encoder built
    decodes to the record the wire carries, with the entry's block hash,
    height and transaction id. *)
Lemma parseHistoryEntry_build (K : Config.VdxfKeys)
    (d : Vdxf.TimestampData) (entry : Verus.IdentityHistoryEntry) :
  Spec.keys_wf K ->
  Vdxf.sha256 d <> "" -> Vdxf.title d <> "" ->
  Spec.safeSize d ->
  Verus.contentmultimap (Verus.identity entry)
  = Some (Vdxf.buildTimestampContentMap K d) ->
  Vdxf.parseHistoryEntry K entry
  = Some {| Vdxf.data := Spec.carried d;
            Vdxf.blockhash := Verus.blockhash entry;
            Vdxf.blockheight := Verus.height entry;
            Vdxf.blocktime := None;
            Vdxf.txid := Verus.txid (Verus.output entry) |}.
Proof.
  intros Hwf Hs Ht Hn Hm. unfold Vdxf.parseHistoryEntry. rewrite Hm.
  unfold Vdxf.buildTimestampContentMap. rewrite lookup_singleton_eq.
  assert (Hp : Vdxf.parseTimestampData K (Vdxf.buildEntries K d)
             = Some (Spec.carried d)).
  { unfold Vdxf.parseTimestampData.
    rewrite (collectFields_buildEntries K Hwf d Hn). by apply validate_Some. }
  rewrite Hp. by destruct (Vdxf.buildEntries K d) eqn:E.
Qed.

(* ===================================================================== *)
(** * The list of all timestamps *)
(* ===================================================================== *)

Lemma insertByHeight_Permutation (r : Vdxf.TimestampRecord)
    (l : list Vdxf.TimestampRecord) :
  Vdxf.insertByHeight r l ≡ₚ r :: l.
Proof.
  induction l as [|x l IH]; simpl; [done|].
  case_decide; [done|]. rewrite IH. apply Permutation_swap.
Qed.

Lemma sortByHeightDesc_Permutation (l : list Vdxf.TimestampRecord) :
  Vdxf.sortByHeightDesc l ≡ₚ l.
Proof.
  induction l as [|r l IH]; simpl; [done|].
  by rewrite insertByHeight_Permutation, IH.
Qed.

Lemma insertByHeight_sorted (r : Vdxf.TimestampRecord)
    (l : list Vdxf.TimestampRecord) :
  StronglySorted Spec.newerOrEqual l ->
  StronglySorted Spec.newerOrEqual (Vdxf.insertByHeight r l).
Proof.
  induction 1 as [|x l Hl IH Hx]; simpl.
  - repeat constructor.
  - case_decide as Hle.
    + constructor; [by constructor|]. constructor; [exact Hle|].
      eapply Forall_impl; [exact Hx|]. unfold Spec.newerOrEqual. intros y Hy.
      simpl in *. lia.
    + constructor; [exact IH|].
      rewrite insertByHeight_Permutation. constructor; [|exact Hx].
      unfold Spec.newerOrEqual. lia.
Qed.

Lemma sortByHeightDesc_sorted (l : list Vdxf.TimestampRecord) :
  StronglySorted Spec.newerOrEqual (Vdxf.sortByHeightDesc l).
Proof.
  induction l as [|r l IH]; simpl; [constructor|].
  by apply insertByHeight_sorted.
Qed.

Lemma insertByHeight_filter (h : Z) (r : Vdxf.TimestampRecord)
    (l : list Vdxf.TimestampRecord) :
  filter (fun x => Vdxf.blockheight x = h) (Vdxf.insertByHeight r l)
  = filter (fun x => Vdxf.blockheight x = h) (r :: l).
Proof.
  induction l as [|x l IH]; simpl; [done|].
  case_decide as Hle; [done|].
  rewrite filter_cons, IH, !filter_cons.
  repeat case_decide; try done; lia.
Qed.

Lemma sortByHeightDesc_filter (h : Z) (l : list Vdxf.TimestampRecord) :
  filter (fun x => Vdxf.blockheight x = h) (Vdxf.sortByHeightDesc l)
  = filter (fun x => Vdxf.blockheight x = h) l.
Proof.
  induction l as [|r l IH]; simpl; [done|].
  by rewrite insertByHeight_filter, !filter_cons, IH.
Qed.

Lemma length_omap_le {A B : Type} (f : A -> option B) (l : list A) :
  (length (omap f l) <= length l)%nat.
Proof.
  induction l as [|x l IH]; csimpl; [done|]. destruct (f x); csimpl; lia.
Qed.

Lemma sortByHeightDesc_id (l : list Vdxf.TimestampRecord) :
  StronglySorted Spec.newerOrEqual l -> Vdxf.sortByHeightDesc l = l.
Proof.
  induction 1 as [|x l Hl IH Hx]; simpl; [done|].
  rewrite IH. destruct l as [|y l]; simpl; [done|].
  apply Forall_cons in Hx as [Hy _]. unfold Spec.newerOrEqual in Hy.
  by case_decide.
Qed.

Section AllTimestamps.
Variable K : Config.VdxfKeys.

Lemma parseAllTimestamps_elem (history : list Verus.IdentityHistoryEntry)
    (r : Vdxf.TimestampRecord) :
  r ∈ Vdxf.parseAllTimestamps K history
  <-> exists e, e ∈ history /\ Vdxf.parseHistoryEntry K e = Some r.
Proof.
  unfold Vdxf.parseAllTimestamps.
  rewrite sortByHeightDesc_Permutation. apply list_elem_of_omap.
Qed.

(** X1. [parseAllTimestamps] lists the records newest first: every
    record has a block height at least that of every record after it. *)
Theorem parseAllTimestamps_sorted
    (history : list Verus.IdentityHistoryEntry) :
  StronglySorted Spec.newerOrEqual (Vdxf.parseAllTimestamps K history).
Proof. apply sortByHeightDesc_sorted. Qed.

(** X2. [parseAllTimestamps] holds exactly the records that the entries
    of the history decode to, each as often as it is decoded: the list is
    a rearrangement of them, so it is never longer than the history, and
    a record is listed exactly when some entry decodes to it. *)
Theorem parseAllTimestamps_complete
    (history : list Verus.IdentityHistoryEntry) :
  Vdxf.parseAllTimestamps K history
    ≡ₚ omap (Vdxf.parseHistoryEntry K) history
  /\ (length (Vdxf.parseAllTimestamps K history) <= length history)%nat
  /\ (forall r, r ∈ Vdxf.parseAllTimestamps K history
        <-> exists e, e ∈ history /\ Vdxf.parseHistoryEntry K e = Some r).
Proof.
  assert (Hp : Vdxf.parseAllTimestamps K history
                 ≡ₚ omap (Vdxf.parseHistoryEntry K) history)
    by apply sortByHeightDesc_Permutation.
  split; [exact Hp|]. split.
  - rewrite Hp. apply length_omap_le.
  - intros r. rewrite Hp. apply list_elem_of_omap.
Qed.

(** X3. The sort is stable: records of one and the same block height
    are listed in the order in which the history gives them. *)
Theorem parseAllTimestamps_stable
    (history : list Verus.IdentityHistoryEntry) (h : Z) :
  filter (fun r => Vdxf.blockheight r = h)
    (Vdxf.parseAllTimestamps K history)
  = filter (fun r => Vdxf.blockheight r = h)
      (omap (Vdxf.parseHistoryEntry K) history).
Proof. apply sortByHeightDesc_filter. Qed.

(** X4. The lookup and the list agree on what exists: a record that
    [findTimestampByHash] returns is one of the listed records, and the
    lookup finds nothing exactly when no listed record has the target
    hash up to case. *)
Theorem findTimestampByHash_in_all
    (history : list Verus.IdentityHistoryEntry) (target : string) :
  match Vdxf.findTimestampByHash K history target with
  | Some r =>
      r ∈ Vdxf.parseAllTimestamps K history
      /\ Spec.eqIgnoreCase (Vdxf.sha256 (Vdxf.data r)) target
  | None =>
      forall r, r ∈ Vdxf.parseAllTimestamps K history ->
        ~ Spec.eqIgnoreCase (Vdxf.sha256 (Vdxf.data r)) target
  end.
Proof.
  unfold Vdxf.findTimestampByHash.
  pose proof (findLoop_result K history (Js.toLowerCase target)) as H.
  destruct (Vdxf.findLoop K history (Js.toLowerCase target)) as [r|].
  - destruct H as (h1 & e & h2 & -> & He & Hr & _). split.
    + apply parseAllTimestamps_elem. exists e. split; [|done].
      apply elem_of_app. right. by left.
    + by apply toLowerCase_eq_iff.
  - intros r Hin Hc. apply parseAllTimestamps_elem in Hin as (e & He & Hp).
    apply toLowerCase_eq_iff in Hc. by eapply H.
Qed.

(** X5. When the history is given newest first, the list keeps the
    history's order and the lookup returns the first listed record with
    the target hash, that is, the newest one. *)
Theorem findTimestampByHash_newest
    (history : list Verus.IdentityHistoryEntry) (target : string) :
  StronglySorted Spec.newerOrEqual (omap (Vdxf.parseHistoryEntry K) history) ->
  Vdxf.parseAllTimestamps K history = omap (Vdxf.parseHistoryEntry K) history
  /\ Vdxf.findTimestampByHash K history target
     = head (filter
               (fun r => Js.toLowerCase (Vdxf.sha256 (Vdxf.data r))
                         = Js.toLowerCase target)
               (Vdxf.parseAllTimestamps K history)).
Proof.
  intros Hs. unfold Vdxf.parseAllTimestamps.
  rewrite (sortByHeightDesc_id _ Hs). split; [done|].
  unfold Vdxf.findTimestampByHash. clear Hs.
  induction history as [|e h IH]; simpl; [done|].
  destruct (Vdxf.parseHistoryEntry K e) as [r|]; [|done].
  rewrite filter_cons. case_decide; [done|]. exact IH.
Qed.

End AllTimestamps.

(* ===================================================================== *)
(** * More on the codec *)
(* ===================================================================== *)

Lemma isHexDigit_toLowerCaseChar (c : ascii) :
  Vdxf.isHexDigit (Js.toLowerCaseChar c) = Vdxf.isHexDigit c.
Proof.
  unfold Vdxf.isHexDigit. rewrite N_of_toLowerCaseChar.
  destruct (Js.isUpper c) eqn:E.
  - apply isUpper_range in E. apply Bool.eq_iff_eq_true.
    rewrite !orb_true_iff, !andb_true_iff, !N.leb_le. lia.
  - done.
Qed.

Lemma length_toLowerCase (s : string) :
  String.length (Js.toLowerCase s) = String.length s.
Proof. induction s as [|c s IH]; simpl; [done|]. by rewrite IH. Qed.

(** X6. The format check is blind to letter case: a string passes
    [isValidSha256] exactly when its lower-case form does, so the hash a
    route stores in lower case is as valid as the one it was given. *)
Theorem isValidSha256_toLowerCase (s : string) :
  Vdxf.isValidSha256 (Js.toLowerCase s) = Vdxf.isValidSha256 s.
Proof.
  unfold Vdxf.isValidSha256. rewrite length_toLowerCase. f_equal.
  induction s as [|c s IH]; simpl; [done|].
  by rewrite isHexDigit_toLowerCaseChar, IH.
Qed.

Section CodecMore.
Variable K : Config.VdxfKeys.

Lemma parseEntry_foreign (acc : Vdxf.PartialData)
    (w : Verus.DataDescriptorWrapper) :
  Spec.isFieldEntry K w = false -> Vdxf.parseEntry K acc w = acc.
Proof.
  unfold Spec.isFieldEntry, Vdxf.parseEntry.
  destruct (w !! Config.dataDescriptor K) as [d|]; [|done].
  destruct (Verus.label d) as [l|]; [|by destruct (Vdxf.isDeleted d)].
  intros H. apply bool_decide_eq_false in H.
  unfold Spec.labelList in H. rewrite !not_elem_of_cons in H.
  destruct H as (?&?&?&?&?&_).
  destruct (Vdxf.isDeleted d); [done|].
  destruct (negb (Js.truthy l)); [done|].
  by repeat case_decide.
Qed.

(** X7. Entries the decoder has no use for change nothing: a wrapper
    without the descriptor key, a descriptor without a label, and a
    descriptor under a label other than the five field labels can be
    removed from a list, or added to it anywhere, without changing what
    the list decodes to. *)
Theorem parseTimestampData_ignores_foreign_entries
    (entries : list Verus.DataDescriptorWrapper) :
  Vdxf.parseTimestampData K entries
  = Vdxf.parseTimestampData K
      (filter (fun w => Spec.isFieldEntry K w = true) entries).
Proof.
  unfold Vdxf.parseTimestampData, Vdxf.collectFields. f_equal.
  generalize Vdxf.emptyData as acc.
  induction entries as [|w l IH]; intros acc; [done|].
  rewrite filter_cons. simpl fold_left. case_decide as Hw.
  - simpl. apply IH.
  - apply not_true_is_false in Hw. rewrite parseEntry_foreign by done.
    apply IH.
Qed.

(** X8. What the encoder emits: the [sha256] entry, then the [title]
    entry, then at most three optional entries; every entry is a single
    descriptor of version 1 and MIME type text/plain whose payload is a
    string message under one of the five field labels. No entry is a
    tombstone and no payload is a bare number. *)
Theorem buildEntries_shape (d : Vdxf.TimestampData) :
  (2 <= length (Vdxf.buildEntries K d) <= 5)%nat
  /\ Vdxf.buildEntries K d !! 0%nat
     = Some (Vdxf.buildDataDescriptor K (Config.sha256 (Config.labels K))
               (inl (Vdxf.sha256 d)) "text/plain")
  /\ Vdxf.buildEntries K d !! 1%nat
     = Some (Vdxf.buildDataDescriptor K (Config.title (Config.labels K))
               (inl (Vdxf.title d)) "text/plain")
  /\ forall w, w ∈ Vdxf.buildEntries K d ->
       exists lbl msg,
         w = {[ Config.dataDescriptor K :=
                  {| Verus.version := 1; Verus.flags := None;
                     Verus.objectdata := Verus.ObjMessage msg;
                     Verus.label := Some lbl;
                     Verus.mimetype := Some "text/plain" |} ]}
         /\ lbl ∈ Spec.labelList (Config.labels K)
         /\ Spec.isTombstone K w = false.
Proof.
  assert (Hone : forall lbl v,
    lbl ∈ Spec.labelList (Config.labels K) ->
    exists lbl' msg,
      Vdxf.buildDataDescriptor K lbl v Vdxf.defaultMimetype
      = {[ Config.dataDescriptor K :=
             {| Verus.version := 1; Verus.flags := None;
                Verus.objectdata := Verus.ObjMessage msg;
                Verus.label := Some lbl';
                Verus.mimetype := Some "text/plain" |} ]}
      /\ lbl' ∈ Spec.labelList (Config.labels K)
      /\ Spec.isTombstone K
           (Vdxf.buildDataDescriptor K lbl v Vdxf.defaultMimetype) = false).
  { intros lbl v Hl. exists lbl.
    exists (match v with inl s => s | inr n => Js.Number_toString n end).
    split; [by destruct v|]. split; [done|].
    unfold Spec.isTombstone, Vdxf.buildDataDescriptor.
    rewrite lookup_singleton_eq. by destruct v. }
  unfold Vdxf.buildEntries, Spec.labelList in *.
  destruct (Vdxf.description d) as [ds|]; [destruct (Js.truthy ds)|];
    destruct (Vdxf.filename d) as [fs|]; try destruct (Js.truthy fs);
    destruct (Vdxf.filesize d) as [n|]; simpl;
    (split; [lia|]); (split; [done|]); (split; [done|]);
    intros w Hw; repeat (apply elem_of_cons in Hw as [->|Hw]);
    try (by apply elem_of_nil in Hw); apply Hone;
    repeat first [apply list_elem_of_here | apply list_elem_of_further].
Qed.

(** Encoding sees a record only through what the wire carries. *)
Lemma buildEntries_carried (d : Vdxf.TimestampData) :
  Vdxf.buildEntries K (Spec.carried d) = Vdxf.buildEntries K d.
Proof.
  unfold Vdxf.buildEntries, Spec.carried, Spec.carriedString. simpl.
  destruct (Vdxf.description d) as [ds|]; [destruct (Js.truthy ds) eqn:E1|];
    destruct (Vdxf.filename d) as [fs|];
    try destruct (Js.truthy fs) eqn:E2; simpl; rewrite ?E1, ?E2; done.
Qed.

Lemma fold_buildEntries (acc : Vdxf.PartialData) (d : Vdxf.TimestampData) :
  Spec.keys_wf K -> Spec.safeSize d ->
  fold_left (Vdxf.parseEntry K) (Vdxf.buildEntries K d) acc
  = {| Vdxf.p_sha256 := Some (Vdxf.sha256 d);
       Vdxf.p_title := Some (Vdxf.title d);
       Vdxf.p_description :=
         match Spec.carriedStringOf (Vdxf.description d) with
         | Some x => Some x
         | None => Vdxf.p_description acc
         end;
       Vdxf.p_filename :=
         match Spec.carriedStringOf (Vdxf.filename d) with
         | Some x => Some x
         | None => Vdxf.p_filename acc
         end;
       Vdxf.p_filesize :=
         match Vdxf.filesize d with
         | Some n => Some n
         | None => Vdxf.p_filesize acc
         end |}.
Proof.
  intros Hwf Hn. unfold Spec.safeSize in Hn.
  unfold Vdxf.buildEntries, Spec.carriedStringOf.
  rewrite !fold_left_app. simpl fold_left at 4.
  rewrite (parseEntry_build_sha256 K Hwf), (parseEntry_build_title K Hwf).
  simpl.
  destruct (Vdxf.description d) as [ds|]; [destruct (Js.truthy ds)|];
    destruct (Vdxf.filename d) as [fs|]; try destruct (Js.truthy fs);
    destruct (Vdxf.filesize d) as [n|]; simpl;
    rewrite ?(parseEntry_build_description K Hwf),
      ?(parseEntry_build_filename K Hwf),
      ?(parseEntry_build_filesize K Hwf) by (by apply Hn); done.
Qed.

(** X10. An update appended to older entries. On a network whose five
    field labels are non-empty and pairwise distinct, when a list ends
    with the entries of an encoded record whose [sha256] and [title] are
    non-empty and whose [filesize], if any, is a safe integer, the list
    decodes, whatever precedes; hash and title are those of the appended
    record, and an optional field the appended record does not carry
    keeps the value the older entries gave it. *)
Theorem parseTimestampData_after_update
    (older : list Verus.DataDescriptorWrapper) (d : Vdxf.TimestampData) :
  Spec.keys_wf K ->
  Vdxf.sha256 d <> "" -> Vdxf.title d <> "" ->
  Spec.safeSize d ->
  Vdxf.parseTimestampData K (older ++ Vdxf.buildEntries K d)
  = Some (Spec.overlay (Vdxf.collectFields K older) d).
Proof.
  intros Hwf Hs Ht Hn. unfold Vdxf.parseTimestampData, Vdxf.collectFields.
  rewrite fold_left_app, fold_buildEntries by done.
  by apply validate_Some.
Qed.

(** X9. Once through the wire, a record is stable. On a network whose
    five field labels are non-empty and pairwise distinct, and for a
    record with non-empty [sha256] and [title] whose [filesize], if any,
    is a safe integer, the record that decoding gives back has a safe
    [filesize] too, encodes to the very entries that were sent and
    decodes from them to itself. *)
Theorem build_parse_build (d : Vdxf.TimestampData) :
  Spec.keys_wf K ->
  Vdxf.sha256 d <> "" -> Vdxf.title d <> "" ->
  Spec.safeSize d ->
  exists d',
    Vdxf.parseTimestampData K (Vdxf.buildEntries K d) = Some d'
    /\ Spec.safeSize d'
    /\ Vdxf.buildEntries K d' = Vdxf.buildEntries K d
    /\ Vdxf.parseTimestampData K (Vdxf.buildEntries K d') = Some d'.
Proof.
  intros Hwf Hs Ht Hn.
  assert (Hp : Vdxf.parseTimestampData K (Vdxf.buildEntries K d)
             = Some (Spec.carried d)).
  { unfold Vdxf.parseTimestampData.
    rewrite (collectFields_buildEntries K Hwf d Hn). by apply validate_Some. }
  exists (Spec.carried d). split; [done|].
  split; [exact Hn|].
  split; [apply buildEntries_carried|].
  by rewrite buildEntries_carried.
Qed.

End CodecMore.

(* ===================================================================== *)
(** * Hashing in the browser *)
(* ===================================================================== *)

Lemma N_of_hexChar (d : N) :
  (d < 16)%N ->
  N_of_ascii (Hash.hexChar d) = (if (d <? 10)%N then 48 + d else 87 + d)%N.
Proof.
  intros H. unfold Hash.hexChar. apply N_ascii_embedding.
  destruct (d <? 10)%N eqn:E; [apply N.ltb_lt in E|]; lia.
Qed.

Lemma hexChar_inj (d d' : N) :
  (d < 16)%N -> (d' < 16)%N -> Hash.hexChar d = Hash.hexChar d' -> d = d'.
Proof.
  intros H H' E. apply (f_equal N_of_ascii) in E.
  rewrite !N_of_hexChar in E by done.
  destruct (d <? 10)%N eqn:E1, (d' <? 10)%N eqn:E2;
    try apply N.ltb_lt in E1; try apply N.ltb_lt in E2;
    try apply N.ltb_ge in E1; try apply N.ltb_ge in E2; lia.
Qed.

Lemma hexChar_lower_hex (d : N) :
  (d < 16)%N ->
  Vdxf.isHexDigit (Hash.hexChar d) = true
  /\ Js.toLowerCaseChar (Hash.hexChar d) = Hash.hexChar d.
Proof.
  intros H. split.
  - unfold Vdxf.isHexDigit. rewrite N_of_hexChar by done.
    rewrite !orb_true_iff, !andb_true_iff, !N.leb_le.
    destruct (d <? 10)%N eqn:E;
      [apply N.ltb_lt in E|apply N.ltb_ge in E]; lia.
  - unfold Js.toLowerCaseChar.
    destruct (Js.isUpper (Hash.hexChar d)) eqn:E; [|done].
    apply isUpper_range in E. rewrite N_of_hexChar in E by done.
    destruct (d <? 10)%N eqn:E1;
      [apply N.ltb_lt in E1|apply N.ltb_ge in E1]; lia.
Qed.

Lemma to_N_lt_256 (b : Byte.byte) : (Byte.to_N b < 256)%N.
Proof. by destruct b. Qed.

(** [byte.toString(16).padStart(2, '0')]: the two hex digits. *)
Lemma padStart_toString16 (b : Byte.byte) :
  Hash.padStart 2 "0" (Hash.toString16 b)
  = String (Hash.hexChar (Byte.to_N b / 16))
      (String (Hash.hexChar (Byte.to_N b mod 16)) EmptyString).
Proof. by destruct b. Qed.

Lemma bufferToHex_cons (b : Byte.byte) (buf : list Byte.byte) :
  Hash.bufferToHex (b :: buf)
  = String (Hash.hexChar (Byte.to_N b / 16))
      (String (Hash.hexChar (Byte.to_N b mod 16)) (Hash.bufferToHex buf)).
Proof.
  unfold Hash.bufferToHex. simpl map. simpl Hash.join.
  by rewrite padStart_toString16.
Qed.

Lemma byte_digits_lt (b : Byte.byte) :
  (Byte.to_N b / 16 < 16)%N /\ (Byte.to_N b mod 16 < 16)%N.
Proof.
  pose proof (to_N_lt_256 b). split.
  - apply N.Div0.div_lt_upper_bound. lia.
  - by apply N.mod_lt.
Qed.

(** X11. [bufferToHex] writes two lower-case hex digits per byte: the
    string is twice as long as the buffer, holds hex digits only and has
    no upper-case letter; for a digest of 32 bytes it passes
    [isValidSha256]. *)
Theorem bufferToHex_format (buffer : list Byte.byte) :
  String.length (Hash.bufferToHex buffer) = (2 * length buffer)%nat
  /\ Vdxf.allHex (Hash.bufferToHex buffer) = true
  /\ Js.toLowerCase (Hash.bufferToHex buffer) = Hash.bufferToHex buffer
  /\ (length buffer = 32%nat ->
      Vdxf.isValidSha256 (Hash.bufferToHex buffer) = true).
Proof.
  assert (H : String.length (Hash.bufferToHex buffer)
              = (2 * length buffer)%nat
              /\ Vdxf.allHex (Hash.bufferToHex buffer) = true
              /\ Js.toLowerCase (Hash.bufferToHex buffer)
                 = Hash.bufferToHex buffer).
  { induction buffer as [|b buf (IH1 & IH2 & IH3)]; [done|].
    rewrite bufferToHex_cons.
    destruct (byte_digits_lt b) as [Hh Hl].
    destruct (hexChar_lower_hex _ Hh) as [Hh1 Hh2].
    destruct (hexChar_lower_hex _ Hl) as [Hl1 Hl2].
    split; [|split].
    - simpl. rewrite IH1. lia.
    - simpl. by rewrite Hh1, Hl1, IH2.
    - simpl. by rewrite Hh2, Hl2, IH3. }
  destruct H as (H1 & H2 & H3). repeat split; try done.
  intros Hlen. unfold Vdxf.isValidSha256. rewrite H1, H2, Hlen. done.
Qed.

(** X12. [bufferToHex] loses nothing: two buffers with the same hex
    string are the same buffer. *)
Theorem bufferToHex_inj (b1 b2 : list Byte.byte) :
  Hash.bufferToHex b1 = Hash.bufferToHex b2 -> b1 = b2.
Proof.
  revert b2. induction b1 as [|x b1 IH]; intros [|y b2] H.
  - done.
  - rewrite bufferToHex_cons in H. discriminate.
  - rewrite bufferToHex_cons in H. discriminate.
  - rewrite !bufferToHex_cons in H. injection H as Hh Hl Hrest.
    destruct (byte_digits_lt x) as [Hx1 Hx2].
    destruct (byte_digits_lt y) as [Hy1 Hy2].
    apply hexChar_inj in Hh; [|done..]. apply hexChar_inj in Hl; [|done..].
    f_equal; [|by apply IH].
    assert (E : Byte.to_N x = Byte.to_N y).
    { rewrite (N.div_mod (Byte.to_N x) 16), (N.div_mod (Byte.to_N y) 16)
        by done. by rewrite Hh, Hl. }
    assert (Ex : Byte.of_N (Byte.to_N x) = Byte.of_N (Byte.to_N y))
      by (by rewrite E).
    rewrite !Byte.of_to_N in Ex. by injection Ex.
Qed.

Section Chunks.
Variable file : list Byte.byte.
Variable chunkSize : nat.
Hypothesis chunkSize_pos : (0 < chunkSize)%nat.

Lemma readChunks_concat (fuel offset : nat) (chunks : list (list Byte.byte)) :
  (length file - offset < fuel)%nat ->
  concat (Hash.readChunks fuel file chunkSize offset chunks)
  = concat chunks ++ drop offset file.
Proof.
  revert offset chunks.
  induction fuel as [|fuel IH]; intros offset chunks Hf; [lia|].
  simpl. case_decide as Hlt.
  - rewrite IH by lia.
    rewrite concat_app. simpl. rewrite app_nil_r, <- app_assoc. f_equal.
    rewrite <- drop_drop. apply take_drop.
  - rewrite drop_ge by lia. by rewrite app_nil_r.
Qed.

End Chunks.

Lemma totalLength_concat (chunks : list (list Byte.byte)) (acc : nat) :
  fold_left (fun sum chunk => (sum + length chunk)%nat) chunks acc
  = (acc + length (concat chunks))%nat.
Proof.
  revert acc. induction chunks as [|c cs IH]; intros acc; simpl; [lia|].
  rewrite IH, length_app. lia.
Qed.

Lemma fillChunks_concat (chunks : list (list Byte.byte))
    (done blank : list Byte.byte) :
  length blank = length (concat chunks) ->
  Hash.fillChunks chunks (done ++ blank) (length done)
  = done ++ concat chunks.
Proof.
  revert done blank.
  induction chunks as [|c cs IH]; intros done blank Hlen; simpl in *.
  - destruct blank; [done|discriminate].
  - rewrite length_app in Hlen.
    assert (Hset : Hash.setAt (done ++ blank) c (length done)
                   = (done ++ c) ++ drop (length c) blank).
    { unfold Hash.setAt. rewrite take_app_length, <- app_assoc. f_equal.
      f_equal. rewrite drop_app_ge by lia. f_equal. lia. }
    rewrite Hset. replace (length done + length c)%nat
      with (length (done ++ c)) by (rewrite length_app; lia).
    rewrite IH; [by rewrite <- app_assoc|].
    rewrite length_drop. lia.
Qed.

Lemma hashFileWith_whole (digest : list Byte.byte -> list Byte.byte)
    (threshold : N) (chunkSize : nat) (file : list Byte.byte) :
  (0 < chunkSize)%nat ->
  Hash.hashFileWith digest threshold chunkSize file
  = Hash.hashBuffer digest file.
Proof.
  intros Hc. unfold Hash.hashFileWith, Hash.hashBuffer.
  destruct (_ <? _)%N; [done|].
  set (chunks := Hash.readChunks (S (length file)) file chunkSize 0 []).
  assert (Hcat : concat chunks = file).
  { unfold chunks. rewrite (readChunks_concat file chunkSize Hc) by lia.
    done. }
  rewrite totalLength_concat. simpl.
  pose proof (fillChunks_concat chunks []
                (replicate (length (concat chunks)) Byte.x00)) as Hfill.
  simpl in Hfill. rewrite Hfill by apply length_replicate.
  by rewrite Hcat.
Qed.

(** X13. Reading a large file in chunks changes nothing: for a file of
    any size, [hashFile] without a progress callback hashes exactly the
    bytes of the file, as [hashBuffer] does on the whole content. The
    chunks are cut without gap or overlap and the loop ends. *)
Theorem hashFile_whole (digest : list Byte.byte -> list Byte.byte)
    (file : list Byte.byte) :
  Hash.hashFile digest file = Hash.hashBuffer digest file.
Proof. unfold Hash.hashFile. apply hashFileWith_whole. lia. Qed.

(* ===================================================================== *)
(** * More on the gateway *)
(* ===================================================================== *)

Section GatewayMore.
Context {World Param T : Type}.
Variable fetch :
  string -> Verus.RpcRequest Param -> World -> Verus.FetchResult T * World.
Variable Date_now : World -> Z.

(** X14. Whatever the configuration and the answers, [rpcCall] fetches
    the primary endpoint first and at most one more endpoint, the
    fallback; an answer of the primary that carries a result is returned
    as it is, and without a configured fallback the outcome of the
    primary is the outcome of the call. *)
Theorem rpcCall_attempts (cfg : Config.RpcConfig) (method : string)
    (params : list Param) (s : Verus.Net) :
  let first := Verus.rpcCallToEndpoint fetch Date_now
                 (Config.endpoint cfg) method params s in
  let out := Verus.rpcCall fetch Date_now cfg method params s in
  (exists rest,
     Verus.trace (snd out) = Verus.trace s ++ Config.endpoint cfg :: rest
     /\ (rest = [] \/ rest = [Config.fallbackEndpoint cfg]))
  /\ (forall v, fst first = inr v -> out = first)
  /\ (Config.fallbackEndpoint cfg = "" -> out = first).
Proof.
  intros first out.
  pose proof (rpcCallToEndpoint_trace fetch Date_now (Config.endpoint cfg)
                method params s) as Ht.
  fold first in Ht. unfold out, Verus.rpcCall. fold first.
  destruct first as [[err|v] s1] eqn:E; simpl in Ht.
  - destruct err as [code message|name message].
    + split; [exists []; split; [done|by left]|]. by split.
    + destruct (Js.truthy (Config.fallbackEndpoint cfg)) eqn:Hfb.
      * split; [|split].
        -- exists [Config.fallbackEndpoint cfg]. split; [|by right].
           rewrite rpcCallToEndpoint_trace, Ht. by rewrite <- app_assoc.
        -- intros v [=].
        -- intros Hempty. apply truthy_true_iff in Hfb. done.
      * split; [exists []; split; [done|by left]|]. by split.
  - split; [exists []; split; [done|by left]|]. by split.
Qed.

End GatewayMore.

Section MethodsMore.
Context {World T : Type}.
Variable fetch :
  string -> Verus.RpcRequest Verus.JsParam -> World
  -> Verus.FetchResult T * World.
Variable Date_now : World -> Z.

(** X15. [checkConnection] never throws. It answers [true] exactly when
    the block count was obtained: from the primary endpoint, or, after a
    failure of the primary that is not a [VerusRpcError], from the
    configured fallback. A structured error of the primary counts as not
    connected. *)
Theorem checkConnection_true_iff (cfg : Config.RpcConfig) (s : Verus.Net) :
  let first := Verus.rpcCallToEndpoint fetch Date_now
                 (Config.endpoint cfg) "getblockcount" [] s in
  fst (Verus.checkConnection fetch Date_now cfg s) = true
  <-> (exists v, fst first = inr v)
      \/ (exists name message v,
            fst first = inl (Verus.OtherError name message)
            /\ Config.fallbackEndpoint cfg <> ""
            /\ fst (Verus.rpcCallToEndpoint fetch Date_now
                      (Config.fallbackEndpoint cfg) "getblockcount" []
                      (snd first)) = inr v).
Proof.
  intros first.
  unfold Verus.checkConnection, Verus.getBlockCount, Verus.rpcCall.
  fold first. destruct first as [[err|v] s1]; simpl.
  - destruct err as [code message|name message]; simpl.
    + split; [done|]. intros [[v [=]]|(n & m & v & [=] & _)].
    + destruct (Js.truthy (Config.fallbackEndpoint cfg)) eqn:Hfb; simpl.
      * apply truthy_true_iff in Hfb.
        destruct (Verus.rpcCallToEndpoint _ _ _ _ _ s1) as [[e2|v2] s2];
          simpl.
        -- split; [done|]. intros [[v [=]]|(n & m & v & _ & _ & [=])].
        -- split; [|done]. intros _. right. by exists name, message, v2.
      * apply truthy_false_iff in Hfb.
        split; [done|]. intros [[v [=]]|(n & m & v & _ & Hne & _)]. done.
  - split; [|done]. intros _. left. by exists v.
Qed.

End MethodsMore.

(* ===================================================================== *)
(** * The verify and check routes *)
(* ===================================================================== *)

Section RoutesFacts.
Context {World T : Type}.
Variable fetch :
  string -> Verus.RpcRequest Verus.JsParam -> World
  -> Verus.FetchResult T * World.
Variable Date_now : World -> Z.
Variable net : Config.Network.
Variable asHistory : T -> Verus.IdentityHistoryResponse.
Variable asBlock : T -> Verus.BlockData.

Local Abbreviation verify :=
  (Routes.verifyGET fetch Date_now net asHistory asBlock).
Local Abbreviation check :=
  (Routes.checkGET fetch Date_now net asHistory).

Lemma verifyCatch_not_400 (identity : string) (err : Verus.Thrown)
    (message : string) :
  Routes.verifyCatch identity err <> Routes.HttpError 400 message.
Proof.
  unfold Routes.verifyCatch. destruct err; [case_decide|]; discriminate.
Qed.

(** X16. The verify route answers 400 exactly when a parameter is
    missing or empty or the hash is not 64 hex digits, and then it has
    made no RPC call: the network is as it was. *)
Theorem verifyGET_400_iff (identity sha256 : option string)
    (s : Verus.Net) :
  let bad :=
    identity = None \/ identity = Some "" \/ sha256 = None
    \/ sha256 = Some ""
    \/ (exists h, sha256 = Some h /\ Vdxf.isValidSha256 h = false) in
  ((exists message s', verify identity sha256 s
                       = (Routes.HttpError 400 message, s')) <-> bad)
  /\ (bad -> snd (verify identity sha256 s) = s).
Proof.
  intros bad. unfold bad, Routes.verifyGET.
  destruct identity as [id|]; [|split; [split; eauto|done]].
  destruct (Js.truthy id) eqn:Hid; simpl;
    [|apply truthy_false_iff in Hid; subst id;
      split; [split; eauto|done]].
  apply truthy_true_iff in Hid.
  destruct sha256 as [h|]; [|split; [split; eauto|done]].
  destruct (Js.truthy h) eqn:Hh; simpl;
    [|apply truthy_false_iff in Hh; subst h;
      split; [split; eauto|done]].
  apply truthy_true_iff in Hh.
  destruct (Vdxf.isValidSha256 h) eqn:Hv; simpl;
    [|split; [split; [intros _|eauto]|done];
      do 4 right; by exists h].
  assert (Hgood : ~ (Some id = None \/ Some id = Some "" \/ Some h = None
                     \/ Some h = Some ""
                     \/ exists h', Some h = Some h'
                                   /\ Vdxf.isValidSha256 h' = false)).
  { intros [?|[?|[?|[?|(h' & ? & ?)]]]]; simplify_eq; congruence. }
  split; [|done]. split; [|done].
  intros (message & s' & H). exfalso.
  destruct (Verus.getIdentityHistory _ _ _ _ _ _ s) as [[err|[v|]] s1].
  - injection H as H _. by apply verifyCatch_not_400 in H.
  - destruct (Vdxf.findTimestampByHash _ _ _) as [ts|]; [|discriminate].
    destruct (Verus.getBlock _ _ _ _ s1) as [[e|[b|]] s2]; discriminate.
  - discriminate.
Qed.

(** X17. From creation to verification, on a network whose five field
    labels are non-empty and pairwise distinct (the test network; with
    the empty labels of the main network nothing decodes and the route
    never answers verified). If the history the daemon returns for the
    identity holds an entry whose content map is the one
    [buildTimestampContentMap] builds for a record with a non-empty
    title and a [filesize] that, if present, is a safe integer, then the
    verify route, asked with a non-empty identity and a query of 64 hex
    digits that is the record's hash in any letter case, answers verified
    with a hash that equals the query up to case, whether or not the
    block time can be fetched. *)
Theorem verifyGET_finds_built_record (identity query : string)
    (s s1 : Verus.Net) (v : T) (e : Verus.IdentityHistoryEntry)
    (d : Vdxf.TimestampData) :
  Spec.keys_wf (Config.VDXF_KEYS net) ->
  identity <> "" ->
  Vdxf.isValidSha256 query = true ->
  Verus.getIdentityHistory fetch Date_now (Config.VERUS_RPC net)
    identity 0 0 s = (inr (Some v), s1) ->
  e ∈ Verus.history (asHistory v) ->
  Verus.contentmultimap (Verus.identity e)
  = Some (Vdxf.buildTimestampContentMap (Config.VDXF_KEYS net) d) ->
  Vdxf.title d <> "" ->
  Spec.safeSize d ->
  Spec.eqIgnoreCase (Vdxf.sha256 d) query ->
  exists ts s2,
    verify (Some identity) (Some query) s
    = (Routes.HttpJson
         (Routes.Verified (Verus.fullyqualifiedname (asHistory v)) ts), s2)
    /\ Spec.eqIgnoreCase (Routes.sha256 ts) query.
Proof.
  intros Hwf Hid Hq Hrpc He Hmap Ht Hn Heq.
  assert (Hqne : query <> "").
  { intros ->. discriminate. }
  assert (Hs : Vdxf.sha256 d <> "").
  { intros E. rewrite E in Heq. inversion Heq. congruence. }
  unfold Routes.verifyGET.
  apply truthy_true_iff in Hid, Hqne. rewrite Hid, Hqne, Hq. simpl.
  rewrite Hrpc.
  pose proof (parseHistoryEntry_build _ d e Hwf Hs Ht Hn Hmap) as Hp.
  unfold Vdxf.findTimestampByHash.
  pose proof (findLoop_result (Config.VDXF_KEYS net)
                (Verus.history (asHistory v)) (Js.toLowerCase query)) as Hf.
  destruct (Vdxf.findLoop _ _ _) as [ts|].
  - destruct Hf as (h1 & e' & h2 & _ & _ & Hm & _).
    apply toLowerCase_eq_iff in Hm.
    destruct (Verus.getBlock _ _ _ _ s1) as [[err|[b|]] s2];
      eexists _, _; (split; [reflexivity|exact Hm]).
  - exfalso. apply (Hf e _ He Hp). simpl. by apply toLowerCase_eq_iff.
Qed.

(** X18. The duplicate check and the verification agree: for the same
    parameters on the same network state, the check route reports an
    existing timestamp exactly when the verify route answers verified,
    and then both name the same title, block and transaction. *)
Theorem checkGET_agrees_with_verifyGET (identity sha256 : option string)
    (s : Verus.Net) :
  (forall t s1, check identity sha256 s
                = (Routes.HttpJson (Routes.Exists t), s1) ->
     exists fqn ts s2,
       verify identity sha256 s
       = (Routes.HttpJson (Routes.Verified fqn ts), s2)
       /\ Routes.title ts = Routes.existing_title t
       /\ Routes.blockhash ts = Routes.existing_blockhash t
       /\ Routes.blockheight ts = Routes.existing_blockheight t
       /\ Routes.txid ts = Routes.existing_txid t)
  /\ (forall fqn ts s2, verify identity sha256 s
                        = (Routes.HttpJson (Routes.Verified fqn ts), s2) ->
        exists t s1, check identity sha256 s
                     = (Routes.HttpJson (Routes.Exists t), s1)).
Proof.
  unfold Routes.verifyGET, Routes.checkGET.
  destruct identity as [id|]; [|by split].
  destruct (negb (Js.truthy id)); [by split|].
  destruct sha256 as [h|]; [|by split].
  destruct (negb (Js.truthy h)); [by split|].
  destruct (negb (Vdxf.isValidSha256 h)); [by split|].
  destruct (Verus.getIdentityHistory _ _ _ _ _ _ s) as [[err|[v|]] s1].
  - split.
    + intros t s' H. exfalso. unfold Routes.checkCatch in H.
      destruct err; [case_decide|]; discriminate.
    + intros fqn ts s' H. exfalso. unfold Routes.verifyCatch in H.
      destruct err; [case_decide|]; discriminate.
  - destruct (Vdxf.findTimestampByHash _ _ _) as [r|]; [|by split].
    split.
    + intros t s' [= <- <-].
      destruct (Verus.getBlock _ _ _ _ s1) as [[e|[b|]] s2];
        eexists _, _, _; (split; [reflexivity|done]).
    + intros fqn ts s' _. by eexists _, _.
  - by split.
Qed.

End RoutesFacts.

(* ===================================================================== *)
(** * More on the timestamp-creation registry *)
(* ===================================================================== *)

Lemma isTimestampRequestActive_lookup (id : string)
    (st : Timestamp.Registry) :
  Timestamp.isTimestampRequestActive id st
  = match Timestamp.pendingTimestampRequests st !! id,
          Timestamp.completedTimestamps st !! id with
    | None, None => false
    | _, _ => true
    end.
Proof.
  unfold Timestamp.isTimestampRequestActive.
  destruct (Timestamp.pendingTimestampRequests st !! id) as [p|];
    destruct (Timestamp.completedTimestamps st !! id) as [c|];
    repeat (rewrite bool_decide_eq_true_2 by (by eexists));
    repeat (rewrite bool_decide_eq_false_2 by (by intros [? [=]]));
    done.
Qed.

(** X19. A poll leaves the registry consistent with its answer: after
    [getTimestampResult], the id is active ([isTimestampRequestActive])
    exactly when the answer was pending or completed; an id that was not
    active before the poll is answered expired and nothing changes. *)
Theorem getTimestampResult_then_active (st : Timestamp.Registry)
    (id : string) (now : Z) :
  let r := Timestamp.getTimestampResult id now st in
  (Timestamp.isTimestampRequestActive id (snd r) = true
   <-> Timestamp.status (fst r) <> Timestamp.expired)
  /\ (Timestamp.isTimestampRequestActive id st = false ->
      r = ({| Timestamp.status := Timestamp.expired;
              Timestamp.txid := None |}, st)).
Proof.
  cbv zeta. rewrite !isTimestampRequestActive_lookup.
  unfold Timestamp.getTimestampResult.
  destruct (Timestamp.completedTimestamps st !! id) as [c|] eqn:Hc.
  - simpl. rewrite ?Hc.
    destruct (Timestamp.pendingTimestampRequests st !! id); by split.
  - destruct (Timestamp.pendingTimestampRequests st !! id) as [p|] eqn:Hp.
    + case_decide; simpl.
      * rewrite lookup_delete_eq, ?Hc. by split.
      * rewrite ?Hp, ?Hc. by split.
    + simpl. rewrite ?Hp, ?Hc. by split.
Qed.

Lemma run_exclusive (op : Timestamp.Op) (st : Timestamp.Registry) :
  Spec.exclusive st ->
  match op with
  | Timestamp.OpCreate r _ _ _ _ =>
      Timestamp.completedTimestamps st !! r = None
  | _ => True
  end ->
  Spec.exclusive (Timestamp.run op st).
Proof.
  intros Hex Hfresh id [[p Hp] [c Hc]].
  destruct op as [now|r u d n1 n2|r now|r x n1 n2];
    unfold Timestamp.run in Hp, Hc.
  - rewrite sweep_pending_lookup in Hp. rewrite sweep_completed_lookup in Hc.
    destruct (Timestamp.pendingTimestampRequests st !! id) eqn:E1; [|done].
    destruct (Timestamp.completedTimestamps st !! id) eqn:E2; [|done].
    apply (Hex id). rewrite E1, E2. split; by eexists.
  - simpl in Hp, Hc. destruct (decide (r = id)) as [->|Hne].
    + congruence.
    + rewrite lookup_insert_ne in Hp by done.
      apply (Hex id). rewrite Hp, Hc. split; by eexists.
  - unfold Timestamp.getTimestampResult in Hp, Hc.
    destruct (Timestamp.completedTimestamps st !! r) eqn:E1.
    + simpl in Hp, Hc. apply (Hex id). rewrite Hp, Hc. split; by eexists.
    + destruct (Timestamp.pendingTimestampRequests st !! r) eqn:E2.
      * case_decide; simpl in Hp, Hc.
        -- destruct (decide (r = id)) as [->|Hne].
           ++ by rewrite lookup_delete_eq in Hp.
           ++ rewrite lookup_delete_ne in Hp by done.
              apply (Hex id). rewrite Hp, Hc. split; by eexists.
        -- apply (Hex id). rewrite Hp, Hc. split; by eexists.
      * simpl in Hp, Hc. apply (Hex id). rewrite Hp, Hc. split; by eexists.
  - simpl in Hp, Hc. destruct (decide (r = id)) as [->|Hne].
    + by rewrite lookup_delete_eq in Hp.
    + rewrite lookup_delete_ne in Hp by done.
      rewrite lookup_insert_ne in Hc by done.
      apply (Hex id). rewrite Hp, Hc. split; by eexists.
Qed.

(** X20. No id is ever pending and completed at once: starting from a
    registry where that holds (the empty one at start-up), it holds after
    any sequence of sweeps, polls, stored results and created requests,
    as long as each created request is stored under an id new to the
    registry. A poll can therefore not find both entries. *)
Theorem registry_exclusive (ops : list Timestamp.Op)
    (st : Timestamp.Registry) :
  Spec.exclusive st -> Timestamp.freshIds ops st ->
  Spec.exclusive (Timestamp.runAll ops st).
Proof.
  unfold Timestamp.runAll. revert st.
  induction ops as [|op ops IH]; intros st Hex Hfresh; [done|].
  simpl in *. destruct Hfresh as [Hop Hrest].
  apply IH; [|done]. apply run_exclusive; [done|].
  destruct op; try done. by destruct Hop.
Qed.

(** X21. Ids do not interfere: creating, polling or storing under one
    id leaves the pending and the completed entry of every other id as
    they were. *)
Theorem run_other_id (op : Timestamp.Op) (st : Timestamp.Registry)
    (id id' : string) :
  Spec.target op = Some id -> id' <> id ->
  Timestamp.pendingTimestampRequests (Timestamp.run op st) !! id'
  = Timestamp.pendingTimestampRequests st !! id'
  /\ Timestamp.completedTimestamps (Timestamp.run op st) !! id'
     = Timestamp.completedTimestamps st !! id'.
Proof.
  intros Ht Hne.
  destruct op as [now|r u d n1 n2|r now|r x n1 n2]; simpl in Ht;
    [done|injection Ht as ->..].
  - simpl. by rewrite lookup_insert_ne.
  - unfold Timestamp.run, Timestamp.getTimestampResult.
    destruct (Timestamp.completedTimestamps st !! id); [done|].
    destruct (Timestamp.pendingTimestampRequests st !! id); [|done].
    case_decide; simpl; [|done]. by rewrite lookup_delete_ne.
  - simpl. by rewrite lookup_delete_ne, lookup_insert_ne.
Qed.

(** X22. Sweeps compose: two firings of the timer leave what a single
    firing at the later of the two times leaves. In particular a repeated
    sweep at the same time changes nothing more. *)
Theorem sweep_sweep (t1 t2 : Z) (st : Timestamp.Registry) :
  Timestamp.sweep t2 (Timestamp.sweep t1 st)
  = Timestamp.sweep (Z.max t1 t2) st.
Proof.
  assert (Hp : Timestamp.pendingTimestampRequests
                 (Timestamp.sweep t2 (Timestamp.sweep t1 st))
               = Timestamp.pendingTimestampRequests
                   (Timestamp.sweep (Z.max t1 t2) st)).
  { apply map_eq. intros id. rewrite !sweep_pending_lookup.
    destruct (Timestamp.pendingTimestampRequests st !! id) as [p|]; [|done].
    repeat case_decide; try done; lia. }
  assert (Hc : Timestamp.completedTimestamps
                 (Timestamp.sweep t2 (Timestamp.sweep t1 st))
               = Timestamp.completedTimestamps
                   (Timestamp.sweep (Z.max t1 t2) st)).
  { apply map_eq. intros id. rewrite !sweep_completed_lookup.
    destruct (Timestamp.completedTimestamps st !! id) as [c|]; [|done].
    repeat case_decide; try done; lia. }
  destruct (Timestamp.sweep t2 (Timestamp.sweep t1 st)) as [p2 c2].
  destruct (Timestamp.sweep (Z.max t1 t2) st) as [pm cm].
  simpl in Hp, Hc. by rewrite Hp, Hc.
Qed.

(* ===================================================================== *)
(** * More on the login registry *)
(* ===================================================================== *)

Lemma auth_sweep_pending_lookup (now : Z) (st : Auth.Registry)
    (id : string) :
  Auth.pendingChallenges (Auth.sweep now st) !! id
  = match Auth.pendingChallenges st !! id with
    | Some p =>
        if decide (now > Auth.Challenge.expiresAt p) then None else Some p
    | None => None
    end.
Proof.
  unfold Auth.sweep. simpl.
  destruct (Auth.pendingChallenges st !! id) as [p|] eqn:E.
  - case_decide.
    + apply map_lookup_filter_None. right. intros p' Hp'. simpl.
      rewrite E in Hp'. injection Hp' as <-. tauto.
    + apply map_lookup_filter_Some. done.
  - apply map_lookup_filter_None. by left.
Qed.

Lemma isChallengeActive_lookup (id : string) (st : Auth.Registry) :
  Auth.isChallengeActive id st
  = match Auth.pendingChallenges st !! id,
          Auth.completedAuths st !! id with
    | None, None => false
    | _, _ => true
    end.
Proof.
  unfold Auth.isChallengeActive.
  destruct (Auth.pendingChallenges st !! id) as [p|];
    destruct (Auth.completedAuths st !! id) as [c|];
    repeat (rewrite bool_decide_eq_true_2 by (by eexists));
    repeat (rewrite bool_decide_eq_false_2 by (by intros [? [=]]));
    done.
Qed.

(** X23. The login status route does not look at the clock: a challenge
    that is stored as pending, with no completed result, is reported
    pending and left in place however long ago it expired; it is reported
    expired only once a sweep later than its expiry has removed it. *)
Theorem statusGET_pending_until_swept (st : Auth.Registry) (id : string)
    (p : Auth.Challenge.t) :
  Auth.pendingChallenges st !! id = Some p ->
  Auth.completedAuths st !! id = None ->
  Auth.statusGET id st
  = ({| Auth.status := Auth.pending; Auth.result := None |}, st)
  /\ (forall now, now <= Auth.Challenge.expiresAt p ->
        Auth.statusGET id (Auth.sweep now st)
        = ({| Auth.status := Auth.pending; Auth.result := None |},
           Auth.sweep now st))
  /\ (forall now, now > Auth.Challenge.expiresAt p ->
        Auth.statusGET id (Auth.sweep now st)
        = ({| Auth.status := Auth.expired; Auth.result := None |},
           Auth.sweep now st)).
Proof.
  intros Hp Hc.
  assert (Hget : forall st', Auth.completedAuths st' !! id = None ->
    Auth.statusGET id st'
    = (if Auth.isChallengeActive id st'
       then {| Auth.status := Auth.pending; Auth.result := None |}
       else {| Auth.status := Auth.expired; Auth.result := None |}, st')).
  { intros st' Hc'. unfold Auth.statusGET, Auth.getAuthResult.
    rewrite Hc'. by destruct (Auth.isChallengeActive id st'). }
  assert (Hcs : forall now, Auth.completedAuths (Auth.sweep now st) !! id
                            = None).
  { intros now. by rewrite auth_sweep_completed_lookup, Hc. }
  split; [|split].
  - rewrite Hget by done. by rewrite isChallengeActive_lookup, Hp.
  - intros now Hnow. rewrite Hget by done.
    rewrite isChallengeActive_lookup, auth_sweep_pending_lookup, Hp, Hcs.
    case_decide; [lia|done].
  - intros now Hnow. rewrite Hget by done.
    rewrite isChallengeActive_lookup, auth_sweep_pending_lookup, Hp, Hcs.
    case_decide; [done|lia].
Qed.

Section VerifyFacts.
Variable searchParams : string -> option (list (string * string)).
Variable fromBase64 : string -> option Auth.LoginConsentResponse.
Variable verifyLoginConsentResponse :
  Auth.LoginConsentResponse -> option bool.
Variable getIdentityFriendlyName : string -> option string.

Local Abbreviation verifyLogin :=
  (Auth.verifyLoginResponse searchParams fromBase64
     verifyLoginConsentResponse getIdentityFriendlyName).

(** X24. What [verifyLoginResponse] does to the registry. When it
    returns nothing (data that does not parse, no challenge id, an
    unknown challenge, a signature that is invalid or cannot be checked)
    the registry is untouched, so the challenge can still be answered.
    When it returns an identity, the data parsed to a response with a
    valid signature whose challenge id is non-empty and was pending; it
    is this challenge, and no other, that is no longer pending, and the
    result is stored under this id, the entries of every other id being
    as before; the identity is the signing id of the response (empty when
    it has none) and the friendly name is the looked-up name or, when the
    lookup failed, the identity itself. *)
Theorem verifyLoginResponse_effect (responseData : string) (now1 now2 : Z)
    (st : Auth.Registry) :
  match verifyLogin responseData now1 now2 st with
  | (None, st') => st' = st
  | (Some r, st') =>
      exists response challengeId,
        Auth.parseResponse searchParams fromBase64 responseData
        = Some response
        /\ Auth.challenge_id response = Some challengeId
        /\ challengeId <> ""
        /\ verifyLoginConsentResponse response = Some true
        /\ is_Some (Auth.pendingChallenges st !! challengeId)
        /\ Auth.pendingChallenges st' !! challengeId = None
        /\ Auth.completedAuths st' !! challengeId
           = Some {| Auth.Completed.identity := Auth.identity r;
                     Auth.Completed.friendlyName := Auth.friendlyName r;
                     Auth.Completed.completedAt := now1;
                     Auth.Completed.expiresAt := now2 + 5 * 60 * 1000 |}
        /\ (forall id, id <> challengeId ->
              Auth.pendingChallenges st' !! id
              = Auth.pendingChallenges st !! id
              /\ Auth.completedAuths st' !! id
                 = Auth.completedAuths st !! id)
        /\ Auth.identity r
           = match Auth.signing_id response with
             | Some id => id
             | None => ""
             end
        /\ Auth.friendlyName r
           = match getIdentityFriendlyName (Auth.identity r) with
             | Some n => n
             | None => Auth.identity r
             end
  end.
Proof.
  unfold Auth.verifyLoginResponse.
  destruct (Auth.parseResponse _ _ _) as [response|]; [|done].
  destruct (Auth.challenge_id response) as [cid|] eqn:Hcid; [|done].
  destruct (Js.truthy cid) eqn:Htr; [|done]. simpl negb. cbv iota.
  apply truthy_true_iff in Htr.
  destruct (Auth.pendingChallenges st !! cid) as [p|] eqn:Hp; [|done].
  destruct (verifyLoginConsentResponse response) as [[]|] eqn:Hsig;
    [|done..].
  exists response, cid. simpl.
  split; [done|]. split; [done|]. split; [done|]. split; [done|].
  split; [by eexists|].
  split; [apply lookup_delete_eq|]. split; [apply lookup_insert_eq|].
  split.
  - intros id Hid. split.
    + by apply lookup_delete_ne.
    + by apply lookup_insert_ne.
  - split; [|done].
    destruct (Auth.signing_id response) as [sid|]; [|done].
    destruct (Js.truthy sid) eqn:E; [done|].
    by apply truthy_false_iff in E.
Qed.

(** X25. A login response works once: after [verifyLoginResponse] has
    accepted a response, presenting the same response again, at any
    time, is refused and changes nothing, because the challenge it names
    is no longer pending. *)
Theorem verifyLoginResponse_once (responseData : string) (now1 now2 : Z)
    (st st' : Auth.Registry) (r : Auth.AuthResult) :
  verifyLogin responseData now1 now2 st = (Some r, st') ->
  forall m1 m2, verifyLogin responseData m1 m2 st' = (None, st').
Proof.
  unfold Auth.verifyLoginResponse. intros H m1 m2.
  destruct (Auth.parseResponse _ _ _) as [response|]; [|done].
  destruct (Auth.challenge_id response) as [cid|]; [|done].
  destruct (negb (Js.truthy cid)); [done|].
  destruct (Auth.pendingChallenges st !! cid) as [p|]; [|done].
  destruct (verifyLoginConsentResponse response) as [[]|]; [|done..].
  injection H as _ <-. simpl. by rewrite lookup_delete_eq.
Qed.

End VerifyFacts.

(* ===================================================================== *)
(** * The browser session *)
(* ===================================================================== *)

(** X26. A session survives a page load for 24 hours: in a browser,
    after [login] at time [t], a reload followed by [init] at a time up to
    [t + 24 h] restores the very session that was saved; at a later time
    it restores nothing and removes the stored item. *)
Theorem session_reload (identity friendlyName : string) (t t' : Z)
    (env : Session.Env) :
  Session.browser env = true ->
  let session :=
    {| Session.identity := identity; Session.friendlyName := friendlyName;
       Session.createdAt := t; Session.expiresAt := t + 86400000 |} in
  let env' := Session.init t'
                (Session.reload (Session.login identity friendlyName t env)) in
  Session.initialized (Session.state env') = true
  /\ (t' <= t + 86400000 ->
      Session.getSession env' = Some session
      /\ Session.item env' = Session.Saved session)
  /\ (t' > t + 86400000 ->
      Session.getSession env' = None
      /\ Session.item env' = Session.NoItem).
Proof.
  intros Hb. cbv zeta.
  unfold Session.init, Session.reload, Session.login, Session.saveSession,
    Session.loadSession, Session.getSession, Session.duration.
  simpl. rewrite Hb. simpl.
  case_decide as Hgt; simpl in *; (split; [done|]); split; intros; (done || lia).
Qed.

(** X27. [validate] after [login] at time [t] answers whether the
    24 hours have not passed. While they have not, it changes nothing;
    once they have, it logs out: the store holds no session and, in a
    browser, the stored item is removed, so that no later [validate] or
    [init] brings the session back. *)
Theorem session_validate (identity friendlyName : string) (t t' : Z)
    (env : Session.Env) :
  let env1 := Session.login identity friendlyName t env in
  let r := Session.validate t' env1 in
  (t' <= t + 86400000 -> r = (true, env1))
  /\ (t' > t + 86400000 ->
      fst r = false
      /\ Session.getSession (snd r) = None
      /\ (Session.browser env = true ->
          Session.item (snd r) = Session.NoItem)
      /\ forall t'',
           fst (Session.validate t'' (snd r)) = false
           /\ Session.getSession
                (Session.init t'' (Session.reload (snd r))) = None).
Proof.
  cbv zeta. unfold Session.validate, Session.login, Session.duration.
  simpl. case_decide as Hgt; simpl in *.
  - split; [intros; lia|]. intros _. split; [done|]. split; [done|].
    split.
    + intros Hb. unfold Session.clearSession, Session.saveSession.
      by rewrite Hb.
    + intros t''. split; [done|].
      unfold Session.init, Session.reload, Session.loadSession,
        Session.getSession, Session.clearSession, Session.saveSession.
      simpl. by destruct (Session.browser env).
  - split; [done|]. intros; lia.
Qed.

(* ===================================================================== *)
(** * The query of the wallet redirect *)
(* ===================================================================== *)

Lemma get_without_requestId (name : string)
    (params : list (string * string)) :
  name <> "requestId" ->
  Callback.get name (filter (fun kv => fst kv <> "requestId") params)
  = Callback.get name params.
Proof.
  intros Hn. induction params as [|[k v] l IH]; [done|].
  rewrite filter_cons. simpl. case_decide as Hk; simpl.
  - case_decide; [done|exact IH].
  - rewrite IH. case_decide; [|done].
    exfalso. first [congruence | apply Hk; congruence].
Qed.

Lemma scanAddressKeys_without_requestId (params : list (string * string)) :
  Callback.scanAddressKeys
    (filter (fun kv => fst kv <> "requestId") params)
  = Callback.scanAddressKeys params.
Proof.
  induction params as [|[k v] l IH]; [done|].
  rewrite filter_cons. simpl. case_decide as Hk; simpl.
  - case_decide; [done|]. by rewrite IH.
  - rewrite IH. case_decide; [done|].
    exfalso. first [congruence | apply Hk; congruence].
Qed.

Lemma scanAddressKeys_nonempty (params : list (string * string))
    (d : string) :
  Callback.scanAddressKeys params = Some d -> d <> "".
Proof.
  induction params as [|[k v] l IH]; [done|]. simpl.
  case_decide; [exact IH|].
  destruct (String.prefix "i" k && (30 <? String.length k)%nat) eqn:E;
    [|exact IH].
  intros [= <-]. destruct (Js.truthy v) eqn:Hv.
  - by apply truthy_true_iff.
  - apply andb_true_iff in E as [_ E]. apply Nat.ltb_lt in E.
    intros ->. simpl in E. lia.
Qed.

(** X28. The search for the response in the query of the wallet
    redirect: what it finds is never empty; a non-empty [response]
    parameter wins over everything else; and the [requestId] parameters
    play no part, the result being the same with them removed. *)
Theorem findResponseData_spec (params : list (string * string)) :
  (forall d, Callback.findResponseData params = Some d -> d <> "")
  /\ (forall v, Callback.get "response" params = Some v -> v <> "" ->
        Callback.findResponseData params = Some v)
  /\ Callback.findResponseData
       (filter (fun kv => fst kv <> "requestId") params)
     = Callback.findResponseData params.
Proof.
  unfold Callback.findResponseData. split; [|split].
  - intros d.
    destruct (Callback.get "response" params) as [v|];
      [destruct (Js.truthy v) eqn:Hv|].
    + intros [= <-]. by apply truthy_true_iff.
    + destruct (Callback.get "data" params) as [v'|];
        [destruct (Js.truthy v') eqn:Hv'|].
      * intros [= <-]. by apply truthy_true_iff.
      * apply scanAddressKeys_nonempty.
      * apply scanAddressKeys_nonempty.
    + destruct (Callback.get "data" params) as [v'|];
        [destruct (Js.truthy v') eqn:Hv'|].
      * intros [= <-]. by apply truthy_true_iff.
      * apply scanAddressKeys_nonempty.
      * apply scanAddressKeys_nonempty.
  - intros v -> Hv. apply truthy_true_iff in Hv. by rewrite Hv.
  - rewrite !get_without_requestId by done.
    by rewrite scanAddressKeys_without_requestId.
Qed.

(* ===================================================================== *)
(** * Further concrete runs *)
(* ===================================================================== *)

Lemma findTimestampByHash_newest_witness :
  Vdxf.findTimestampByHash Examples.K0
    [Examples.storedUpper; Examples.storedOlder] Examples.hashLower
  = head (filter
            (fun r => Js.toLowerCase (Vdxf.sha256 (Vdxf.data r))
                      = Js.toLowerCase Examples.hashLower)
            (Vdxf.parseAllTimestamps Examples.K0
               [Examples.storedUpper; Examples.storedOlder])).
Proof.
  apply (findTimestampByHash_newest Examples.K0
           [Examples.storedUpper; Examples.storedOlder] Examples.hashLower).
  repeat constructor; unfold Spec.newerOrEqual; vm_compute; discriminate.
Defined.

Lemma parseTimestampData_after_update_witness :
  Vdxf.parseTimestampData Examples.K0
    ([Examples.liveSha; Examples.liveTitle; Examples.sizeEntry]
     ++ Vdxf.buildEntries Examples.K0 Examples.doc2)
  = Some {| Vdxf.sha256 := Examples.hashLower; Vdxf.title := "doc2";
            Vdxf.description := None; Vdxf.filename := None;
            Vdxf.filesize := Some 48213 |}.
Proof.
  assert (Hs : Vdxf.sha256 Examples.doc2 <> "") by discriminate.
  assert (Ht : Vdxf.title Examples.doc2 <> "") by discriminate.
  assert (Hn : Spec.safeSize Examples.doc2) by (intros n; discriminate).
  rewrite (parseTimestampData_after_update Examples.K0
             [Examples.liveSha; Examples.liveTitle; Examples.sizeEntry]
             Examples.doc2 testnet_keys_wf Hs Ht Hn).
  vm_compute. reflexivity.
Defined.

Lemma bufferToHex_format_witness :
  Vdxf.isValidSha256 (Hash.bufferToHex Examples.digest32) = true.
Proof.
  apply (bufferToHex_format Examples.digest32). reflexivity.
Defined.

Lemma bufferToHex_inj_witness :
  [Byte.x01; Byte.xff] = [Byte.x01; Byte.xff].
Proof.
  apply (bufferToHex_inj [Byte.x01; Byte.xff] [Byte.x01; Byte.xff]).
  reflexivity.
Defined.

Lemma verifyGET_finds_built_record_witness :
  exists ts s2,
    Routes.verifyGET Examples.chainAnswer Examples.clock Config.testnet
      Examples.asHistory Examples.asBlock
      (Some "alice@") (Some Examples.hashUpper) Examples.idle
    = (Routes.HttpJson (Routes.Verified "alice.VRSCTEST@" ts), s2)
    /\ Spec.eqIgnoreCase (Routes.sha256 ts) Examples.hashUpper.
Proof.
  apply (verifyGET_finds_built_record Examples.chainAnswer Examples.clock
           Config.testnet Examples.asHistory Examples.asBlock
           "alice@" Examples.hashUpper Examples.idle
           {| Verus.world := tt;
              Verus.trace := ["https://api.verustest.net"] |}
           (inl Examples.chainHistory)
           (Examples.historyEntry
              (Vdxf.buildEntries Examples.K0 Examples.upload)
              "000000blockhashC" 120 "txidC")
           Examples.upload).
  - exact testnet_keys_wf.
  - discriminate.
  - reflexivity.
  - reflexivity.
  - simpl. apply list_elem_of_here.
  - reflexivity.
  - discriminate.
  - intros n [= <-]. unfold Js.isSafeInteger, Js.MAX_SAFE_INTEGER. lia.
  - apply toLowerCase_eq_iff. vm_compute. reflexivity.
Defined.

Lemma registry_exclusive_witness :
  Spec.exclusive (Timestamp.runAll Examples.lifecycle Timestamp.emptyRegistry).
Proof.
  apply (registry_exclusive Examples.lifecycle Timestamp.emptyRegistry).
  - intros id [[p Hp] _]. simpl in Hp. by rewrite lookup_empty in Hp.
  - simpl. repeat split; reflexivity.
Defined.

Lemma run_other_id_witness :
  Timestamp.pendingTimestampRequests
    (Timestamp.run
       (Timestamp.OpStore "iRequest2" "cafe" Examples.t0 Examples.t0)
       Examples.requested) !! "iRequest1"
  = Timestamp.pendingTimestampRequests Examples.requested !! "iRequest1"
  /\ Timestamp.completedTimestamps
       (Timestamp.run
          (Timestamp.OpStore "iRequest2" "cafe" Examples.t0 Examples.t0)
          Examples.requested) !! "iRequest1"
     = Timestamp.completedTimestamps Examples.requested !! "iRequest1".
Proof.
  apply (run_other_id
           (Timestamp.OpStore "iRequest2" "cafe" Examples.t0 Examples.t0)
           Examples.requested "iRequest2" "iRequest1");
    [reflexivity|discriminate].
Defined.

Lemma statusGET_pending_until_swept_witness :
  Auth.statusGET "iChallenge1" Examples.challenged
  = ({| Auth.status := Auth.pending; Auth.result := None |},
     Examples.challenged)
  /\ Auth.status
       (fst (Auth.statusGET "iChallenge1"
               (Auth.sweep (Examples.t0 + 700000) Examples.challenged)))
     = Auth.expired.
Proof.
  destruct (statusGET_pending_until_swept Examples.challenged "iChallenge1"
              {| Auth.Challenge.sessionId := "iSession1";
                 Auth.Challenge.createdAt := Examples.t0;
                 Auth.Challenge.expiresAt := Examples.t0 + 10 * 60 * 1000 |})
    as (H1 & _ & H3); [reflexivity|reflexivity|].
  split; [exact H1|].
  rewrite (H3 (Examples.t0 + 700000)); [reflexivity|].
  unfold Examples.t0. simpl. lia.
Defined.

Lemma verifyLoginResponse_once_witness :
  Auth.verifyLoginResponse Examples.noParams Examples.decodeOne
    Examples.signatureValid Examples.nameOf "cmVzcG9uc2U="
    (Examples.t0 + 9000) (Examples.t0 + 9000) Examples.loggedIn
  = (None, Examples.loggedIn).
Proof.
  apply (verifyLoginResponse_once Examples.noParams Examples.decodeOne
           Examples.signatureValid Examples.nameOf "cmVzcG9uc2U="
           (Examples.t0 + 4000) (Examples.t0 + 4000) Examples.challenged
           Examples.loggedIn
           {| Auth.identity := "iAlice"; Auth.friendlyName := "alice@" |}).
  reflexivity.
Defined.

Lemma session_reload_witness :
  Session.getSession
    (Session.init (Examples.t0 + 3600000)
       (Session.reload
          (Session.login "iAlice" "alice@" Examples.t0
             Examples.freshBrowser)))
  = Some {| Session.identity := "iAlice"; Session.friendlyName := "alice@";
            Session.createdAt := Examples.t0;
            Session.expiresAt := Examples.t0 + 86400000 |}.
Proof.
  destruct (session_reload "iAlice" "alice@" Examples.t0
              (Examples.t0 + 3600000) Examples.freshBrowser eq_refl)
    as (_ & H & _).
  apply H. lia.
Defined.

Lemma build_parse_build_witness :
  exists d',
    Vdxf.parseTimestampData Examples.K0
      (Vdxf.buildEntries Examples.K0 Examples.upload) = Some d'
    /\ Spec.safeSize d'
    /\ Vdxf.buildEntries Examples.K0 d'
       = Vdxf.buildEntries Examples.K0 Examples.upload
    /\ Vdxf.parseTimestampData Examples.K0
         (Vdxf.buildEntries Examples.K0 d') = Some d'.
Proof.
  apply (build_parse_build Examples.K0 Examples.upload testnet_keys_wf);
    [discriminate..|].
  intros n [= <-]. unfold Js.isSafeInteger, Js.MAX_SAFE_INTEGER. lia.
Defined.

(* ===================================================================== *)
(** * Updates that are not timestamps, and the login seen by the poller *)
(* ===================================================================== *)

Section Unrelated.
Variable K : Config.VdxfKeys.

Lemma findLoop_skip (h1 h2 : list Verus.IdentityHistoryEntry)
    (e : Verus.IdentityHistoryEntry) (nh : string) :
  Vdxf.parseHistoryEntry K e = None ->
  Vdxf.findLoop K (h1 ++ e :: h2) nh = Vdxf.findLoop K (h1 ++ h2) nh.
Proof.
  intros He. induction h1 as [|x h1 IH]; simpl.
  - by rewrite He.
  - destruct (Vdxf.parseHistoryEntry K x) as [r|]; [|exact IH].
    case_decide; [done|exact IH].
Qed.

(** X29. Identity updates that carry no timestamp are invisible: an
    entry of the history without a content map, without the proof key,
    with an empty list under it, or with entries that do not decode, can
    be dropped from the history, wherever it stands, without changing
    the list of all timestamps or the result of any lookup. *)
Theorem undecodable_entry_invisible
    (h1 h2 : list Verus.IdentityHistoryEntry)
    (e : Verus.IdentityHistoryEntry) :
  (Verus.contentmultimap (Verus.identity e) = None
   \/ (exists m, Verus.contentmultimap (Verus.identity e) = Some m
                 /\ (m !! Config.proofBasic K = None
                     \/ m !! Config.proofBasic K = Some []
                     \/ exists entries,
                          m !! Config.proofBasic K = Some entries
                          /\ Vdxf.parseTimestampData K entries = None))) ->
  Vdxf.parseAllTimestamps K (h1 ++ e :: h2)
  = Vdxf.parseAllTimestamps K (h1 ++ h2)
  /\ forall target,
       Vdxf.findTimestampByHash K (h1 ++ e :: h2) target
       = Vdxf.findTimestampByHash K (h1 ++ h2) target.
Proof.
  intros H.
  assert (He : Vdxf.parseHistoryEntry K e = None).
  { unfold Vdxf.parseHistoryEntry.
    destruct H as [->|(m & -> & [->|[->|(entries & -> & Hp)]])];
      try done.
    rewrite Hp. by destruct entries. }
  split.
  - unfold Vdxf.parseAllTimestamps. rewrite !omap_app. simpl.
    by rewrite He.
  - intros target. unfold Vdxf.findTimestampByHash. by apply findLoop_skip.
Qed.

End Unrelated.

Section LoginSeen.
Variable searchParams : string -> option (list (string * string)).
Variable fromBase64 : string -> option Auth.LoginConsentResponse.
Variable verifyLoginConsentResponse :
  Auth.LoginConsentResponse -> option bool.
Variable getIdentityFriendlyName : string -> option string.


End LoginSeen.

Lemma undecodable_entry_invisible_witness :
  Vdxf.parseAllTimestamps Examples.K0
    ([Examples.storedUpper]
     ++ Examples.historyEntry [Examples.nullSha; Examples.liveTitle]
          "000000blockhashD" 8 "txidD"
        :: [Examples.storedOlder])
  = Vdxf.parseAllTimestamps Examples.K0
      ([Examples.storedUpper] ++ [Examples.storedOlder]).
Proof.
  apply (undecodable_entry_invisible Examples.K0 [Examples.storedUpper]
           [Examples.storedOlder]
           (Examples.historyEntry [Examples.nullSha; Examples.liveTitle]
              "000000blockhashD" 8 "txidD")).
  right. eexists. split; [reflexivity|].
  right; right. eexists. split; [apply lookup_singleton_eq|].
  vm_compute. reflexivity.
Defined.

